(** * Voice bridge: websocket server and Gemini Live client

    A shallow embedding of [websocket_server.py], [gemini_live_client.py],
    the connection manager, the broadcast and the shutdown of
    [main_integrated.py] and the broadcast of [main.py], with the
    properties of the session bridge stated over it.

    Conventions.
    - Python objects that are shared and mutated ([GeminiLiveClient]
      instances) live in a heap addressed by [Addr]; dictionaries hold
      references, as in the source.
    - Every coroutine is a computation in the monad [M]: it threads the
      [World] and appends to a trace of [Event]s (calls made on websockets,
      on adapters and on remote sessions).
    - Whatever the outside decides (does the SDK raise, what does
      [json.loads] return) is an explicit argument.
    - A coroutine is a function of the world it starts in: it is described
      as it runs when no other coroutine changes the world while it waits
      in an [await]. The transition system [Run.step] takes apart the two
      coroutines that change the world on both sides of an [await], so that
      its reachable worlds include those that other coroutines see in
      between. *)

From Stdlib Require Import NArith ZArith Ascii Floats Lia.
From Stdlib.Strings Require Import Byte.
From stdpp Require Import gmap strings list pretty.

Local Open Scope N_scope.

(** ** Bytes and base64 (Python's [base64] over [binascii]) *)

Module Base64.

Definition bytes := list byte.

(** Assignment to an [unsigned char]: keep the low eight bits. *)
Definition to_uchar (n : N) : byte :=
  match Byte.of_N (N.land n 255) with
  | Some b => b
  | None => x00
  end.

Definition table_b2a_base64 : string :=
  "ABCDEFGHIJKLMNOPQRSTUVWXYZabcdefghijklmnopqrstuvwxyz0123456789+/".

Definition BASE64_PAD : ascii := "="%char.

Fixpoint nth_char (n : nat) (s : string) : ascii :=
  match s with
  | EmptyString => BASE64_PAD
  | String c rest =>
      match n with
      | O => c
      | S n' => nth_char n' rest
      end
  end.

Definition b2a (six : N) : ascii := nth_char (N.to_nat six) table_b2a_base64.

(** The inverse table; 255 (that is, [(unsigned char) -1]) marks a
    character outside the alphabet. *)
Definition table_a2b_base64 (c : N) : N :=
  if (65 <=? c) && (c <=? 90) then c - 65
  else if (97 <=? c) && (c <=? 122) then c - 71
  else if (48 <=? c) && (c <=? 57) then c + 4
  else if c =? 43 then 62
  else if c =? 47 then 63
  else 255.

(** The four sextets of a group of three bytes [a], [b], [c]. *)
Definition six1 (a : N) : N := N.shiftr a 2.
Definition six2 (a b : N) : N := N.lor (N.shiftl (N.land a 3) 4) (N.shiftr b 4).
Definition six3 (b c : N) : N := N.lor (N.shiftl (N.land b 15) 2) (N.shiftr c 6).
Definition six4 (c : N) : N := N.land c 63.

(** [base64.b64encode] ([binascii.b2a_base64] without the newline): three
    bytes give four characters, a last group of one or two bytes is padded
    with [=]. *)
Fixpoint b64encode_chars (data : bytes) : list ascii :=
  match data with
  | [] => []
  | [x] =>
      let a := Byte.to_N x in
      [ b2a (six1 a); b2a (N.shiftl (N.land a 3) 4); BASE64_PAD; BASE64_PAD ]
  | [x; y] =>
      let a := Byte.to_N x in
      let b := Byte.to_N y in
      [ b2a (six1 a); b2a (six2 a b); b2a (N.shiftl (N.land b 15) 2);
        BASE64_PAD ]
  | x :: y :: z :: rest =>
      let a := Byte.to_N x in
      let b := Byte.to_N y in
      let c := Byte.to_N z in
      b2a (six1 a) :: b2a (six2 a b) :: b2a (six3 b c) :: b2a (six4 c)
        :: b64encode_chars rest
  end.

Definition b64encode (data : bytes) : string :=
  String.string_of_list_ascii (b64encode_chars data).

(** The loop of [binascii.a2b_base64] in its default, non-strict mode:
    characters outside the alphabet are skipped, a pad that completes a
    quad ends the input, and a dangling quad is an error ([inl], with
    [quad_pos] and the bytes decoded so far, which the text of the error is
    made from). *)
Fixpoint a2b_base64_loop (ascii_data : list ascii)
    (quad_pos leftchar pads : N) (bin_data : bytes) : N * bytes + bytes :=
  match ascii_data with
  | [] => if quad_pos =? 0 then inr bin_data else inl (quad_pos, bin_data)
  | ch :: rest =>
      if Ascii.eqb ch BASE64_PAD then
        if (2 <=? quad_pos) && (4 <=? quad_pos + (pads + 1)) then
          inr bin_data
        else
          a2b_base64_loop rest quad_pos leftchar
            (if 2 <=? quad_pos then pads + 1 else pads) bin_data
      else
        let this_ch := table_a2b_base64 (N_of_ascii ch) in
        if 64 <=? this_ch then
          a2b_base64_loop rest quad_pos leftchar pads bin_data
        else
          match quad_pos with
          | 0 => a2b_base64_loop rest 1 this_ch 0 bin_data
          | 1 =>
              a2b_base64_loop rest 2 (N.land this_ch 15) 0
                (bin_data ++
                   [to_uchar (N.lor (N.shiftl leftchar 2) (N.shiftr this_ch 4))])
          | 2 =>
              a2b_base64_loop rest 3 (N.land this_ch 3) 0
                (bin_data ++
                   [to_uchar (N.lor (N.shiftl leftchar 4) (N.shiftr this_ch 2))])
          | _ =>
              a2b_base64_loop rest 0 0 0
                (bin_data ++ [to_uchar (N.lor (N.shiftl leftchar 6) this_ch)])
          end
  end.

(** [binascii.a2b_base64]; [inl] is the text of the [binascii.Error]. *)
Definition a2b_base64 (s : string) : string + bytes :=
  match a2b_base64_loop (String.list_ascii_of_string s) 0 0 0 [] with
  | inr bin_data => inr bin_data
  | inl (quad_pos, bin_data) =>
      inl (if quad_pos =? 1 then
             String.append
               "Invalid base64-encoded string: number of data characters ("
               (String.append
                  (pretty (N.of_nat (length bin_data) / 3 * 4 + 1))
                  ") cannot be 1 more than a multiple of 4")
           else "Incorrect padding"%string)
  end.

Definition is_ascii (s : string) : bool :=
  forallb (fun c => N_of_ascii c <? 128) (String.list_ascii_of_string s).

(** Why [base64.b64decode] raised. *)
Inductive DecodeFault :=
| NotAscii          (* ValueError: string argument should contain only ASCII *)
| BinasciiError (msg : string).   (* binascii.Error: padding or length *)

(** [base64.b64decode(s)] for a [str] argument. *)
Definition b64decode (s : string) : DecodeFault + bytes :=
  if is_ascii s then
    match a2b_base64 s with
    | inr data => inr data
    | inl msg => inl (BinasciiError msg)
    end
  else inl NotAscii.

(** Every value of a byte. *)
Definition codes : list N := map N.of_nat (seq 0 256).

End Base64.

Import Base64.
Local Close Scope N_scope.
Local Open Scope string_scope.

(** ** Python values that travel as JSON *)

(** What [json.loads] returns and what [json.dumps] takes: [None], [bool],
    [int], [float], [str], [list] and [dict] with string keys. A [dict] is
    kept as its items (a key stands once); [assoc] reads the item of a
    key. *)
#[warnings="-register-all"]
Inductive json :=
| JNull
| JBool (b : bool)
| JInt (n : Z)
| JFloat (f : float)
| JStr (s : string)
| JArr (items : list json)
| JObj (items : list (string * json)).

(** Truth value of an object in a condition ([if x:]). *)
Definition truthy (v : json) : bool :=
  match v with
  | JNull => false
  | JBool b => b
  | JInt n => negb (n =? 0)%Z
  | JFloat f => negb (PrimFloat.eqb f 0%float)
  | JStr s => negb (String.eqb s "")
  | JArr items => match items with [] => false | _ => true end
  | JObj items => match items with [] => false | _ => true end
  end.

(** [v == s] for a string literal [s]. *)
Definition eq_str (v : json) (s : string) : bool :=
  match v with
  | JStr s' => String.eqb s' s
  | _ => false
  end.

Fixpoint assoc (key : string) (items : list (string * json)) : option json :=
  match items with
  | [] => None
  | (k, v) :: rest => if String.eqb k key then Some v else assoc key rest
  end.

Definition type_name (v : json) : string :=
  match v with
  | JNull => "NoneType"
  | JBool _ => "bool"
  | JInt _ => "int"
  | JFloat _ => "float"
  | JStr _ => "str"
  | JArr _ => "list"
  | JObj _ => "dict"
  end.

(** ** Exceptions *)

Inductive exn :=
| JSONDecodeError
| AttributeError (msg : string)
| ValueError (msg : string)
| TypeError (msg : string)
| binascii_Error (msg : string)
| SdkError (msg : string)       (* anything raised inside the Gemini SDK *)
| ConnectionClosed.             (* raised by the websocket transport *)

(** [str(e)] *)
Definition exn_str (e : exn) : string :=
  match e with
  | JSONDecodeError => "Expecting value"
  | ConnectionClosed => ""
  | AttributeError msg | ValueError msg | TypeError msg
  | binascii_Error msg | SdkError msg => msg
  end.

Definition is_JSONDecodeError (e : exn) : bool :=
  match e with JSONDecodeError => true | _ => false end.

Inductive result (A : Type) :=
| Ok (a : A)
| Raise (e : exn).
Arguments Ok {A} a.
Arguments Raise {A} e.

(** What an awaited call into a library did. *)
Inductive Outcome :=
| Returns
| Raises (e : exn).

(** ** Objects, events and the world *)

Definition WebSocket := nat.   (* a WebSocketServerProtocol, by identity *)
Definition Addr := nat.        (* a GeminiLiveClient, by identity *)
Definition Session := nat.     (* what client.aio.live.connect(...) returned *)

(** The only callbacks this program builds are
    [lambda msg: self.send_to_client(websocket, msg)]: a callback is the
    websocket it closes over. *)
Definition Callable := WebSocket.

Record GeminiLiveClient := mkClient {
  api_key : string;
  session : option Session;
  is_connected : bool;
  message_callback : option Callable
}.

Inductive Method :=
| m_connect
| m_send_audio (audio_data : bytes) (mime_type : json)
| m_send_text (text : json)
| m_disconnect.

Inductive SessionCall :=
| s_aenter
| s_send_realtime_input (data : bytes) (mime_type : json)
| s_send_client_content (text : json)
| s_aexit.

Inductive Event :=
| WsAccept (websocket : WebSocket)
    (* websocket.accept() *)
| WsSend (websocket : WebSocket) (message : json)
    (* websocket.send(json.dumps(message)) *)
| AdapterCall (self : Addr) (m : Method)
    (* a public method of the GeminiLiveClient at [self] is entered *)
| Sink (self : Addr) (cb : Callable) (message : json)
    (* self.message_callback(message) *)
| Remote (self : Addr) (h : Session) (c : SessionCall)
    (* a method of self.session is awaited *)
| CreateTask (self : Addr).
    (* asyncio.create_task(self._listen_for_messages()) *)

Section World.

(** [S] is the state of whichever server owns the clients. *)
Context {S : Type}.

Record World := mkWorld {
  server : S;
  heap : gmap Addr GeminiLiveClient
}.

(** A coroutine: may raise, changes the world, leaves a trace. *)
Definition M (A : Type) : Type := World -> result A * World * list Event.

Definition ret {A} (a : A) : M A := fun w => (Ok a, w, []).

Definition bind {A B} (m : M A) (f : A -> M B) : M B :=
  fun w =>
    match m w with
    | (Ok a, w1, t1) =>
        let '(r, w2, t2) := f a w1 in (r, w2, (t1 ++ t2)%list)
    | (Raise e, w1, t1) => (Raise e, w1, t1)
    end.

Definition raise {A} (e : exn) : M A := fun w => (Raise e, w, []).

(** [try: body / except Exception as e: handler e] *)
Definition try_except {A} (body : M A) (handler : exn -> M A) : M A :=
  fun w =>
    match body w with
    | (Ok a, w1, t1) => (Ok a, w1, t1)
    | (Raise e, w1, t1) =>
        let '(r, w2, t2) := handler e w1 in (r, w2, (t1 ++ t2)%list)
    end.

Definition tell (ev : Event) : M unit := fun w => (Ok tt, w, [ev]).

Definition gets {A} (f : World -> A) : M A := fun w => (Ok (f w), w, []).

Definition modify (f : World -> World) : M unit := fun w => (Ok tt, f w, []).

(** An awaited library call: it is made, then it returns or raises. *)
Definition await (ev : Event) (o : Outcome) : M unit :=
  fun w =>
    match o with
    | Returns => (Ok tt, w, [ev])
    | Raises e => (Raise e, w, [ev])
    end.

(** A library call that builds a value and may raise before any I/O. *)
Definition build (o : Outcome) : M unit :=
  fun w =>
    match o with
    | Returns => (Ok tt, w, [])
    | Raises e => (Raise e, w, [])
    end.

Definition when (b : bool) (m : M unit) : M unit := if b then m else ret tt.

End World.

Arguments World S : clear implicits.
Arguments M S A : clear implicits.

Declare Scope py_scope.
Delimit Scope py_scope with py.
Notation "x <- m ;; k" := (bind m (fun x => k))
  (at level 20, m at level 99, k at level 200, only parsing) : py_scope.
Notation "m ;; k" := (bind m (fun _ => k))
  (at level 100, k at level 200, only parsing, right associativity) : py_scope.
Local Open Scope py_scope.

(** ** gemini_live_client.py *)

(** The parts of a [LiveServerMessage] that the client reads. *)
Record ServerContent := mkServerContent {
  turn_complete : option bool;
  interrupted : option bool
}.

Record UsageMetadata := mkUsage {
  total_token_count : option Z
}.

Record LiveServerMessage := mkResponse {
  data : option bytes;
  server_content : option ServerContent;
  usage_metadata : option UsageMetadata
}.

(** What the SDK does when a session is opened: [live_connect] covers
    building the [LiveConnectConfig] and [client.aio.live.connect(...)],
    [aenter] the awaited [__aenter__]. *)
Record ConnectEnv := mkConnectEnv {
  live_connect : exn + Session;
  aenter : Outcome
}.

(** What the SDK does on a send: [construct] covers [types.Blob(...)] or
    [types.Content(...)], [transmit] the awaited session method. *)
Record SendEnv := mkSendEnv {
  construct : Outcome;
  transmit : Outcome
}.

Definition opt_truthy (b : option bool) : bool :=
  match b with
  | Some true => true
  | _ => false
  end.

Definition opt_int (n : option Z) : json :=
  match n with
  | Some z => JInt z
  | None => JNull
  end.

Module Gemini.
Section Client.

Context {S : Type}.

(** A client that was never stored: what [__init__] leaves. *)
Definition blank (key : string) : GeminiLiveClient :=
  mkClient key None false None.

(** A new object at an address that was not in use. *)
Definition allocate (c : GeminiLiveClient) : M S Addr :=
  fun w =>
    let self := fresh (dom (heap w)) in
    (Ok self, mkWorld (server w) (<[self := c]> (heap w)), []).

(** [GeminiLiveClient(api_key)]. [__init__] calls
    [genai.Client(api_key=api_key)] outside any [try]; [init] says what that
    call does. When it raises, the constructor raises and there is no new
    object. *)
Definition new (key : string) (init : Outcome) : M S Addr :=
  build init ;;
  allocate (blank key).

Definition load (self : Addr) : M S GeminiLiveClient :=
  gets (fun w => default (blank "") (heap w !! self)).

Definition update (self : Addr) (f : GeminiLiveClient -> GeminiLiveClient)
  : M S unit :=
  modify (fun w => mkWorld (server w) (alter f self (heap w))).

Definition set_session (self : Addr) (v : option Session) : M S unit :=
  update self
    (fun c => mkClient (api_key c) v (is_connected c) (message_callback c)).

Definition set_is_connected (self : Addr) (v : bool) : M S unit :=
  update self
    (fun c => mkClient (api_key c) (session c) v (message_callback c)).

Definition set_message_callback (self : Addr) (v : option Callable)
  : M S unit :=
  update self (fun c => mkClient (api_key c) (session c) (is_connected c) v).

Definition open_session (o : ConnectEnv) : M S Session :=
  match live_connect o with
  | inl e => raise e
  | inr h => ret h
  end.

Definition connect (self : Addr) (callback : Callable) (o : ConnectEnv)
  : M S bool :=
  tell (AdapterCall self m_connect) ;;
  try_except
    (set_message_callback self (Some callback) ;;
     h <- open_session o ;;
     set_session self (Some h) ;;
     await (Remote self h s_aenter) (aenter o) ;;
     set_is_connected self true ;;
     tell (CreateTask self) ;;
     ret true)
    (fun _ => ret false).

Definition send_audio (self : Addr) (audio_data : bytes) (mime_type : json)
    (o : SendEnv) : M S bool :=
  tell (AdapterCall self (m_send_audio audio_data mime_type)) ;;
  try_except
    (c <- load self ;;
     match session c with
     | None => ret false
     | Some h =>
         if negb (is_connected c) then ret false
         else
           build (construct o) ;;
           await (Remote self h (s_send_realtime_input audio_data mime_type))
                 (transmit o) ;;
           ret true
     end)
    (fun _ => ret false).

Definition send_text (self : Addr) (text : json) (o : SendEnv) : M S bool :=
  tell (AdapterCall self (m_send_text text)) ;;
  try_except
    (c <- load self ;;
     match session c with
     | None => ret false
     | Some h =>
         if negb (is_connected c) then ret false
         else
           build (construct o) ;;
           await (Remote self h (s_send_client_content text)) (transmit o) ;;
           ret true
     end)
    (fun _ => ret false).

Definition disconnect (self : Addr) (aexit : Outcome) : M S unit :=
  tell (AdapterCall self m_disconnect) ;;
  try_except
    (set_is_connected self false ;;
     c <- load self ;;
     match session c with
     | Some h =>
         await (Remote self h s_aexit) aexit ;;
         set_session self None
     | None => ret tt
     end)
    (fun _ => ret tt).

(** How the owner of the client runs a callback it handed out. *)
Variable call : Callable -> json -> M S unit.

Definition _send_to_client (self : Addr) (message : json) : M S unit :=
  c <- load self ;;
  match message_callback c with
  | Some cb => tell (Sink self cb message) ;; call cb message
  | None => ret tt
  end.

Definition _handle_gemini_response (self : Addr)
    (response : LiveServerMessage) : M S unit :=
  try_except
    (match data response with
     | Some payload =>
         _send_to_client self
           (JObj [("type", JStr "audio_data");
                  ("data", JStr (b64encode payload));
                  ("mime_type", JStr "audio/pcm;rate=24000")])
     | None => ret tt
     end ;;
     match server_content response with
     | Some sc =>
         when (opt_truthy (turn_complete sc))
           (_send_to_client self (JObj [("type", JStr "ai_stopped_speaking")]))
     | None => ret tt
     end ;;
     match server_content response with
     | Some sc =>
         when (opt_truthy (interrupted sc))
           (_send_to_client self
              (JObj [("type", JStr "generation_interrupted")]))
     | None => ret tt
     end ;;
     match usage_metadata response with
     | Some um =>
         _send_to_client self
           (JObj [("type", JStr "usage_metadata");
                  ("total_tokens", opt_int (total_token_count um))])
     | None => ret tt
     end)
    (fun _ => ret tt).

Fixpoint for_each {A} (items : list A) (body : A -> M S unit) : M S unit :=
  match items with
  | [] => ret tt
  | x :: rest => body x ;; for_each rest body
  end.

(** The background task. [responses] is what [self.session.receive()]
    yields before it stops; [ending] says how it stops: the iteration is
    over ([Returns]) or it raises. *)
Definition _listen_for_messages (self : Addr)
    (responses : list LiveServerMessage) (ending : Outcome) : M S unit :=
  try_except
    (c <- load self ;;
     match session c with
     | None => ret tt
     | Some _ =>
         for_each responses (_handle_gemini_response self) ;;
         build ending
     end)
    (fun _ => set_is_connected self false).

End Client.
End Gemini.

(** ** Reading a decoded frame *)

Section Dict.

Context {S : Type}.

(** [data.get(key)]: [data] has to be a dict. *)
Definition dict_get (d : json) (key : string) : M S json :=
  match d with
  | JObj items => ret (default JNull (assoc key items))
  | other =>
      raise (AttributeError
               ("'" ++ type_name other ++ "' object has no attribute 'get'"))
  end.

(** [data.get(key, fallback)] *)
Definition dict_get_or (d : json) (key : string) (fallback : json)
  : M S json :=
  match d with
  | JObj items => ret (default fallback (assoc key items))
  | other =>
      raise (AttributeError
               ("'" ++ type_name other ++ "' object has no attribute 'get'"))
  end.

(** [base64.b64decode(v)] on whatever the frame carried. *)
Definition py_b64decode (v : json) : M S bytes :=
  match v with
  | JStr s =>
      match b64decode s with
      | inr decoded => ret decoded
      | inl NotAscii =>
          raise (ValueError
                   "string argument should contain only ASCII characters")
      | inl (BinasciiError msg) => raise (binascii_Error msg)
      end
  | other =>
      raise (TypeError
               ("argument should be a bytes-like object or ASCII string, not '"
                  ++ type_name other ++ "'"))
  end.

End Dict.

Definition error_frame (msg : string) : json :=
  JObj [("type", JStr "error"); ("message", JStr msg)].

Definition frame (type : string) : json := JObj [("type", JStr type)].

(** ** websocket_server.py *)

Module WS.

Record VoiceAIWebSocketServer := mkServer {
  gemini_api_key : string;
  clients : gmap WebSocket Addr;
  active_connections : gset WebSocket
}.

Section Server.

(** [json.loads]; [None] is [json.JSONDecodeError]. *)
Variable json_loads : string -> option json.
(** [str(v)] inside an f-string. *)
Variable format : json -> string.
(** What [websocket.send] does with a frame. *)
Variable transport : WebSocket -> json -> Outcome.

Local Abbreviation W := (World VoiceAIWebSocketServer).
Local Abbreviation Co := (M VoiceAIWebSocketServer).

Definition on_server
    (f : VoiceAIWebSocketServer -> VoiceAIWebSocketServer) : Co unit :=
  modify (fun w => mkWorld (f (server w)) (heap w)).

Definition send_to_client (websocket : WebSocket) (message : json)
  : Co unit :=
  try_except
    (active <- gets (fun w : W =>
                       bool_decide (websocket ∈ active_connections (server w))) ;;
     when active
       (await (WsSend websocket message) (transport websocket message)))
    (fun _ => ret tt).

Definition register_client (websocket : WebSocket) (init : Outcome)
    (o : ConnectEnv) : Co unit :=
  on_server (fun s => mkServer (gemini_api_key s) (clients s)
                        ({[websocket]} ∪ active_connections s)) ;;
  key <- gets (fun w : W => gemini_api_key (server w)) ;;
  gemini_client <- Gemini.new key init ;;
  on_server (fun s => mkServer (gemini_api_key s)
                        (<[websocket := gemini_client]> (clients s))
                        (active_connections s)) ;;
  success <- Gemini.connect gemini_client websocket o ;;
  if success then
    send_to_client websocket
      (JObj [("type", JStr "connection_established");
             ("message", JStr "Успешно подключились к Gemini Live API")])
  else
    send_to_client websocket
      (error_frame "Ошибка подключения к Gemini Live API").

Definition unregister_client (websocket : WebSocket) (aexit : Outcome)
  : Co unit :=
  on_server (fun s => mkServer (gemini_api_key s) (clients s)
                        (active_connections s ∖ {[websocket]})) ;;
  entry <- gets (fun w : W => clients (server w) !! websocket) ;;
  match entry with
  | Some gemini_client =>
      Gemini.disconnect gemini_client aexit ;;
      on_server (fun s => mkServer (gemini_api_key s)
                            (delete websocket (clients s))
                            (active_connections s))
  | None => ret tt
  end.

Definition loads (message : string) : Co json :=
  match json_loads message with
  | Some v => ret v
  | None => raise JSONDecodeError
  end.

Definition handle_client_message (websocket : WebSocket) (message : string)
    (o : SendEnv) : Co unit :=
  try_except
    (data <- loads message ;;
     message_type <- dict_get data "type" ;;
     entry <- gets (fun w : W => clients (server w) !! websocket) ;;
     match entry with
     | None => send_to_client websocket (error_frame "Сессия не установлена")
     | Some gemini_client =>
         if eq_str message_type "audio_data" then
           audio_data_b64 <- dict_get data "data" ;;
           mime_type <- dict_get_or data "mime_type"
                          (JStr "audio/pcm;rate=16000") ;;
           when (truthy audio_data_b64)
             (try_except
                (audio_data <- py_b64decode audio_data_b64 ;;
                 success <- Gemini.send_audio gemini_client audio_data
                              mime_type o ;;
                 when (negb success)
                   (send_to_client websocket
                      (error_frame "Ошибка отправки аудио в Gemini")))
                (fun _ =>
                   send_to_client websocket
                     (error_frame "Ошибка декодирования аудио данных")))
         else if eq_str message_type "text_message" then
           text <- dict_get data "text" ;;
           when (truthy text)
             (success <- Gemini.send_text gemini_client text o ;;
              when (negb success)
                (send_to_client websocket
                   (error_frame "Ошибка отправки текста в Gemini")))
         else if eq_str message_type "user_speaking_started" then
           send_to_client websocket (frame "user_speaking_acknowledged")
         else if eq_str message_type "user_speaking_stopped" then
           send_to_client websocket (frame "user_speaking_ended_acknowledged")
         else if eq_str message_type "ping" then
           send_to_client websocket (frame "pong")
         else
           send_to_client websocket
             (error_frame
                ("Неизвестный тип сообщения: " ++ format message_type))
     end)
    (fun e =>
       if is_JSONDecodeError e then
         send_to_client websocket (error_frame "Неверный формат JSON")
       else
         send_to_client websocket
           (error_frame ("Ошибка обработки сообщения: " ++ exn_str e))).

(** The callback that [register_client] hands to [connect]. *)
Definition callback (cb : Callable) (message : json) : Co unit :=
  send_to_client cb message.

(** The listening task of the client at [self], run by the event loop. *)
Definition listen (self : Addr) (responses : list LiveServerMessage)
    (ending : Outcome) : Co unit :=
  Gemini._listen_for_messages callback self responses ending.

(** [handle_client]: register, serve the frames that arrive until the
    connection closes, unregister. [frames] is what [async for message in
    websocket] yields, [closing] how the iteration stops: it is over
    ([Returns]) or it raises. [register_client] is awaited before the
    [try]: what it raises leaves [handle_client], and the [finally] is not
    reached. *)
Definition handle_client (websocket : WebSocket) (init : Outcome)
    (co : ConnectEnv) (frames : list (string * SendEnv))
    (closing aexit : Outcome) : Co unit :=
  register_client websocket init co ;;
  try_except
    (Gemini.for_each frames
       (fun '(message, o) => handle_client_message websocket message o) ;;
     build closing)
    (fun _ => ret tt) ;;
  unregister_client websocket aexit.

Definition empty_server (key : string) : W :=
  mkWorld (mkServer key ∅ ∅) ∅.

End Server.
End WS.

(** ** main_integrated.py *)

Module Integrated.

(** The module-level table [active_connections] and the manager's key. *)
Record ConnectionManager := mkManager {
  gemini_api_key : string;
  active_connections : gmap WebSocket Addr
}.

Section Manager.

Variable json_loads : string -> option json.
Variable format : json -> string.
Variable transport : WebSocket -> json -> Outcome.

Local Abbreviation W := (World ConnectionManager).
Local Abbreviation Co := (M ConnectionManager).

Definition on_table (f : gmap WebSocket Addr -> gmap WebSocket Addr)
  : Co unit :=
  modify (fun w : W =>
            mkWorld (mkManager (gemini_api_key (server w))
                       (f (active_connections (server w))))
                    (heap w)).

Definition send_to_client (websocket : WebSocket) (message : json)
  : Co unit :=
  try_except
    (entry <- gets (fun w : W => active_connections (server w) !! websocket) ;;
     when (bool_decide (is_Some entry))
       (await (WsSend websocket message) (transport websocket message)))
    (fun _ => ret tt).

(** [accept] says what the awaited [websocket.accept()] does, [init] what
    the constructor of the client does; neither call is inside a [try]. *)
Definition connect (websocket : WebSocket) (accept init : Outcome)
    (o : ConnectEnv) : Co unit :=
  await (WsAccept websocket) accept ;;
  key <- gets (fun w : W => gemini_api_key (server w)) ;;
  gemini_client <- Gemini.new key init ;;
  on_table (insert websocket gemini_client) ;;
  success <- Gemini.connect gemini_client websocket o ;;
  if success then
    send_to_client websocket
      (JObj [("type", JStr "connection_established");
             ("message", JStr "Успешно подключились к Gemini Live API")])
  else
    send_to_client websocket
      (error_frame "Ошибка подключения к Gemini Live API").

Definition disconnect (websocket : WebSocket) (aexit : Outcome) : Co unit :=
  entry <- gets (fun w : W => active_connections (server w) !! websocket) ;;
  match entry with
  | Some gemini_client =>
      Gemini.disconnect gemini_client aexit ;;
      on_table (delete websocket)
  | None => ret tt
  end.

Definition loads (message : string) : Co json :=
  match json_loads message with
  | Some v => ret v
  | None => raise JSONDecodeError
  end.

Definition handle_message (websocket : WebSocket) (message : string)
    (o : SendEnv) : Co unit :=
  try_except
    (data <- loads message ;;
     message_type <- dict_get data "type" ;;
     entry <- gets (fun w : W => active_connections (server w) !! websocket) ;;
     match entry with
     | None => send_to_client websocket (error_frame "Сессия не установлена")
     | Some gemini_client =>
         if eq_str message_type "audio_data" then
           audio_data_b64 <- dict_get data "data" ;;
           mime_type <- dict_get_or data "mime_type"
                          (JStr "audio/pcm;rate=16000") ;;
           when (truthy audio_data_b64)
             (try_except
                (audio_data <- py_b64decode audio_data_b64 ;;
                 success <- Gemini.send_audio gemini_client audio_data
                              mime_type o ;;
                 when (negb success)
                   (send_to_client websocket
                      (error_frame "Ошибка отправки аудио в Gemini")))
                (fun _ =>
                   send_to_client websocket
                     (error_frame "Ошибка декодирования аудио данных")))
         else if eq_str message_type "text_message" then
           text <- dict_get data "text" ;;
           when (truthy text)
             (success <- Gemini.send_text gemini_client text o ;;
              when (negb success)
                (send_to_client websocket
                   (error_frame "Ошибка отправки текста в Gemini")))
         else if eq_str message_type "user_speaking_started" then
           send_to_client websocket (frame "user_speaking_acknowledged")
         else if eq_str message_type "user_speaking_stopped" then
           send_to_client websocket (frame "user_speaking_ended_acknowledged")
         else if eq_str message_type "ping" then
           send_to_client websocket (frame "pong")
         else
           send_to_client websocket
             (error_frame
                ("Неизвестный тип сообщения: " ++ format message_type))
     end)
    (fun e =>
       if is_JSONDecodeError e then
         send_to_client websocket (error_frame "Неверный формат JSON")
       else
         send_to_client websocket
           (error_frame ("Ошибка обработки сообщения: " ++ exn_str e))).

Definition empty_manager (key : string) : W :=
  mkWorld (mkManager key ∅) ∅.

End Manager.
End Integrated.

(** ** Observing a run *)

Section Observe.

Context {S A : Type}.

Definition value (x : result A * World S * list Event) : result A := x.1.1.
Definition after (x : result A * World S * list Event) : World S := x.1.2.
Definition trace (x : result A * World S * list Event) : list Event := x.2.

End Observe.

(** [m] may raise but does not change the world. *)
Definition quiet {S A} (m : M S A) : Prop :=
  forall w, after (m w) = w.

(** [m] returns normally and does not change the world. *)
Definition safe {S A} (m : M S A) : Prop :=
  forall w, exists a, value (m w) = Ok a /\ after (m w) = w.

(** Calls entering an adapter, in order. *)
Definition adapter_calls (t : list Event) : list (Addr * Method) :=
  omap (fun ev => match ev with
                  | AdapterCall self m => Some (self, m)
                  | _ => None
                  end) t.

(** Calls made on remote sessions, in order. *)
Definition remote_calls (t : list Event) : list (Addr * Session * SessionCall) :=
  omap (fun ev => match ev with
                  | Remote self h c => Some (self, h, c)
                  | _ => None
                  end) t.

(** Frames written to websockets, in order. *)
Definition frames_sent (t : list Event) : list (WebSocket * json) :=
  omap (fun ev => match ev with
                  | WsSend ws message => Some (ws, message)
                  | _ => None
                  end) t.

(** Calls of sink callbacks, in order. *)
Definition sink_calls (t : list Event) : list (Addr * Callable * json) :=
  omap (fun ev => match ev with
                  | Sink self cb message => Some (self, cb, message)
                  | _ => None
                  end) t.

(** The ["type"] of a frame. *)
Definition frame_type (message : json) : option string :=
  match message with
  | JObj items =>
      match assoc "type" items with
      | Some (JStr ty) => Some ty
      | _ => None
      end
  | _ => None
  end.

Definition is_error_frame (message : json) : bool :=
  bool_decide (frame_type message = Some "error").

(** The adapter is connected and holds a session: sends go through. *)
Definition streaming (c : GeminiLiveClient) : bool :=
  bool_decide (is_Some (session c)) && is_connected c.

Definition client_at {S} (w : World S) (self : Addr) : GeminiLiveClient :=
  default (Gemini.blank "") (heap w !! self).

(** The world with the client at [self] changed by [f]. *)
Definition set_client {S} (w : World S) (self : Addr)
    (f : GeminiLiveClient -> GeminiLiveClient) : World S :=
  mkWorld (server w) (alter f self (heap w)).

(** [self.is_connected = False] *)
Definition disconnected (c : GeminiLiveClient) : GeminiLiveClient :=
  mkClient (api_key c) (session c) false (message_callback c).

(** [self.is_connected = False; self.session = None] *)
Definition closed (c : GeminiLiveClient) : GeminiLiveClient :=
  mkClient (api_key c) None false (message_callback c).

(** Did [connect] get a session that was entered? *)
Definition opened (o : ConnectEnv) : bool :=
  match live_connect o, aenter o with
  | inr _, Returns => true
  | _, _ => false
  end.

(** The client that [connect] leaves behind on a new object. *)
Definition connected_client (key : string) (cb : Callable) (o : ConnectEnv)
  : GeminiLiveClient :=
  mkClient key
    (match live_connect o with inr h => Some h | inl _ => None end)
    (opened o) (Some cb).

(** The calls [connect] makes. *)
Definition connect_trace (self : Addr) (o : ConnectEnv) : list Event :=
  AdapterCall self m_connect ::
  match live_connect o with
  | inl _ => []
  | inr h => Remote self h s_aenter :: (if opened o then [CreateTask self] else [])
  end.

(** What handing [messages] to the sink of the client at [self] does in
    websocket_server.py: one callback each, and one frame each if the
    websocket is still among the active connections. *)
Definition sink_trace (w : World WS.VoiceAIWebSocketServer) (self : Addr)
    (messages : list json) : list Event :=
  match message_callback (client_at w self) with
  | Some cb =>
      flat_map
        (fun m => Sink self cb m ::
                  (if bool_decide (cb ∈ WS.active_connections (server w))
                   then [WsSend cb m] else []))
        messages
  | None => []
  end.

(** ** The server as a transition system *)

Module Run.
Section Run.

Variable json_loads : string -> option json.
Variable format : json -> string.
Variable transport : WebSocket -> json -> Outcome.

Local Abbreviation W := (World WS.VoiceAIWebSocketServer).
Local Abbreviation Co := (M WS.VoiceAIWebSocketServer).

(** The coroutines share one event loop: while one of them waits in an
    [await], the others run and see the world as the first one left it.
    Two coroutines change the world on both sides of an [await]:
    [register_client], around [await self.session.__aenter__()] in
    [connect], and [unregister_client], around
    [await self.session.__aexit__(...)] in [disconnect]. *)

(** [connect] from the return of [__aenter__] on. *)
Definition connect_entered (self : Addr) : Co bool :=
  Gemini.set_is_connected self true ;;
  tell (CreateTask self) ;;
  ret true.

(** [unregister_client] up to the [await] of [__aexit__]: the websocket is
    discarded, the flag of its client is cleared. *)
Definition unregister_until_aexit (websocket : WebSocket) : Co unit :=
  WS.on_server (fun s => WS.mkServer (WS.gemini_api_key s) (WS.clients s)
                           (WS.active_connections s ∖ {[websocket]})) ;;
  entry <- gets (fun w : W => WS.clients (server w) !! websocket) ;;
  match entry with
  | Some gemini_client =>
      tell (AdapterCall gemini_client m_disconnect) ;;
      Gemini.set_is_connected gemini_client false
  | None => ret tt
  end.

(** [unregister_client] from that [await] on; [gemini_client] is its local
    variable and [h] the session whose [__aexit__] is awaited. The entry
    that [del] removes is the one the first part read: no other coroutine
    removes the entry of this websocket. *)
Definition unregister_from_aexit (websocket : WebSocket)
    (gemini_client : Addr) (h : Session) (aexit : Outcome) : Co unit :=
  try_except
    (await (Remote gemini_client h s_aexit) aexit ;;
     Gemini.set_session gemini_client None)
    (fun _ => ret tt) ;;
  WS.on_server (fun s => WS.mkServer (WS.gemini_api_key s)
                           (delete websocket (WS.clients s))
                           (WS.active_connections s)).

(** What the event loop runs without interruption as far as the world is
    concerned. The first four steps are whole coroutines; a
    [register_client] that waits in [__aenter__] has left the world that a
    [register_client] whose [__aenter__] raised leaves. The last three are
    the parts of coroutines on the far side of an [await], and
    [unregister_client] on the near side. The relation does not record
    which coroutines are waiting: it allows every interleaving of the
    program, and more. *)
Inductive step : W -> W -> Prop :=
| step_register ws init o w :
    step w (after (WS.register_client transport ws init o w))
| step_message ws message o w :
    step w (after (WS.handle_client_message json_loads format transport
                     ws message o w))
| step_unregister ws aexit w :
    step w (after (WS.unregister_client ws aexit w))
| step_listen self responses ending w :
    step w (after (WS.listen transport self responses ending w))
| step_entered self w :
    step w (after (connect_entered self w))
| step_until_aexit ws w :
    step w (after (unregister_until_aexit ws w))
| step_from_aexit ws self h aexit w :
    step w (after (unregister_from_aexit ws self h aexit w)).

Inductive reachable : W -> Prop :=
| reach_empty key : reachable (WS.empty_server key)
| reach_step w w' : reachable w -> step w w' -> reachable w'.

(** What every reachable world satisfies. *)
Record inv (w : W) : Prop := mkInv {
  inv_heap : forall ws a,
    WS.clients (server w) !! ws = Some a -> is_Some (heap w !! a);
  inv_owner : forall ws1 ws2 a,
    WS.clients (server w) !! ws1 = Some a ->
    WS.clients (server w) !! ws2 = Some a -> ws1 = ws2;
  inv_callback : forall ws a c,
    WS.clients (server w) !! ws = Some a -> heap w !! a = Some c ->
    message_callback c = Some ws
}.

End Run.
End Run.

(** ** The specification's vocabulary *)

Module Spec.

(** The facets of a remote event, in the order in which the specification
    has them forwarded. *)
Inductive Facet := audio | turn_done | interruption | usage.

Definition order : list Facet := [audio; turn_done; interruption; usage].

Definition kind (f : Facet) : string :=
  match f with
  | audio => "audio_data"
  | turn_done => "ai_stopped_speaking"
  | interruption => "generation_interrupted"
  | usage => "usage_metadata"
  end.

(** The outward event of a facet, when the facet is on the event. *)
Definition outward (r : LiveServerMessage) (f : Facet) : option json :=
  match f with
  | audio =>
      payload ← data r;
      Some (JObj [("type", JStr "audio_data");
                  ("data", JStr (b64encode payload));
                  ("mime_type", JStr "audio/pcm;rate=24000")])
  | turn_done =>
      sc ← server_content r;
      if opt_truthy (turn_complete sc)
      then Some (JObj [("type", JStr "ai_stopped_speaking")]) else None
  | interruption =>
      sc ← server_content r;
      if opt_truthy (interrupted sc)
      then Some (JObj [("type", JStr "generation_interrupted")]) else None
  | usage =>
      um ← usage_metadata r;
      Some (JObj [("type", JStr "usage_metadata");
                  ("total_tokens", opt_int (total_token_count um))])
  end.

Definition present (r : LiveServerMessage) (f : Facet) : bool :=
  bool_decide (is_Some (outward r f)).

Definition expected (r : LiveServerMessage) : list json :=
  omap (outward r) order.

(** The server-to-client frame types of the wire protocol table. *)
Definition server_frame_types : list string :=
  ["connection_established"; "audio_data"; "ai_stopped_speaking";
   "generation_interrupted"; "usage_metadata"; "pong"; "error"].

End Spec.

(** How many frames of type [ty] a list of messages holds. *)
Definition count_type (ty : string) (messages : list json) : nat :=
  length (filter (fun m => frame_type m = Some ty) messages).

(** ** Sample inputs *)

Module Sample.

(** A double quote. *)
Definition q : string := String (ascii_of_nat 34) "".

(** The text of a JSON object whose values are strings. *)
Fixpoint members (items : list (string * string)) : string :=
  match items with
  | [] => ""
  | [(k, v)] => q ++ k ++ q ++ ": " ++ q ++ v ++ q
  | (k, v) :: rest => q ++ k ++ q ++ ": " ++ q ++ v ++ q ++ ", " ++ members rest
  end.

Definition object_text (items : list (string * string)) : string :=
  "{" ++ members items ++ "}".

Definition object_value (items : list (string * string)) : json :=
  JObj (map (fun '(k, v) => (k, JStr v)) items).

Definition hello : bytes := [x48; x65; x6c; x6c; x6f].

Definition pcm16 : string := "audio/pcm;rate=16000".

(** Objects whose text [json_loads] below knows. *)
Definition known : list (list (string * string)) :=
  [ [("type", "ping")];
    [("type", "user_speaking_started")];
    [("type", "user_speaking_stopped")];
    [("type", "audio_data"); ("data", b64encode hello); ("mime_type", pcm16)];
    [("type", "audio_data"); ("data", ""); ("mime_type", pcm16)];
    [("type", "audio_data"); ("mime_type", pcm16)];
    [("type", "audio_data")];
    [("type", "text_message")] ].

(** [json.loads] on the texts used below; every other text used below
    is not JSON. *)
Definition json_loads (text : string) : option json :=
  object_value <$>
    List.find (fun items => String.eqb (object_text items) text) known.

(** [str(v)] for the two kinds of value the samples format: a string and
    [None]. *)
Definition format (v : json) : string :=
  match v with
  | JStr s => s
  | JNull => "None"
  | _ => "..."
  end.

(** A transport that delivers every frame. *)
Definition transport (ws : WebSocket) (message : json) : Outcome := Returns.

(** The backend opens session [h]. *)
Definition connect_ok (h : Session) : ConnectEnv := mkConnectEnv (inr h) Returns.

(** The backend hands out a session and fails when it is entered. *)
Definition connect_refused : ConnectEnv :=
  mkConnectEnv (inr 1) (Raises (SdkError "handshake failed")).

(** The SDK builds the message and the session takes it. *)
Definition send_ok : SendEnv := mkSendEnv Returns Returns.

(** A client registers; its adapter is built. *)
Definition register (ws : WebSocket) (o : ConnectEnv)
    (w : World WS.VoiceAIWebSocketServer) : World WS.VoiceAIWebSocketServer :=
  after (WS.register_client transport ws Returns o w).

(** One client, connected to the backend. *)
Definition one_client : World WS.VoiceAIWebSocketServer :=
  register 10 (connect_ok 1) (WS.empty_server "key").

(** Two clients, both connected. *)
Definition two_clients : World WS.VoiceAIWebSocketServer :=
  register 20 (connect_ok 2) one_client.

(** One client whose backend session was refused. *)
Definition refused_world : World WS.VoiceAIWebSocketServer :=
  register 10 connect_refused (WS.empty_server "key").

(** The text of an [audio_data] frame that carries [payload]. *)
Definition text_of_audio (payload : bytes) : string :=
  object_text [("type", "audio_data"); ("data", b64encode payload);
               ("mime_type", pcm16)].

Definition handle :=
  WS.handle_client_message json_loads format transport.

(** A backend event with the turn-complete flag and usage statistics, and
    neither audio nor the interrupted flag. *)
Definition done_and_usage : LiveServerMessage :=
  mkResponse None (Some (mkServerContent (Some true) None))
    (Some (mkUsage (Some 42%Z))).

(** The stream of backend events breaks. *)
Definition stream_lost : Outcome := Raises (SdkError "stream closed").

End Sample.

(** ** More to observe *)

(** The SDK built the message: the session method is called. *)
Definition built (o : SendEnv) : bool :=
  match construct o with
  | Returns => true
  | Raises _ => false
  end.

(** The SDK built the message and the session took it. *)
Definition delivered (o : SendEnv) : bool :=
  match construct o, transmit o with
  | Returns, Returns => true
  | _, _ => false
  end.




(** ** main.py *)

Module Main.

(** [HTTPException(status_code, detail)], which FastAPI answers with. *)
Record HTTPException := mkHTTPException {
  status_code : nat;
  detail : string
}.

Section App.

Variable transport : WebSocket -> json -> Outcome.

(** The state of main.py is its variable [websocket_server_instance]:
    [None] or the server. *)
Local Abbreviation App := (option WS.VoiceAIWebSocketServer).
Local Abbreviation Co := (M App).

(** [websocket_server_instance.send_to_client(websocket, message)] *)
Definition instance_send_to_client (websocket : WebSocket) (message : json)
  : Co unit :=
  fun w =>
    match server w with
    | Some s =>
        let '(r, w1, t) :=
          WS.send_to_client transport websocket message (mkWorld s (heap w)) in
        (r, mkWorld (Some (server w1)) (heap w1), t)
    | None =>
        (Raise (AttributeError
                  "'NoneType' object has no attribute 'send_to_client'"),
         w, [])
    end.

(** The loop of [broadcast_message]; [sent_count] is its counter. *)
Fixpoint broadcast_loop (targets : list WebSocket) (message : json)
    (sent_count : Z) : Co Z :=
  match targets with
  | [] => ret sent_count
  | websocket :: rest =>
      counted <- try_except
                   (instance_send_to_client websocket message ;;
                    ret (sent_count + 1)%Z)
                   (fun _ => ret sent_count) ;;
      broadcast_loop rest message counted
  end.

(** [broadcast_message]. The connections are a set: they are visited in
    the order of [elements]. The loop is taken as it runs when no other
    task changes the set while it waits in a send. *)
Definition broadcast_message (message : json) : Co (HTTPException + json) :=
  instance <- gets (fun w : World App => server w) ;;
  match instance with
  | None => ret (inl (mkHTTPException 503 "WebSocket сервер не запущен"))
  | Some s =>
      sent_count <- broadcast_loop (elements (WS.active_connections s))
                      message 0 ;;
      now_ <- gets (fun w : World App => server w) ;;
      match now_ with
      | Some s' =>
          ret (inr (JObj [("message", JStr "Сообщение отправлено");
                          ("sent_to", JInt sent_count);
                          ("total_connections",
                           JInt (Z.of_nat (size (WS.active_connections s'))))]))
      | None =>
          raise (AttributeError
                   "'NoneType' object has no attribute 'active_connections'")
      end
  end.

End App.
End Main.

(** ** main_integrated.py: broadcast and shutdown *)

Module IntegratedApp.
Section App.

Variable transport : WebSocket -> json -> Outcome.

Local Abbreviation W := (World Integrated.ConnectionManager).
Local Abbreviation Co := (M Integrated.ConnectionManager).

(** The loop of [broadcast_message]; [sent_count] is its counter. *)
Fixpoint broadcast_loop (targets : list WebSocket) (message : json)
    (sent_count : Z) : Co Z :=
  match targets with
  | [] => ret sent_count
  | websocket :: rest =>
      counted <- try_except
                   (Integrated.send_to_client transport websocket message ;;
                    ret (sent_count + 1)%Z)
                   (fun _ => ret sent_count) ;;
      broadcast_loop rest message counted
  end.

(** [broadcast_message]. The table does not record the order of insertion:
    its keys are visited in the order of [map_to_list]. The loop is taken
    as it runs when no other task changes the table while it waits in a
    send. *)
Definition broadcast_message (message : json) : Co json :=
  targets <- gets (fun w : W =>
                     (map_to_list (Integrated.active_connections (server w))).*1) ;;
  sent_count <- broadcast_loop targets message 0 ;;
  total <- gets (fun w : W => size (Integrated.active_connections (server w))) ;;
  ret (JObj [("message", JStr "Сообщение отправлено");
             ("sent_to", JInt sent_count);
             ("total_connections", JInt (Z.of_nat total))]).


End App.
End IntegratedApp.

(** ** More sample inputs *)

Module More.

(** Objects whose text [json_loads] below knows, beside those of
    [Sample.known]. *)
Definition known : list (list (string * string)) :=
  Sample.known ++
  [ [("type", "text_message"); ("text", "hi")];
    [("type", "audio_data"); ("data", "A")];
    [("type", "dance")] ].

(** [json.loads] on the texts used below: the objects of [known] and the
    empty list; every other text used below is not JSON. *)
Definition json_loads (text : string) : option json :=
  if String.eqb text "[]" then Some (JArr [])
  else
    Sample.object_value <$>
      List.find (fun items => String.eqb (Sample.object_text items) text) known.

Definition handle :=
  WS.handle_client_message json_loads Sample.format Sample.transport.

(** The SDK builds the message and the session refuses it. *)
Definition send_broken : SendEnv :=
  mkSendEnv Returns (Raises (SdkError "session closed")).

(** A backend event with audio only. *)
Definition audio_only : LiveServerMessage :=
  mkResponse (Some Sample.hello) None None.

(** What [genai.Client] raises when the installed package has no such
    attribute. *)
Definition no_client : exn :=
  AttributeError "module 'google.generativeai' has no attribute 'Client'".

(** Websocket 10 tried to register and the constructor of its adapter
    raised. *)
Definition half_registered : World WS.VoiceAIWebSocketServer :=
  after (WS.register_client Sample.transport 10 (Raises no_client)
           (Sample.connect_ok 1) (WS.empty_server "key")).

(** One client of main_integrated.py, connected to the backend. *)
Definition one_managed : World Integrated.ConnectionManager :=
  after (Integrated.connect Sample.transport 10 Returns Returns
           (Sample.connect_ok 1)
           (Integrated.empty_manager "key")).

(** Two clients of main_integrated.py, both connected. *)
Definition two_managed : World Integrated.ConnectionManager :=
  after (Integrated.connect Sample.transport 20 Returns Returns
           (Sample.connect_ok 2)
           one_managed).

End More.

(** * Properties *)

(** ** Base64: decoding undoes encoding *)

Module Base64Facts.
Import Base64.
Local Open Scope list_scope.
Local Open Scope N_scope.

Lemma to_N_in_codes (x : byte) : In (Byte.to_N x) codes.
Proof.
  unfold codes. apply in_map_iff. exists (N.to_nat (Byte.to_N x)). split.
  - apply N2Nat.id.
  - apply in_seq. pose proof (Byte.to_N_bounded x). lia.
Qed.

(** A check over all bytes, or all pairs of bytes, by enumeration. *)
Lemma for_bytes (P : N -> bool) :
  forallb P codes = true -> forall x, P (Byte.to_N x) = true.
Proof.
  intros H x. rewrite forallb_forall in H. apply H, to_N_in_codes.
Qed.

Lemma for_byte_pairs (P : N -> N -> bool) :
  forallb (fun a => forallb (P a) codes) codes = true ->
  forall x y, P (Byte.to_N x) (Byte.to_N y) = true.
Proof.
  intros H x y. rewrite forallb_forall in H.
  specialize (H _ (to_N_in_codes x)). rewrite forallb_forall in H.
  apply H, to_N_in_codes.
Qed.

Lemma for_sextets (P : N -> bool) :
  forallb P (map N.of_nat (seq 0 64)) = true ->
  forall s, s < 64 -> P s = true.
Proof.
  intros H s Hs. rewrite forallb_forall in H. apply H.
  apply in_map_iff. exists (N.to_nat s). split; [apply N2Nat.id|].
  apply in_seq. lia.
Qed.

Lemma to_uchar_byte (x : byte) (n : N) :
  N.land n 255 = Byte.to_N x -> to_uchar n = x.
Proof. intros H. unfold to_uchar. rewrite H, Byte.of_to_N. reflexivity. Qed.

(** The alphabet is read back by the inverse table, and holds no pad and
    nothing outside ASCII. *)
Lemma alphabet (s : N) :
  s < 64 ->
  Ascii.eqb (b2a s) BASE64_PAD = false /\
  table_a2b_base64 (N_of_ascii (b2a s)) = s /\
  (N_of_ascii (b2a s) <? 128) = true.
Proof.
  intros Hs.
  pose proof (for_sextets
    (fun s => negb (Ascii.eqb (b2a s) BASE64_PAD)
              && (table_a2b_base64 (N_of_ascii (b2a s)) =? s)
              && (N_of_ascii (b2a s) <? 128))
    ltac:(vm_compute; reflexivity) s Hs) as H.
  cbv beta in H.
  apply andb_true_iff in H as [H H3]. apply andb_true_iff in H as [H1 H2].
  apply negb_true_iff in H1. apply N.eqb_eq in H2. auto.
Qed.

(** One character of the alphabet, read by the decoder. *)
Lemma loop_char (s : N) rest quad_pos leftchar pads bin :
  s < 64 ->
  a2b_base64_loop (b2a s :: rest) quad_pos leftchar pads bin =
  match quad_pos with
  | 0 => a2b_base64_loop rest 1 s 0 bin
  | 1 => a2b_base64_loop rest 2 (N.land s 15) 0
           (bin ++ [to_uchar (N.lor (N.shiftl leftchar 2) (N.shiftr s 4))])
  | 2 => a2b_base64_loop rest 3 (N.land s 3) 0
           (bin ++ [to_uchar (N.lor (N.shiftl leftchar 4) (N.shiftr s 2))])
  | _ => a2b_base64_loop rest 0 0 0
           (bin ++ [to_uchar (N.lor (N.shiftl leftchar 6) s)])
  end.
Proof.
  intros Hs. destruct (alphabet s Hs) as (Hpad & Htab & _).
  cbn [a2b_base64_loop]. rewrite Hpad. cbv zeta. rewrite Htab.
  destruct (64 <=? s) eqn:E; [apply N.leb_le in E; lia|]. reflexivity.
Qed.

Lemma six1_lt x : six1 (Byte.to_N x) < 64.
Proof.
  apply N.ltb_lt.
  exact (for_bytes (fun a => six1 a <? 64) ltac:(vm_compute; reflexivity) x).
Qed.

Lemma six2_lt x y : six2 (Byte.to_N x) (Byte.to_N y) < 64.
Proof.
  apply N.ltb_lt.
  exact (for_byte_pairs (fun a b => six2 a b <? 64)
           ltac:(vm_compute; reflexivity) x y).
Qed.

Lemma six3_lt x y : six3 (Byte.to_N x) (Byte.to_N y) < 64.
Proof.
  apply N.ltb_lt.
  exact (for_byte_pairs (fun a b => six3 a b <? 64)
           ltac:(vm_compute; reflexivity) x y).
Qed.

Lemma six4_lt x : six4 (Byte.to_N x) < 64.
Proof.
  apply N.ltb_lt.
  exact (for_bytes (fun a => six4 a <? 64) ltac:(vm_compute; reflexivity) x).
Qed.

(** The three bytes come back from the sextets. *)
Lemma first_byte x y :
  to_uchar (N.lor (N.shiftl (six1 (Byte.to_N x)) 2)
                  (N.shiftr (six2 (Byte.to_N x) (Byte.to_N y)) 4)) = x.
Proof.
  apply to_uchar_byte, N.eqb_eq.
  exact (for_byte_pairs
           (fun a b => N.land (N.lor (N.shiftl (six1 a) 2)
                                     (N.shiftr (six2 a b) 4)) 255 =? a)
           ltac:(vm_compute; reflexivity) x y).
Qed.

Lemma carry2 x y :
  N.land (six2 (Byte.to_N x) (Byte.to_N y)) 15 = N.shiftr (Byte.to_N y) 4.
Proof.
  apply N.eqb_eq.
  exact (for_byte_pairs (fun a b => N.land (six2 a b) 15 =? N.shiftr b 4)
           ltac:(vm_compute; reflexivity) x y).
Qed.

Lemma second_byte y z :
  to_uchar (N.lor (N.shiftl (N.shiftr (Byte.to_N y) 4) 4)
                  (N.shiftr (six3 (Byte.to_N y) (Byte.to_N z)) 2)) = y.
Proof.
  apply to_uchar_byte, N.eqb_eq.
  exact (for_byte_pairs
           (fun b c => N.land (N.lor (N.shiftl (N.shiftr b 4) 4)
                                     (N.shiftr (six3 b c) 2)) 255 =? b)
           ltac:(vm_compute; reflexivity) y z).
Qed.

Lemma carry3 y z :
  N.land (six3 (Byte.to_N y) (Byte.to_N z)) 3 = N.shiftr (Byte.to_N z) 6.
Proof.
  apply N.eqb_eq.
  exact (for_byte_pairs (fun b c => N.land (six3 b c) 3 =? N.shiftr c 6)
           ltac:(vm_compute; reflexivity) y z).
Qed.

Lemma third_byte z :
  to_uchar (N.lor (N.shiftl (N.shiftr (Byte.to_N z) 6) 6)
                  (six4 (Byte.to_N z))) = z.
Proof.
  apply to_uchar_byte, N.eqb_eq.
  exact (for_bytes
           (fun c => N.land (N.lor (N.shiftl (N.shiftr c 6) 6) (six4 c)) 255 =? c)
           ltac:(vm_compute; reflexivity) z).
Qed.

(** The padded last groups are special cases with a zero byte behind. *)
Lemma six2_last x : N.shiftl (N.land (Byte.to_N x) 3) 4 = six2 (Byte.to_N x) 0.
Proof. unfold six2. rewrite N.shiftr_0_l, N.lor_0_r. reflexivity. Qed.

Lemma six3_last y : N.shiftl (N.land (Byte.to_N y) 15) 2 = six3 (Byte.to_N y) 0.
Proof. unfold six3. rewrite N.shiftr_0_l, N.lor_0_r. reflexivity. Qed.

Lemma zero_byte : Byte.to_N x00 = 0.
Proof. reflexivity. Qed.

(** Decoding the encoding of [X] appends [X] to what was decoded. *)
Lemma loop_encode (X : bytes) :
  forall leftchar bin,
    a2b_base64_loop (b64encode_chars X) 0 leftchar 0 bin = inr (bin ++ X).
Proof.
  assert (H : forall X leftchar bin,
    a2b_base64_loop (b64encode_chars X) 0 leftchar 0 bin = inr (bin ++ X) /\
    (forall x, a2b_base64_loop (b64encode_chars (x :: X)) 0 leftchar 0 bin
               = inr (bin ++ x :: X)) /\
    (forall x y, a2b_base64_loop (b64encode_chars (x :: y :: X)) 0 leftchar 0 bin
               = inr (bin ++ x :: y :: X))).
  { clear X. induction X as [|z X IH]; intros leftchar bin.
    - split; [|split].
      + cbn. rewrite app_nil_r. reflexivity.
      + intros x. cbn [b64encode_chars].
        rewrite six2_last, <- zero_byte.
        fold (six1 (Byte.to_N x)).
        rewrite (loop_char _ _ _ _ _ _ (six1_lt x)).
        rewrite (loop_char _ _ _ _ _ _ (six2_lt x x00)).
        rewrite first_byte. reflexivity.
      + intros x y. cbn [b64encode_chars].
        rewrite six3_last, <- zero_byte.
        fold (six1 (Byte.to_N x)). fold (six2 (Byte.to_N x) (Byte.to_N y)).
        rewrite (loop_char _ _ _ _ _ _ (six1_lt x)).
        rewrite (loop_char _ _ _ _ _ _ (six2_lt x y)).
        rewrite (loop_char _ _ _ _ _ _ (six3_lt y x00)).
        rewrite first_byte, carry2, second_byte.
        cbn. rewrite <- app_assoc. reflexivity.
    - destruct (IH leftchar bin) as (IH0 & IH1 & IH2).
      split; [apply IH1|split; [intros x; apply IH2|]].
      intros x y. cbn [b64encode_chars].
      fold (six1 (Byte.to_N x)). fold (six2 (Byte.to_N x) (Byte.to_N y)).
      fold (six3 (Byte.to_N y) (Byte.to_N z)). fold (six4 (Byte.to_N z)).
      rewrite (loop_char _ _ _ _ _ _ (six1_lt x)).
      rewrite (loop_char _ _ _ _ _ _ (six2_lt x y)).
      rewrite (loop_char _ _ _ _ _ _ (six3_lt y z)).
      rewrite (loop_char _ _ _ _ _ _ (six4_lt z)).
      rewrite first_byte, carry2, second_byte, carry3, third_byte.
      destruct (IH 0 (((bin ++ [x]) ++ [y]) ++ [z])) as (-> & _).
      rewrite <- !app_assoc. reflexivity. }
  intros. apply H.
Qed.

Lemma encode_is_ascii (X : bytes) :
  forallb (fun c => N_of_ascii c <? 128) (b64encode_chars X) = true.
Proof.
  assert (H : forall X,
    forallb (fun c => N_of_ascii c <? 128) (b64encode_chars X) = true /\
    (forall x, forallb (fun c => N_of_ascii c <? 128)
                 (b64encode_chars (x :: X)) = true) /\
    (forall x y, forallb (fun c => N_of_ascii c <? 128)
                 (b64encode_chars (x :: y :: X)) = true)).
  { clear X. induction X as [|z X IH].
    - split; [reflexivity|split].
      + intros x. cbn [b64encode_chars forallb].
        rewrite six2_last, <- zero_byte.
        destruct (alphabet _ (six1_lt x)) as (_ & _ & ->).
        destruct (alphabet _ (six2_lt x x00)) as (_ & _ & ->). reflexivity.
      + intros x y. cbn [b64encode_chars forallb].
        rewrite six3_last, <- zero_byte.
        fold (six1 (Byte.to_N x)). fold (six2 (Byte.to_N x) (Byte.to_N y)).
        destruct (alphabet _ (six1_lt x)) as (_ & _ & ->).
        destruct (alphabet _ (six2_lt x y)) as (_ & _ & ->).
        destruct (alphabet _ (six3_lt y x00)) as (_ & _ & ->). reflexivity.
    - destruct IH as (IH0 & IH1 & IH2).
      split; [apply IH1|split; [intros x; apply IH2|]].
      intros x y. cbn [b64encode_chars forallb].
      fold (six1 (Byte.to_N x)). fold (six2 (Byte.to_N x) (Byte.to_N y)).
      fold (six3 (Byte.to_N y) (Byte.to_N z)). fold (six4 (Byte.to_N z)).
      destruct (alphabet _ (six1_lt x)) as (_ & _ & ->).
      destruct (alphabet _ (six2_lt x y)) as (_ & _ & ->).
      destruct (alphabet _ (six3_lt y z)) as (_ & _ & ->).
      destruct (alphabet _ (six4_lt z)) as (_ & _ & ->).
      apply IH0. }
  apply H.
Qed.

(** [base64.b64decode(base64.b64encode(X)) == X] *)
Lemma b64decode_b64encode (X : bytes) : b64decode (b64encode X) = inr X.
Proof.
  unfold b64decode, is_ascii, a2b_base64, b64encode.
  rewrite String.list_ascii_of_string_of_list_ascii.
  rewrite encode_is_ascii, loop_encode. reflexivity.
Qed.

(** Only the empty payload has an empty encoding. *)
Lemma b64encode_empty (X : bytes) : b64encode X = ""%string -> X = [].
Proof.
  destruct X as [|x [|y [|z X]]]; [reflexivity|discriminate..].
Qed.

End Base64Facts.

(** ** Running the primitives *)

Local Open Scope list_scope.

Section Exec.

Context {S : Type}.
Implicit Types (w : World S) (self : Addr).

Lemma load_run self w : Gemini.load self w = (Ok (client_at w self), w, []).
Proof. reflexivity. Qed.

Lemma default_some {A} (d x : A) : default d (Some x) = x.
Proof. reflexivity. Qed.

Lemma bind_ret {A B} (a : A) (f : A -> M S B) w : bind (ret a) f w = f a w.
Proof. unfold bind, ret. by destruct (f a w) as [[? ?] ?]. Qed.

Lemma bind_gets {A B} (g : World S -> A) (f : A -> M S B) w :
  bind (gets g) f w = f (g w) w.
Proof. unfold bind, gets. by destruct (f (g w) w) as [[? ?] ?]. Qed.

Lemma bind_raise {A B} (e : exn) (f : A -> M S B) w :
  bind (raise e) f w = (Raise e, w, []).
Proof. reflexivity. Qed.

Lemma bind_modify {B} (g : World S -> World S) (f : unit -> M S B) w :
  bind (modify g) f w = f tt (g w).
Proof. unfold bind, modify. by destruct (f tt (g w)) as [[? ?] ?]. Qed.

Lemma bind_tell {B} (ev : Event) (f : unit -> M S B) w :
  bind (tell ev) f w = (value (f tt w), after (f tt w), ev :: trace (f tt w)).
Proof. unfold bind, tell. by destruct (f tt w) as [[? ?] ?]. Qed.

(** A computation that returns, followed by another. *)
Lemma bind_ok {A B} (m : M S A) (f : A -> M S B) w a w1 t1 :
  m w = (Ok a, w1, t1) ->
  bind m f w = (value (f a w1), after (f a w1), t1 ++ trace (f a w1)).
Proof. intros H. unfold bind. rewrite H. by destruct (f a w1) as [[? ?] ?]. Qed.

Lemma try_ok {A} (m : M S A) h w a w1 t1 :
  m w = (Ok a, w1, t1) -> try_except m h w = (Ok a, w1, t1).
Proof. intros H. unfold try_except. by rewrite H. Qed.

Lemma try_raise {A} (m : M S A) h w e w1 t1 :
  m w = (Raise e, w1, t1) ->
  try_except m h w = (value (h e w1), after (h e w1), t1 ++ trace (h e w1)).
Proof.
  intros H. unfold try_except. rewrite H. by destruct (h e w1) as [[? ?] ?].
Qed.

(** A send on an adapter that is not streaming: refused before the SDK is
    touched. *)
Lemma send_audio_idle self audio mime o w :
  streaming (client_at w self) = false ->
  Gemini.send_audio self audio mime o w =
  (Ok false, w, [AdapterCall self (m_send_audio audio mime)]).
Proof.
  unfold streaming, Gemini.send_audio, bind, try_except, tell.
  rewrite load_run. intros H.
  destruct (session (client_at w self)) as [h|]; [|reflexivity].
  destruct (is_connected (client_at w self)); [|reflexivity].
  exfalso. rewrite bool_decide_eq_true_2 in H by eauto. discriminate.
Qed.

Lemma send_text_idle self text o w :
  streaming (client_at w self) = false ->
  Gemini.send_text self text o w =
  (Ok false, w, [AdapterCall self (m_send_text text)]).
Proof.
  unfold streaming, Gemini.send_text, bind, try_except, tell.
  rewrite load_run. intros H.
  destruct (session (client_at w self)) as [h|]; [|reflexivity].
  destruct (is_connected (client_at w self)); [|reflexivity].
  exfalso. rewrite bool_decide_eq_true_2 in H by eauto. discriminate.
Qed.

(** A send never raises and never changes the world; it makes one adapter
    call and at most one call on the adapter's own session. *)
Lemma send_audio_run self audio mime o w :
  exists ok t,
    Gemini.send_audio self audio mime o w =
      (Ok ok, w, AdapterCall self (m_send_audio audio mime) :: t) /\
    (t = [] \/
     exists h, session (client_at w self) = Some h /\
               t = [Remote self h (s_send_realtime_input audio mime)]).
Proof.
  unfold Gemini.send_audio, bind, try_except, tell. rewrite load_run.
  destruct (session (client_at w self)) as [h|]; [|by eauto 6].
  destruct (is_connected (client_at w self)); [|by eauto 6].
  destruct o as [[|e1] [|e2]]; cbn; eauto 8.
Qed.

Lemma send_text_run self text o w :
  exists ok t,
    Gemini.send_text self text o w =
      (Ok ok, w, AdapterCall self (m_send_text text) :: t) /\
    (t = [] \/
     exists h, session (client_at w self) = Some h /\
               t = [Remote self h (s_send_client_content text)]).
Proof.
  unfold Gemini.send_text, bind, try_except, tell. rewrite load_run.
  destruct (session (client_at w self)) as [h|]; [|by eauto 6].
  destruct (is_connected (client_at w self)); [|by eauto 6].
  destruct o as [[|e1] [|e2]]; cbn; eauto 8.
Qed.

End Exec.

Module WSFacts.
Section Facts.

Variable json_loads : string -> option json.
Variable format : json -> string.
Variable transport : WebSocket -> json -> Outcome.

Local Abbreviation W := (World WS.VoiceAIWebSocketServer).
Implicit Types (w : W) (ws : WebSocket).

Lemma send_to_client_run ws message w :
  WS.send_to_client transport ws message w =
  (Ok tt, w,
   if bool_decide (ws ∈ WS.active_connections (server w))
   then [WsSend ws message] else []).
Proof.
  unfold WS.send_to_client, try_except, bind, gets, when, await, ret.
  destruct (bool_decide _); [|reflexivity].
  destruct (transport ws message); reflexivity.
Qed.

Lemma send_to_client_active ws message w :
  ws ∈ WS.active_connections (server w) ->
  WS.send_to_client transport ws message w = (Ok tt, w, [WsSend ws message]).
Proof.
  intros H. rewrite send_to_client_run, bool_decide_eq_true_2; done.
Qed.

End Facts.
End WSFacts.

(** C5. A send on an adapter that is not streaming (no session, or not
    connected) returns [False], raises nothing, leaves the adapter as it was
    and passes nothing to a remote session; this holds for [send_audio] and
    for [send_text]. *)
Theorem send_refused_when_not_streaming
    {S : Type} (w : World S) (self : Addr)
    (audio : bytes) (mime text : json) (o : SendEnv) :
  streaming (client_at w self) = false ->
  let r1 := Gemini.send_audio self audio mime o w in
  let r2 := Gemini.send_text self text o w in
  (value r1 = Ok false /\ after r1 = w /\ remote_calls (trace r1) = []) /\
  (value r2 = Ok false /\ after r2 = w /\ remote_calls (trace r2) = []).
Proof.
  intros H. cbv zeta.
  rewrite (send_audio_idle _ _ _ _ _ H), (send_text_idle _ _ _ _ H).
  repeat split.
Qed.

(** ** Frames from the client (websocket_server.py) *)

(** Membership in a list that is written out. *)
Ltac members :=
  repeat match goal with
    | H : _ ∈ [] |- _ => by apply elem_of_nil in H
    | H : _ ∈ [_] |- _ => apply list_elem_of_singleton in H; simplify_eq
    | H : _ ∈ _ :: _ |- _ => apply elem_of_cons in H as [H|H]; simplify_eq
    end.

(** Run the monad up to the next thing that is not known. *)
Ltac go :=
  repeat first
    [ rewrite bind_ret | rewrite bind_gets | rewrite bind_raise
    | rewrite default_some
    | progress cbn beta iota
    | progress cbn [dict_get dict_get_or when eq_str String.eqb
                    Ascii.eqb Bool.eqb is_JSONDecodeError negb] ].

Module Frames.
Section Frames.

Variable json_loads : string -> option json.
Variable format : json -> string.
Variable transport : WebSocket -> json -> Outcome.

Local Abbreviation W := (World WS.VoiceAIWebSocketServer).
Local Abbreviation handle := (WS.handle_client_message json_loads format transport).
Implicit Types (w : W) (ws : WebSocket).

Ltac enter := unfold WS.handle_client_message, WS.loads.

(** A frame that is a JSON object with a string type, on a registered
    connection: the handler reaches the dispatch on the type. *)
Lemma dispatch_ack ws message o w items ty reply a :
  json_loads message = Some (JObj items) ->
  assoc "type" items = Some (JStr ty) ->
  WS.clients (server w) !! ws = Some a ->
  ws ∈ WS.active_connections (server w) ->
  (ty = "user_speaking_started" /\ reply = "user_speaking_acknowledged" \/
   ty = "user_speaking_stopped" /\ reply = "user_speaking_ended_acknowledged" \/
   ty = "ping" /\ reply = "pong") ->
  handle ws message o w = (Ok tt, w, [WsSend ws (frame reply)]).
Proof.
  intros Hj Hty Hreg Hact Hcase. enter. apply try_ok.
  rewrite Hj. go. rewrite Hty. go. rewrite Hreg.
  destruct Hcase as [[-> ->]|[[-> ->]|[-> ->]]]; go;
    apply (WSFacts.send_to_client_active transport _ _ _ Hact).
Qed.

(** What is not JSON is answered with the JSON error frame. *)
Lemma not_json ws message o w :
  json_loads message = None ->
  handle ws message o w =
  WS.send_to_client transport ws (error_frame "Неверный формат JSON") w.
Proof.
  intros Hj. enter. rewrite Hj.
  erewrite try_raise by (rewrite bind_raise; reflexivity). go.
  by rewrite WSFacts.send_to_client_run.
Qed.

(** An [audio_data] frame whose [data] is missing, as any frame whose
    [data] is not truthy, goes no further. *)
Lemma audio_without_data ws message o w items a :
  json_loads message = Some (JObj items) ->
  assoc "type" items = Some (JStr "audio_data") ->
  truthy (default JNull (assoc "data" items)) = false ->
  WS.clients (server w) !! ws = Some a ->
  handle ws message o w = (Ok tt, w, []).
Proof.
  intros Hj Hty Hdata Hreg. enter. apply try_ok.
  rewrite Hj. go. rewrite Hty. go. rewrite Hreg. go. rewrite Hdata. reflexivity.
Qed.

Lemma text_without_text ws message o w items a :
  json_loads message = Some (JObj items) ->
  assoc "type" items = Some (JStr "text_message") ->
  truthy (default JNull (assoc "text" items)) = false ->
  WS.clients (server w) !! ws = Some a ->
  handle ws message o w = (Ok tt, w, []).
Proof.
  intros Hj Hty Hdata Hreg. enter. apply try_ok.
  rewrite Hj. go. rewrite Hty. go. rewrite Hreg. go. rewrite Hdata. reflexivity.
Qed.

(** An [audio_data] frame whose [data] decodes to [X]: [send_audio] is
    entered once, on the adapter registered for this websocket. *)
Lemma audio_forwarded ws message o w items a X mime :
  json_loads message = Some (JObj items) ->
  assoc "type" items = Some (JStr "audio_data") ->
  assoc "data" items = Some (JStr (b64encode X)) ->
  X <> [] ->
  default (JStr "audio/pcm;rate=16000") (assoc "mime_type" items) = mime ->
  WS.clients (server w) !! ws = Some a ->
  exists t,
    handle ws message o w =
      (Ok tt, w, AdapterCall a (m_send_audio X mime) :: t) /\
    adapter_calls t = [] /\
    (forall self h c, (self, h, c) ∈ remote_calls t ->
       self = a /\ c = s_send_realtime_input X mime) /\
    (forall ws' m, (ws', m) ∈ frames_sent t -> ws' = ws /\ is_error_frame m = true).
Proof.
  intros Hj Hty Hdata HX Hmime Hreg.
  assert (String.eqb (b64encode X) "" = false) as Hne.
  { apply String.eqb_neq. intros E. apply HX, Base64Facts.b64encode_empty, E. }
  destruct (send_audio_run (S:=WS.VoiceAIWebSocketServer) a X mime o w)
    as (ok & t & Hsend & Ht).
  assert (handle ws message o w =
          (Ok tt, w,
           AdapterCall a (m_send_audio X mime)
             :: t ++ (if ok then []
                      else if bool_decide (ws ∈ WS.active_connections (server w))
                           then [WsSend ws (error_frame "Ошибка отправки аудио в Gemini")]
                           else []))) as ->.
  { enter. apply try_ok.
    rewrite Hj. go. rewrite Hty. go. rewrite Hreg. go. rewrite Hdata. go.
    rewrite Hmime. cbn [truthy]. rewrite Hne. go.
    apply try_ok. unfold py_b64decode. rewrite Base64Facts.b64decode_b64encode.
    go. rewrite (bind_ok _ _ _ _ _ _ Hsend).
    destruct ok; cbn [negb when]; [reflexivity|].
    by rewrite WSFacts.send_to_client_run. }
  eexists. split; [reflexivity|].
  destruct ok, Ht as [->|(h & _ & ->)];
    destruct (bool_decide (ws ∈ WS.active_connections (server w)));
    cbn; (split; [reflexivity|split]); intros; members; auto.
Qed.

End Frames.
End Frames.

(** ** Frames from the client (main_integrated.py) *)

Module IntegratedFacts.
Section Facts.

Variable json_loads : string -> option json.
Variable format : json -> string.
Variable transport : WebSocket -> json -> Outcome.

Local Abbreviation W := (World Integrated.ConnectionManager).
Implicit Types (w : W) (ws : WebSocket).

Lemma manager_send_run ws message w :
  Integrated.send_to_client transport ws message w =
  (Ok tt, w,
   if bool_decide (is_Some (Integrated.active_connections (server w) !! ws))
   then [WsSend ws message] else []).
Proof.
  unfold Integrated.send_to_client, try_except, bind, gets, when, await, ret.
  destruct (bool_decide _); [|reflexivity].
  destruct (transport ws message); reflexivity.
Qed.

Lemma manager_dispatch_ack ws message o w items ty reply a :
  json_loads message = Some (JObj items) ->
  assoc "type" items = Some (JStr ty) ->
  Integrated.active_connections (server w) !! ws = Some a ->
  (ty = "user_speaking_started" /\ reply = "user_speaking_acknowledged" \/
   ty = "user_speaking_stopped" /\ reply = "user_speaking_ended_acknowledged" \/
   ty = "ping" /\ reply = "pong") ->
  Integrated.handle_message json_loads format transport ws message o w =
  (Ok tt, w, [WsSend ws (frame reply)]).
Proof.
  intros Hj Hty Hreg Hcase.
  unfold Integrated.handle_message, Integrated.loads. apply try_ok.
  rewrite Hj. go. rewrite Hty. go. rewrite Hreg.
  destruct Hcase as [[-> ->]|[[-> ->]|[-> ->]]]; go;
    rewrite manager_send_run, Hreg; reflexivity.
Qed.

End Facts.
End IntegratedFacts.

(** ** The claims about client frames *)


(** C7, as the code has it. A JSON object of type [audio_data] without
    [data], or of type [text_message] without [text], on a registered
    connection is dropped: the handler returns normally, writes no frame
    (no [error] frame either), makes no adapter call and leaves the world
    as it was. *)
Theorem missing_field_dropped_silently
    (json_loads : string -> option json) (format : json -> string)
    (transport : WebSocket -> json -> Outcome)
    (w : World WS.VoiceAIWebSocketServer) (ws : WebSocket) (a : Addr)
    (message : string) (items : list (string * json)) (o : SendEnv) :
  json_loads message = Some (JObj items) ->
  WS.clients (server w) !! ws = Some a ->
  (assoc "type" items = Some (JStr "audio_data") /\ assoc "data" items = None) \/
  (assoc "type" items = Some (JStr "text_message") /\ assoc "text" items = None) ->
  WS.handle_client_message json_loads format transport ws message o w =
  (Ok tt, w, []).
Proof.
  intros Hj Hreg [[Hty Hnone]|[Hty Hnone]].
  - eapply Frames.audio_without_data; eauto. by rewrite Hnone.
  - eapply Frames.text_without_text; eauto. by rewrite Hnone.
Qed.

(** C3, as the code has it. An [audio_data] frame whose [data] is the base64
    text of a non-empty byte string [X] and whose [mime_type] is the string
    [mime], on a registered connection: exactly one adapter call is made,
    [send_audio(X, mime)] on the adapter registered for this websocket, so
    none on any other adapter; the payload is the decoded [X] itself; what
    reaches a remote session, if anything, is [X] with [mime] on that
    adapter's session; the world is unchanged. *)
Theorem audio_frame_one_send_audio
    (json_loads : string -> option json) (format : json -> string)
    (transport : WebSocket -> json -> Outcome)
    (w : World WS.VoiceAIWebSocketServer) (ws : WebSocket) (a : Addr)
    (message : string) (items : list (string * json))
    (X : bytes) (mime : string) (o : SendEnv) :
  json_loads message = Some (JObj items) ->
  assoc "type" items = Some (JStr "audio_data") ->
  assoc "data" items = Some (JStr (b64encode X)) ->
  assoc "mime_type" items = Some (JStr mime) ->
  WS.clients (server w) !! ws = Some a ->
  X <> [] ->
  let r := WS.handle_client_message json_loads format transport ws message o w in
  value r = Ok tt /\
  after r = w /\
  adapter_calls (trace r) = [(a, m_send_audio X (JStr mime))] /\
  (forall self h c, (self, h, c) ∈ remote_calls (trace r) ->
     self = a /\ c = s_send_realtime_input X (JStr mime)).
Proof.
  intros Hj Hty Hdata Hmime Hreg HX r. subst r.
  destruct (Frames.audio_forwarded json_loads format transport ws message o w
              items a X (JStr mime) Hj Hty Hdata HX) as (t & -> & Hcalls & Hrem & _).
  { by rewrite Hmime. }
  { exact Hreg. }
  split; [reflexivity|split; [reflexivity|split]].
  - change ((a, m_send_audio X (JStr mime)) :: adapter_calls t
            = [(a, m_send_audio X (JStr mime))]).
    by rewrite Hcalls.
  - intros self h c Hin. exact (Hrem self h c Hin).
Qed.

(** C10. On a registered connection, [user_speaking_started] is answered
    with exactly one frame of type [user_speaking_acknowledged] and
    [user_speaking_stopped] with exactly one frame of type
    [user_speaking_ended_acknowledged]; nothing else happens (no adapter
    call, no call on a remote session, world unchanged). This holds for the
    handler of websocket_server.py and for the one of main_integrated.py.
    Neither frame type is in the wire protocol table of the specification. *)
Theorem speaking_frames_acknowledged
    (json_loads : string -> option json) (format : json -> string)
    (transport : WebSocket -> json -> Outcome)
    (ws : WebSocket) (a : Addr) (message : string)
    (items : list (string * json)) (ty reply : string) (o : SendEnv) :
  json_loads message = Some (JObj items) ->
  assoc "type" items = Some (JStr ty) ->
  (ty = "user_speaking_started" /\ reply = "user_speaking_acknowledged" \/
   ty = "user_speaking_stopped" /\ reply = "user_speaking_ended_acknowledged") ->
  (forall w : World WS.VoiceAIWebSocketServer,
     WS.clients (server w) !! ws = Some a ->
     ws ∈ WS.active_connections (server w) ->
     WS.handle_client_message json_loads format transport ws message o w =
     (Ok tt, w, [WsSend ws (JObj [("type", JStr reply)])])) /\
  (forall w : World Integrated.ConnectionManager,
     Integrated.active_connections (server w) !! ws = Some a ->
     Integrated.handle_message json_loads format transport ws message o w =
     (Ok tt, w, [WsSend ws (JObj [("type", JStr reply)])])) /\
  reply ∉ Spec.server_frame_types.
Proof.
  intros Hj Hty Hcase. split; [|split].
  - intros w Hreg Hact. eapply Frames.dispatch_ack; eauto. tauto.
  - intros w Hreg. eapply IntegratedFacts.manager_dispatch_ack; eauto. tauto.
  - destruct Hcase as [[_ ->]|[_ ->]]; unfold Spec.server_frame_types;
      intros H; members.
Qed.

(** ** Adapters: connect, disconnect, the listening task *)

Section Adapter.

Context {S : Type}.
Implicit Types (w : World S) (self : Addr).

Lemma client_at_set w self f :
  is_Some (heap w !! self) ->
  client_at (set_client w self f) self = f (client_at w self).
Proof.
  intros [c Hc]. unfold client_at, set_client. cbn [heap].
  by rewrite lookup_alter_eq, Hc.
Qed.

Lemma session_after_disconnected w self :
  session (client_at (set_client w self disconnected) self)
  = session (client_at w self).
Proof.
  unfold client_at, set_client. cbn [heap]. rewrite lookup_alter_eq.
  by destruct (heap w !! self).
Qed.

Lemma set_client_twice w self f g :
  set_client (set_client w self g) self f = set_client w self (f ∘ g).
Proof. unfold set_client. cbn [server heap]. by rewrite alter_alter_eq. Qed.

Lemma set_client_fixed w self f :
  f (client_at w self) = client_at w self ->
  set_client w self f = w.
Proof.
  intros Hf. destruct w as [s h]. unfold set_client, client_at in *.
  cbn [server heap] in *. f_equal. apply alter_id. intros c Hc.
  by rewrite Hc in Hf.
Qed.

Lemma update_run self f w :
  Gemini.update self f w = (Ok tt, set_client w self f, []).
Proof. reflexivity. Qed.

(** [disconnect] in full. *)
Lemma disconnect_run self aexit w :
  Gemini.disconnect self aexit w =
  (Ok tt,
   match session (client_at w self), aexit with
   | Some _, Returns => set_client w self closed
   | _, _ => set_client w self disconnected
   end,
   AdapterCall self m_disconnect ::
   match session (client_at w self) with
   | Some h => [Remote self h s_aexit]
   | None => []
   end).
Proof.
  unfold Gemini.disconnect. rewrite bind_tell.
  unfold try_except, Gemini.set_is_connected, Gemini.set_session, bind.
  rewrite update_run, load_run.
  change (fun c => mkClient (api_key c) (session c) false (message_callback c))
    with disconnected.
  rewrite session_after_disconnected.
  destruct (session (client_at w self)) as [h|]; [|reflexivity].
  destruct aexit as [|e]; cbn; [|reflexivity].
  unfold Gemini.update, modify. cbn. repeat f_equal.
  change (set_client (set_client w self disconnected) self
            (fun c => mkClient (api_key c) None (is_connected c)
                        (message_callback c))
          = set_client w self closed).
  rewrite set_client_twice. reflexivity.
Qed.

(** Once [disconnect] has cleared the session, another [disconnect] changes
    nothing and calls nothing. *)
Lemma disconnect_again self o1 o2 w :
  session (client_at w self) = None \/ o1 = Returns ->
  Gemini.disconnect self o2 (after (Gemini.disconnect self o1 w)) =
  (Ok tt, after (Gemini.disconnect self o1 w), [AdapterCall self m_disconnect]).
Proof.
  intros H. rewrite (disconnect_run self o1 w). unfold after. cbn [fst snd].
  set (w1 := match session (client_at w self), o1 with
             | Some _, Returns => set_client w self closed
             | _, _ => set_client w self disconnected
             end).
  assert (session (client_at w1 self) = None /\
          is_connected (client_at w1 self) = false) as [Hs Hc].
  { subst w1. unfold client_at, set_client in *.
    destruct (session (default (Gemini.blank "") (heap w !! self))) as [h|] eqn:E.
    - destruct H as [?| ->]; [congruence|]. cbn [heap].
      rewrite lookup_alter_eq. by destruct (heap w !! self).
    - cbn [heap]. rewrite lookup_alter_eq.
      destruct (heap w !! self); cbn in *; auto. }
  rewrite disconnect_run, Hs. f_equal. f_equal.
  apply set_client_fixed. destruct (client_at w1 self); cbn in *; by subst.
Qed.

(** [disconnect] clears the flag, whatever the session does on exit. *)
Lemma streaming_after_disconnect self aexit w :
  is_connected (client_at (after (Gemini.disconnect self aexit w)) self) = false.
Proof.
  rewrite disconnect_run. unfold after. cbn [fst snd].
  unfold client_at, set_client.
  destruct (session _), aexit; cbn [heap]; rewrite lookup_alter_eq;
    by destruct (heap w !! self).
Qed.

End Adapter.

(** ** The registry: register, unregister, backend events *)

Module Registry.
Section Registry.

Variable transport : WebSocket -> json -> Outcome.

Local Abbreviation W := (World WS.VoiceAIWebSocketServer).
Implicit Types (w : W) (ws : WebSocket) (self : Addr).

Lemma connect_run self cb o (w : W) key :
  heap w !! self = Some (Gemini.blank key) ->
  Gemini.connect self cb o w =
  (Ok (opened o),
   mkWorld (server w) (<[self := connected_client key cb o]> (heap w)),
   connect_trace self o).
Proof.
  intros Hself. unfold Gemini.connect. rewrite bind_tell.
  unfold try_except, Gemini.set_message_callback, Gemini.set_session,
    Gemini.set_is_connected, Gemini.open_session, bind.
  rewrite update_run. unfold connected_client, connect_trace, opened.
  assert (forall f, alter f self (heap w) = <[self := f (Gemini.blank key)]> (heap w))
    as Halter.
  { intros f. apply map_eq. intros i. destruct (decide (i = self)) as [->|Hne].
    - by rewrite lookup_alter_eq, lookup_insert_eq, Hself.
    - by rewrite lookup_alter_ne, lookup_insert_ne. }
  destruct (live_connect o) as [e|h]; cbn.
  - unfold set_client. by rewrite Halter.
  - destruct (aenter o) as [|e]; cbn; unfold set_client; cbn;
      rewrite !alter_alter_eq, Halter; reflexivity.
Qed.

(** [register_client] when the constructor of the client raises: the
    websocket has become active, and that is all. *)
Lemma register_raises ws e o w :
  WS.register_client transport ws (Raises e) o w =
  (Raise e,
   mkWorld (WS.mkServer (WS.gemini_api_key (server w)) (WS.clients (server w))
              ({[ws]} ∪ WS.active_connections (server w)))
           (heap w),
   []).
Proof.
  unfold WS.register_client, WS.on_server.
  by rewrite bind_modify, bind_gets.
Qed.

(** [register_client] in full, when the client is built: the websocket
    becomes active, a new client object is stored under it, the session is
    opened on that object, and the outcome is reported to the websocket. *)
Lemma register_run ws o w :
  let a := fresh (dom (heap w)) in
  let key := WS.gemini_api_key (server w) in
  WS.register_client transport ws Returns o w =
  (Ok tt,
   mkWorld (WS.mkServer key (<[ws := a]> (WS.clients (server w)))
              ({[ws]} ∪ WS.active_connections (server w)))
           (<[a := connected_client key ws o]> (heap w)),
   connect_trace a o ++
   [WsSend ws
      (if opened o
       then JObj [("type", JStr "connection_established");
                  ("message", JStr "Успешно подключились к Gemini Live API")]
       else error_frame "Ошибка подключения к Gemini Live API")]).
Proof.
  intros a key. unfold WS.register_client, WS.on_server.
  rewrite bind_modify, bind_gets. cbn [server heap WS.gemini_api_key].
  unfold Gemini.new, Gemini.allocate, build. unfold bind at 1 2.
  cbn [server heap app].
  fold a. fold key. rewrite bind_modify. cbn [server heap WS.gemini_api_key
    WS.clients WS.active_connections].
  erewrite bind_ok; cycle 1.
  { apply connect_run with (key := key). cbn [heap]. apply lookup_insert_eq. }
  cbn [server heap]. rewrite insert_insert_eq.
  assert (forall m, WS.send_to_client transport ws m
            (mkWorld (WS.mkServer key (<[ws:=a]> (WS.clients (server w)))
                        ({[ws]} ∪ WS.active_connections (server w)))
                     (<[a:=connected_client key ws o]> (heap w)))
          = (Ok tt, mkWorld (WS.mkServer key (<[ws:=a]> (WS.clients (server w)))
                        ({[ws]} ∪ WS.active_connections (server w)))
                     (<[a:=connected_client key ws o]> (heap w)), [WsSend ws m]))
    as Hsend.
  { intros m. apply WSFacts.send_to_client_active. cbn. set_solver. }
  destruct (opened o); rewrite Hsend; reflexivity.
Qed.

(** [unregister_client] in full. *)
Lemma unregister_run ws aexit w :
  WS.unregister_client ws aexit w =
  match WS.clients (server w) !! ws with
  | Some a =>
      let r := Gemini.disconnect a aexit
                 (mkWorld (WS.mkServer (WS.gemini_api_key (server w))
                             (WS.clients (server w))
                             (WS.active_connections (server w) ∖ {[ws]}))
                          (heap w)) in
      (Ok tt,
       mkWorld (WS.mkServer (WS.gemini_api_key (server w))
                  (delete ws (WS.clients (server w)))
                  (WS.active_connections (server w) ∖ {[ws]}))
               (heap (after r)),
       trace r)
  | None =>
      (Ok tt,
       mkWorld (WS.mkServer (WS.gemini_api_key (server w))
                  (WS.clients (server w))
                  (WS.active_connections (server w) ∖ {[ws]}))
               (heap w),
       [])
  end.
Proof.
  unfold WS.unregister_client, WS.on_server.
  rewrite bind_modify, bind_gets. cbn [server heap WS.clients].
  destruct (WS.clients (server w) !! ws) as [a|]; [|reflexivity].
  cbv zeta. erewrite bind_ok by apply disconnect_run.
  rewrite disconnect_run. unfold modify, value, after, trace. cbn [fst snd].
  rewrite app_nil_r.
  destruct (session _) as [h|], aexit as [|e]; reflexivity.
Qed.

(** The sink of websocket_server.py: a callback and, if the websocket is
    active, a frame; the world stays as it is. *)
Lemma sink_run self message w :
  Gemini._send_to_client (WS.callback transport) self message w =
  (Ok tt, w, sink_trace w self [message]).
Proof.
  unfold Gemini._send_to_client, sink_trace. rewrite bind_ok with (1 := load_run self w).
  destruct (message_callback (client_at w self)) as [cb|]; [|reflexivity].
  rewrite bind_tell. unfold WS.callback. rewrite WSFacts.send_to_client_run.
  cbn. by rewrite app_nil_r.
Qed.

Lemma sink_trace_app w self l1 l2 :
  sink_trace w self (l1 ++ l2) = sink_trace w self l1 ++ sink_trace w self l2.
Proof.
  unfold sink_trace. destruct (message_callback _); [|reflexivity].
  apply flat_map_app.
Qed.

Lemma sink_trace_nil w self : sink_trace w self [] = [].
Proof. unfold sink_trace. by destruct (message_callback _). Qed.

(** One backend event: its facets go to the sink, in the order of the
    specification. *)
Lemma response_run self response w :
  Gemini._handle_gemini_response (WS.callback transport) self response w =
  (Ok tt, w, sink_trace w self (Spec.expected response)).
Proof.
  unfold Gemini._handle_gemini_response. apply try_ok.
  assert (forall l1 (m : M WS.VoiceAIWebSocketServer unit) l2 f t,
            m w = (Ok tt, w, sink_trace w self l1) ->
            f tt w = (Ok tt, w, sink_trace w self l2) ->
            t = sink_trace w self (l1 ++ l2) ->
            bind m f w = (Ok tt, w, t)) as Hseq.
  { intros l1 m l2 f t Hm Hf ->. rewrite (bind_ok _ _ _ _ _ _ Hm), Hf.
    by rewrite sink_trace_app. }
  assert (ret tt w = (Ok tt, w, sink_trace w self [])) as Hnil.
  { by rewrite sink_trace_nil. }
  destruct response as [d sc um]. unfold Spec.expected, Spec.order.
  cbn [omap list_omap Spec.outward data server_content usage_metadata].
  destruct d as [payload|], sc as [[tc it]|], um as [[n]|];
    cbn [mbind option_bind turn_complete interrupted total_token_count];
    try destruct (opt_truthy tc); try destruct (opt_truthy it);
    cbn [when];
    (eapply Hseq; [first [apply sink_run|apply Hnil]|
     eapply Hseq; [first [apply sink_run|apply Hnil]|
     eapply Hseq; [first [apply sink_run|apply Hnil]|
                   first [apply sink_run|apply Hnil]|reflexivity]|reflexivity]|
     reflexivity]).
Qed.

Lemma responses_run self responses w :
  Gemini.for_each responses
    (Gemini._handle_gemini_response (WS.callback transport) self) w =
  (Ok tt, w, sink_trace w self (flat_map Spec.expected responses)).
Proof.
  induction responses as [|r rest IH]; cbn [Gemini.for_each flat_map].
  - by rewrite sink_trace_nil.
  - rewrite (bind_ok _ _ _ _ _ _ (response_run self r w)), IH.
    by rewrite sink_trace_app.
Qed.

(** The listening task in full: every event is forwarded; when the stream
    raises, [is_connected] is cleared and nothing else is done. *)
Lemma listen_run self responses ending w :
  WS.listen transport self responses ending w =
  match session (client_at w self) with
  | None => (Ok tt, w, [])
  | Some _ =>
      (Ok tt,
       match ending with
       | Returns => w
       | Raises _ => set_client w self disconnected
       end,
       sink_trace w self (flat_map Spec.expected responses))
  end.
Proof.
  unfold WS.listen, Gemini._listen_for_messages.
  destruct (session (client_at w self)) as [h|] eqn:Hs.
  - destruct ending as [|e].
    + apply try_ok. rewrite (bind_ok _ _ _ _ _ _ (load_run self w)), Hs.
      rewrite (bind_ok _ _ _ _ _ _ (responses_run self responses w)).
      cbn. by rewrite !app_nil_r.
    + erewrite try_raise; cycle 1.
      { rewrite (bind_ok _ _ _ _ _ _ (load_run self w)), Hs.
        rewrite (bind_ok _ _ _ _ _ _ (responses_run self responses w)).
        cbn. reflexivity. }
      cbn. by rewrite !app_nil_r.
  - apply try_ok. by rewrite (bind_ok _ _ _ _ _ _ (load_run self w)), Hs.
Qed.

End Registry.
End Registry.

(** ** Computations that leave the world alone *)

Section Quiet.

Context {S : Type}.

Lemma safe_quiet {A} (m : M S A) : safe m -> quiet m.
Proof. intros H w. by destruct (H w) as (a & _ & ?). Qed.

Lemma quiet_ret {A} (a : A) : quiet (ret (S:=S) a).
Proof. by intros w. Qed.

Lemma quiet_raise {A} e : quiet (raise (S:=S) (A:=A) e).
Proof. by intros w. Qed.

Lemma quiet_gets {A} (g : World S -> A) : quiet (gets g).
Proof. by intros w. Qed.

Lemma quiet_tell ev : quiet (tell (S:=S) ev).
Proof. by intros w. Qed.

Lemma quiet_await ev o : quiet (await (S:=S) ev o).
Proof. intros w. by destruct o. Qed.

Lemma quiet_build o : quiet (build (S:=S) o).
Proof. intros w. by destruct o. Qed.

Lemma quiet_bind {A B} (m : M S A) (f : A -> M S B) :
  quiet m -> (forall a, quiet (f a)) -> quiet (bind m f).
Proof.
  intros Hm Hf w. specialize (Hm w). unfold bind, after in *.
  destruct (m w) as [[[a|e] w1] t1]; cbn in *; subst; [|done].
  specialize (Hf a w). unfold after in Hf.
  by destruct (f a w) as [[r w2] t2].
Qed.

Lemma quiet_try {A} (m : M S A) h :
  quiet m -> (forall e, quiet (h e)) -> quiet (try_except m h).
Proof.
  intros Hm Hh w. specialize (Hm w). unfold try_except, after in *.
  destruct (m w) as [[[a|e] w1] t1]; cbn in *; subst; [done|].
  specialize (Hh e w). unfold after in Hh.
  by destruct (h e w) as [[r w2] t2].
Qed.

Lemma safe_ret {A} (a : A) : safe (ret (S:=S) a).
Proof. intros w. by exists a. Qed.

Lemma safe_bind {A B} (m : M S A) (f : A -> M S B) :
  safe m -> (forall a, safe (f a)) -> safe (bind m f).
Proof.
  intros Hm Hf w. destruct (Hm w) as (a & Hv & Hw).
  unfold bind, value, after in *.
  destruct (m w) as [[r w1] t1]; cbn in *; subst.
  destruct (Hf a w) as (b & Hv & Hw). unfold value, after in *.
  destruct (f a w) as [[r w2] t2]; cbn in *; subst. by exists b.
Qed.

(** A handler that is safe makes a quiet body safe. *)
Lemma safe_try {A} (m : M S A) h :
  quiet m -> (forall e, safe (h e)) -> safe (try_except m h).
Proof.
  intros Hm Hh w. specialize (Hm w). unfold try_except, value, after in *.
  destruct (m w) as [[[a|e] w1] t1]; cbn in *; subst; [by exists a|].
  destruct (Hh e w) as (b & Hv & Hw). unfold value, after in *.
  destruct (h e w) as [[r w2] t2]; cbn in *; subst. by exists b.
Qed.

Lemma safe_when b (m : M S unit) : safe m -> safe (when b m).
Proof. intros H. destruct b; [done|apply safe_ret]. Qed.

Lemma quiet_dict_get d key : quiet (dict_get (S:=S) d key).
Proof. intros w. by destruct d. Qed.

Lemma quiet_dict_get_or d key v : quiet (dict_get_or (S:=S) d key v).
Proof. intros w. by destruct d. Qed.

Lemma quiet_b64decode v : quiet (py_b64decode (S:=S) v).
Proof.
  intros w. destruct v; try done. unfold py_b64decode.
  by destruct (b64decode s) as [[|]|].
Qed.

Lemma safe_send_audio self audio mime o :
  safe (Gemini.send_audio (S:=S) self audio mime o).
Proof.
  intros w. destruct (send_audio_run self audio mime o w) as (ok & t & -> & _).
  by exists ok.
Qed.

Lemma safe_send_text self text o :
  safe (Gemini.send_text (S:=S) self text o).
Proof.
  intros w. destruct (send_text_run self text o w) as (ok & t & -> & _).
  by exists ok.
Qed.

End Quiet.

(** Take a computation apart down to its primitives. *)
Ltac calm :=
  repeat first
    [ apply quiet_bind | apply quiet_try
    | apply quiet_ret | apply quiet_raise | apply quiet_gets
    | apply quiet_dict_get | apply quiet_dict_get_or | apply quiet_b64decode
    | apply safe_ret | apply safe_send_audio | apply safe_send_text
    | match goal with
      | |- forall _, _ => intro
      | |- quiet (match ?x with _ => _ end) => destruct x
      end ].

Module Totality.
Section Totality.

Variable json_loads : string -> option json.
Variable format : json -> string.
Variable transport : WebSocket -> json -> Outcome.

Lemma safe_send_to_client ws message :
  safe (WS.send_to_client transport ws message).
Proof.
  intros w. rewrite WSFacts.send_to_client_run. by exists tt.
Qed.

(** Whatever the frame, the handler returns normally and leaves registry
    and adapters as they were. *)
Lemma handler_safe ws message o :
  safe (WS.handle_client_message json_loads format transport ws message o).
Proof.
  unfold WS.handle_client_message, WS.loads.
  apply safe_try.
  - apply quiet_bind; [destruct (json_loads message); calm|].
    intros data. apply quiet_bind; [calm|]. intros ty.
    apply quiet_bind; [calm|]. intros [a|]; [|apply safe_quiet, safe_send_to_client].
    repeat match goal with
           | |- quiet (if ?b then _ else _) => destruct b
           end;
      try (apply safe_quiet, safe_send_to_client).
    + apply quiet_bind; [calm|]. intros d. apply quiet_bind; [calm|]. intros m.
      apply safe_quiet, safe_when, safe_try.
      * apply quiet_bind; [calm|]. intros x. apply safe_quiet, safe_bind; [calm|].
        intros ok. apply safe_when, safe_send_to_client.
      * intros e. apply safe_send_to_client.
    + apply quiet_bind; [calm|]. intros t.
      apply safe_quiet, safe_when, safe_bind; [calm|].
      intros ok. apply safe_when, safe_send_to_client.
  - intros e. destruct (is_JSONDecodeError e); apply safe_send_to_client.
Qed.

Lemma handler_keeps_world ws message o w :
  after (WS.handle_client_message json_loads format transport ws message o w) = w.
Proof. by destruct (handler_safe ws message o w) as (a & _ & ?). Qed.

End Totality.
End Totality.

(** ** What every reachable world satisfies *)

Module Invariant.
Section Invariant.

Variable json_loads : string -> option json.
Variable format : json -> string.
Variable transport : WebSocket -> json -> Outcome.

Local Abbreviation W := (World WS.VoiceAIWebSocketServer).
Implicit Types (w : W) (ws : WebSocket) (self : Addr).

Lemma inv_empty key : Run.inv (WS.empty_server key).
Proof.
  split; cbn; intros *; rewrite ?lookup_empty; done.
Qed.

(** Changing one client without touching its callback keeps the invariant. *)
Lemma inv_set_client w self f :
  (forall c, message_callback (f c) = message_callback c) ->
  Run.inv w -> Run.inv (set_client w self f).
Proof.
  intros Hf [Hheap Hown Hcb]. split; cbn [set_client server heap]; auto.
  - intros ws a Hws. rewrite lookup_alter_is_Some. eauto.
  - intros ws a c Hws. destruct (decide (a = self)) as [->|Hne].
    + rewrite lookup_alter_eq. destruct (heap w !! self) as [c0|] eqn:E; [|done].
      intros [= <-]. rewrite Hf. eauto.
    + rewrite lookup_alter_ne by done. eauto.
Qed.

(** The invariant does not read the active connections. *)
Lemma inv_active_free w act :
  Run.inv w ->
  Run.inv (mkWorld (WS.mkServer (WS.gemini_api_key (server w))
                      (WS.clients (server w)) act) (heap w)).
Proof. intros [Hheap Hown Hcb]. by split. Qed.

(** Removing an entry of the registry keeps the invariant. *)
Lemma inv_delete w ws :
  Run.inv w ->
  Run.inv (mkWorld (WS.mkServer (WS.gemini_api_key (server w))
                      (delete ws (WS.clients (server w)))
                      (WS.active_connections (server w))) (heap w)).
Proof.
  intros [Hheap Hown Hcb]. split; cbn [server heap WS.clients].
  - intros ws' a'. rewrite lookup_delete_Some. intros [_ ?]. eauto.
  - intros ws1 ws2 a'. rewrite !lookup_delete_Some. intros [_ ?] [_ ?]. eauto.
  - intros ws' a' c. rewrite lookup_delete_Some. intros [_ ?]. eauto.
Qed.

Lemma inv_register ws init o w :
  Run.inv w -> Run.inv (after (WS.register_client transport ws init o w)).
Proof.
  destruct init as [|e]; cycle 1.
  { intros Hinv. rewrite Registry.register_raises. unfold after. cbn [fst snd].
    by apply inv_active_free. }
  intros [Hheap Hown Hcb]. rewrite Registry.register_run.
  unfold after. cbn [fst snd].
  pose proof (is_fresh (dom (heap w))) as Hfresh.
  apply not_elem_of_dom in Hfresh.
  set (a := fresh (dom (heap w))) in *.
  assert (forall ws' a', WS.clients (server w) !! ws' = Some a' -> a' <> a) as Hold.
  { intros ws' a' Hws' ->. destruct (Hheap _ _ Hws') as [c Hc]. congruence. }
  split; cbn [server heap WS.clients WS.active_connections].
  - intros ws' a'. rewrite lookup_insert_Some, lookup_insert_is_Some.
    intros [[_ <-]|[_ Hws']]; [by left|]. right. split; [|by eauto].
    intros ->. by eapply Hold.
  - intros ws1 ws2 a'. rewrite !lookup_insert_Some.
    intros [[<- <-]|[? H1]] [[<- E]|[? H2]]; try done.
    + exfalso. by eapply Hold.
    + subst. exfalso. by eapply Hold.
    + eauto.
  - intros ws' a' c. rewrite !lookup_insert_Some.
    intros [[<- <-]|[? Hws']].
    + intros [[_ <-]|[? _]]; done.
    + intros [[<- _]|[_ Hc]]; [exfalso; by eapply Hold|]. eauto.
Qed.

Lemma disconnect_heap self aexit w :
  exists f, (forall c, message_callback (f c) = message_callback c) /\
            after (Gemini.disconnect self aexit w) = set_client w self f.
Proof.
  rewrite disconnect_run. unfold after. cbn [fst snd].
  destruct (session _), aexit;
    (by exists closed) || (by exists disconnected).
Qed.

Lemma inv_unregister ws aexit w :
  Run.inv w -> Run.inv (after (WS.unregister_client ws aexit w)).
Proof.
  intros Hinv. rewrite Registry.unregister_run.
  destruct (WS.clients (server w) !! ws) as [a|] eqn:Hws.
  - cbv zeta. unfold after at 1. cbn [fst snd].
    match goal with
    | |- context [Gemini.disconnect a aexit ?w0] =>
        destruct (disconnect_heap a aexit w0) as (f & Hf & ->)
    end.
    cbn [set_client heap server].
    refine (inv_delete
              (mkWorld (WS.mkServer (WS.gemini_api_key (server w))
                          (WS.clients (server w))
                          (WS.active_connections (server w) ∖ {[ws]}))
                       (alter f a (heap w))) ws _).
    refine (inv_active_free (set_client w a f) _ _). by apply inv_set_client.
  - unfold after. cbn [fst snd]. by apply inv_active_free.
Qed.

Lemma inv_listen self responses ending w :
  Run.inv w -> Run.inv (after (WS.listen transport self responses ending w)).
Proof.
  intros Hinv. rewrite Registry.listen_run.
  destruct (session _); [|done]. unfold after. cbn [fst snd].
  destruct ending; [done|]. by apply inv_set_client.
Qed.

Lemma inv_entered self w :
  Run.inv w -> Run.inv (after (Run.connect_entered self w)).
Proof.
  intros Hinv. unfold Run.connect_entered, Gemini.set_is_connected.
  rewrite (bind_ok _ _ _ _ _ _ (update_run _ _ _)).
  unfold after. cbn. by apply inv_set_client.
Qed.

Lemma inv_until_aexit ws w :
  Run.inv w -> Run.inv (after (Run.unregister_until_aexit ws w)).
Proof.
  intros Hinv. unfold Run.unregister_until_aexit, WS.on_server.
  rewrite bind_modify, bind_gets. cbn [server heap WS.clients].
  destruct (WS.clients (server w) !! ws) as [a|].
  - unfold Gemini.set_is_connected.
    unfold bind, tell. rewrite update_run. unfold after. cbn.
    apply (inv_set_client
             (mkWorld (WS.mkServer (WS.gemini_api_key (server w))
                         (WS.clients (server w))
                         (WS.active_connections (server w) ∖ {[ws]}))
                      (heap w)) a); [done|].
    by apply inv_active_free.
  - unfold after. cbn. by apply inv_active_free.
Qed.

Lemma inv_from_aexit ws self h aexit w :
  Run.inv w -> Run.inv (after (Run.unregister_from_aexit ws self h aexit w)).
Proof.
  intros Hinv. unfold Run.unregister_from_aexit, WS.on_server.
  unfold Gemini.set_session.
  destruct aexit as [|e]; unfold bind, try_except, await, modify, ret;
    rewrite ?update_run; unfold after; cbn.
  - apply (inv_delete (set_client w self _) ws). by apply inv_set_client.
  - by apply inv_delete.
Qed.

Lemma inv_step w w' :
  Run.step json_loads format transport w w' -> Run.inv w -> Run.inv w'.
Proof.
  intros [ws init o w0|ws message o w0|ws aexit w0|self rs e w0
         |self w0|ws w0|ws self h aexit w0] Hinv.
  - by apply inv_register.
  - by rewrite Totality.handler_keeps_world.
  - by apply inv_unregister.
  - by apply inv_listen.
  - by apply inv_entered.
  - by apply inv_until_aexit.
  - by apply inv_from_aexit.
Qed.

(** Every websocket in the registry owns an adapter of its own, whose
    callback leads back to it. *)
Lemma reachable_inv w :
  Run.reachable json_loads format transport w -> Run.inv w.
Proof.
  induction 1 as [key|w w' _ IH Hstep]; [apply inv_empty|].
  eapply inv_step; eauto.
Qed.

End Invariant.
End Invariant.

(** ** Coroutines around their awaits *)

(** The parts that [Run.step] takes apart make up the coroutines they were
    taken from. *)
Module Parts.
Section Parts.

Variable transport : WebSocket -> json -> Outcome.

Local Abbreviation W := (World WS.VoiceAIWebSocketServer).
Implicit Types (w : W) (ws : WebSocket) (self : Addr).

(** [unregister_client] for a client that holds a session: the part up to
    the [await] of [__aexit__], then the part from there on. *)
Lemma unregister_in_two_parts ws a h aexit w :
  WS.clients (server w) !! ws = Some a ->
  session (client_at w a) = Some h ->
  WS.unregister_client ws aexit w =
  bind (Run.unregister_until_aexit ws)
       (fun _ => Run.unregister_from_aexit ws a h aexit) w.
Proof.
  intros Hws Hs. rewrite Registry.unregister_run, Hws. cbv zeta.
  rewrite disconnect_run.
  assert (session
            (client_at
               (mkWorld (WS.mkServer (WS.gemini_api_key (server w))
                           (WS.clients (server w))
                           (WS.active_connections (server w) ∖ {[ws]}))
                        (heap w)) a) = Some h) as ->.
  { exact Hs. }
  unfold Run.unregister_until_aexit, Run.unregister_from_aexit, WS.on_server,
    Gemini.set_is_connected, Gemini.set_session, Gemini.update.
  unfold bind, modify, gets, tell, try_except, await, ret.
  cbn [server heap WS.clients]. rewrite Hws.
  unfold after, trace, set_client.
  destruct aexit as [|e]; cbn [fst snd app server heap WS.gemini_api_key
    WS.clients WS.active_connections].
  - by rewrite alter_alter_eq.
  - reflexivity.
Qed.

(** [register_client] whose session is opened leaves the world of a
    [register_client] that waits in [__aenter__], which is the world of one
    whose [__aenter__] raised, with the flag of the new client set. *)
Lemma register_in_two_parts ws o e w :
  opened o = true ->
  let waiting := mkConnectEnv (live_connect o) (Raises e) in
  after (WS.register_client transport ws Returns o w) =
  after (Run.connect_entered (fresh (dom (heap w)))
           (after (WS.register_client transport ws Returns waiting w))).
Proof.
  intros Hok waiting. rewrite !Registry.register_run.
  unfold Run.connect_entered, Gemini.set_is_connected.
  rewrite (bind_ok _ _ _ _ _ _ (update_run _ _ _)).
  unfold after. cbn. unfold set_client. cbn [server heap].
  rewrite alter_insert_eq. unfold connected_client, opened in *.
  cbn [live_connect aenter waiting api_key session message_callback].
  destruct (live_connect o) as [e0|h]; [done|]. by destruct (aenter o).
Qed.

End Parts.
End Parts.

(** ** A whole connection *)

Module Lifecycle.
Section Lifecycle.

Variable json_loads : string -> option json.
Variable format : json -> string.
Variable transport : WebSocket -> json -> Outcome.

Lemma safe_run {S A} (m : M S A) w :
  safe m -> exists a t, m w = (Ok a, w, t).
Proof.
  intros H. destruct (H w) as (a & Hv & Hw). unfold value, after in *.
  destruct (m w) as [[r w1] t]. cbn in *. subst. eauto.
Qed.

Lemma safe_for_each {S A} (items : list A) (body : A -> M S unit) :
  (forall x, safe (body x)) -> safe (Gemini.for_each items body).
Proof.
  intros Hbody. induction items as [|x rest IH]; cbn [Gemini.for_each].
  - apply safe_ret.
  - apply safe_bind; auto.
Qed.

(** The loop of [handle_client] and its [except] clauses: nothing is
    raised and the world stays, however the iteration stops. *)
Lemma serve_run ws (frames : list (string * SendEnv)) closing
    (w : World WS.VoiceAIWebSocketServer) :
  exists t,
    try_except
      (bind (Gemini.for_each frames
               (fun '(message, o) =>
                  WS.handle_client_message json_loads format transport
                    ws message o))
            (fun _ => build closing))
      (fun _ => ret tt) w
    = (Ok tt, w, t).
Proof.
  destruct (safe_run
              (Gemini.for_each frames
                 (fun '(message, o) =>
                    WS.handle_client_message json_loads format transport
                      ws message o)) w) as ([] & t & Hloop).
  { apply safe_for_each. intros [m o]. apply Totality.handler_safe. }
  unfold try_except.
  rewrite (bind_ok _ _ _ _ _ _ Hloop). unfold value, after, trace.
  cbn [fst snd]. destruct closing as [|e]; cbn; eauto.
Qed.

(** [handle_client] from connect to disconnect, when the client was built:
    whatever the backend and the client did in between, the websocket is
    neither registered nor active afterwards. *)
Lemma handle_client_leaves_no_entry ws co frames closing aexit w :
  let r := WS.handle_client json_loads format transport ws Returns co frames
             closing aexit w in
  value r = Ok tt /\
  WS.clients (server (after r)) !! ws = None /\
  ws ∉ WS.active_connections (server (after r)).
Proof.
  cbv zeta. unfold WS.handle_client.
  rewrite (bind_ok _ _ _ _ _ _ (Registry.register_run transport ws co w)).
  match goal with
  | |- context [bind (try_except _ _) ?k ?w1] =>
      destruct (serve_run ws frames closing w1) as (t & Hloop);
        rewrite (bind_ok _ _ _ _ _ _ Hloop)
  end.
  rewrite Registry.unregister_run.
  cbn [server WS.clients WS.active_connections]. rewrite lookup_insert_eq.
  cbv zeta. unfold value, after. cbn [fst snd server WS.clients
    WS.active_connections].
  split; [done|]. split; [apply lookup_delete_eq|].
  intros [_ Hn]%elem_of_difference. apply Hn. by apply elem_of_singleton.
Qed.


End Lifecycle.
End Lifecycle.

(** ** The claims about connections and adapters *)

Lemma sink_trace_kinds (w : World WS.VoiceAIWebSocketServer) self messages :
  adapter_calls (sink_trace w self messages) = [] /\
  remote_calls (sink_trace w self messages) = [].
Proof.
  unfold sink_trace. destruct (message_callback _) as [cb|]; [|done].
  destruct (bool_decide _);
    (induction messages as [|m rest [IH1 IH2]]; [done|]);
    cbn [flat_map app];
    change (adapter_calls (Sink self cb m :: ?t)) with (adapter_calls t);
    change (remote_calls (Sink self cb m :: ?t)) with (remote_calls t);
    change (adapter_calls (WsSend cb m :: ?t)) with (adapter_calls t);
    change (remote_calls (WsSend cb m :: ?t)) with (remote_calls t);
    by rewrite IH1, IH2.
Qed.

Lemma sink_trace_calls (w : World WS.VoiceAIWebSocketServer) self cb messages :
  message_callback (client_at w self) = Some cb ->
  sink_calls (sink_trace w self messages) = map (fun m => (self, cb, m)) messages /\
  frames_sent (sink_trace w self messages) =
    if bool_decide (cb ∈ WS.active_connections (server w))
    then map (fun m => (cb, m)) messages else [].
Proof.
  intros Hcb. unfold sink_trace. rewrite Hcb.
  destruct (bool_decide _);
    (induction messages as [|m rest [IH1 IH2]]; [done|]);
    cbn [flat_map map app];
    change (sink_calls (Sink self cb m :: ?t)) with ((self, cb, m) :: sink_calls t);
    change (frames_sent (Sink self cb m :: ?t)) with (frames_sent t);
    change (sink_calls (WsSend cb m :: ?t)) with (sink_calls t);
    change (frames_sent (WsSend cb m :: ?t)) with ((cb, m) :: frames_sent t);
    by rewrite IH1, IH2.
Qed.

(** Each facet stands once in the order of facets, so its frame stands once
    among the expected frames when the facet is present, and not at all
    otherwise. *)
Lemma expected_counts response f :
  count_type (Spec.kind f) (Spec.expected response) =
  if Spec.present response f then 1 else 0.
Proof.
  destruct response as [d sc um].
  destruct f, d as [payload|], sc as [[[[|]|] [[|]|]]|], um as [[n]|];
    reflexivity.
Qed.

(** The expected frames come in the order of facets. *)
Lemma expected_order response :
  omap frame_type (Spec.expected response)
    `sublist_of` map Spec.kind Spec.order.
Proof.
  destruct response as [d sc um].
  destruct d as [payload|], sc as [[[[|]|] [[|]|]]|], um as [[n]|];
    cbn; repeat first [apply sublist_skip | apply sublist_cons | apply sublist_nil].
Qed.

(** C1, as the code has it. When the adapter object was built
    ([GeminiLiveClient(...)] returned) and opening the backend session
    fails, [register_client] returns normally and writes exactly one frame,
    the connection [error] frame, to the client. The registration made
    before the session was opened stays: the websocket is active and the
    registry maps it to a new adapter that is not connected. The entry goes
    when [unregister_client] runs for that websocket. When the constructor
    of the adapter itself raises, [register_client] raises that exception:
    no frame is written, nothing is called, the websocket has been made
    active and stays so, and the registry and the adapters are as before. *)
Theorem failed_connect_reports_error
    (transport : WebSocket -> json -> Outcome)
    (w : World WS.VoiceAIWebSocketServer) (ws : WebSocket) (o : ConnectEnv) :
  opened o = false ->
  let r := WS.register_client transport ws Returns o w in
  let a := fresh (dom (heap w)) in
  value r = Ok tt /\
  frames_sent (trace r) =
    [(ws, error_frame "Ошибка подключения к Gemini Live API")] /\
  WS.clients (server (after r)) !! ws = Some a /\
  ws ∈ WS.active_connections (server (after r)) /\
  heap w !! a = None /\
  is_connected (client_at (after r) a) = false /\
  streaming (client_at (after r) a) = false /\
  (forall aexit,
     WS.clients (server (after (WS.unregister_client ws aexit (after r)))) !! ws
     = None) /\
  (forall e,
     let r' := WS.register_client transport ws (Raises e) o w in
     value r' = Raise e /\
     trace r' = [] /\
     ws ∈ WS.active_connections (server (after r')) /\
     WS.clients (server (after r')) = WS.clients (server w) /\
     heap (after r') = heap w).
Proof.
  intros Hfail r a. subst r.
  assert (forall e,
            let r' := WS.register_client transport ws (Raises e) o w in
            value r' = Raise e /\
            trace r' = [] /\
            ws ∈ WS.active_connections (server (after r')) /\
            WS.clients (server (after r')) = WS.clients (server w) /\
            heap (after r') = heap w) as Hraise.
  { intros e. cbv zeta. rewrite Registry.register_raises.
    unfold value, after, trace. cbn [fst snd server heap WS.clients
      WS.active_connections].
    repeat split. apply elem_of_union. left. by apply elem_of_singleton. }
  revert Hraise.
  rewrite Registry.register_run. fold a.
  unfold value, after, trace. cbn [fst snd server heap WS.clients
    WS.active_connections].
  intros Hraise.
  rewrite Hfail. split; [done|]. split.
  { unfold connect_trace. rewrite Hfail.
    by destruct (live_connect o) as [e|h]. }
  split; [apply lookup_insert_eq|].
  split; [apply elem_of_union; left; by apply elem_of_singleton|].
  split; [apply not_elem_of_dom, is_fresh|].
  assert (client_at
            (mkWorld (WS.mkServer (WS.gemini_api_key (server w))
                        (<[ws:=a]> (WS.clients (server w)))
                        ({[ws]} ∪ WS.active_connections (server w)))
                     (<[a:=connected_client (WS.gemini_api_key (server w)) ws o]>
                        (heap w))) a
          = connected_client (WS.gemini_api_key (server w)) ws o) as ->.
  { unfold client_at. cbn [heap]. by rewrite lookup_insert_eq. }
  unfold streaming, connected_client. cbn [is_connected]. rewrite Hfail.
  split; [done|]. split; [apply andb_false_r|].
  split; [|exact Hraise].
  intros aexit. rewrite Registry.unregister_run.
  cbn [server WS.clients]. rewrite lookup_insert_eq. cbv zeta.
  cbn [fst snd server WS.clients]. apply lookup_delete_eq.
Qed.

(** C2, as the code has it. When the backend stream raises in the listening
    task of an adapter that holds a session, the task ends normally after
    clearing [is_connected], so later sends are refused. Nothing else is
    torn down: the server state (registry and active connections) is the
    same, the adapter keeps its session handle and its callback, every
    other adapter is untouched, and no adapter method and no session method
    is called. *)
Theorem backend_failure_only_clears_flag
    (transport : WebSocket -> json -> Outcome)
    (w : World WS.VoiceAIWebSocketServer) (self : Addr)
    (responses : list LiveServerMessage) (e : exn) :
  is_Some (session (client_at w self)) ->
  let r := WS.listen transport self responses (Raises e) w in
  value r = Ok tt /\
  server (after r) = server w /\
  heap (after r) = alter disconnected self (heap w) /\
  streaming (client_at (after r) self) = false /\
  session (client_at (after r) self) = session (client_at w self) /\
  adapter_calls (trace r) = [] /\
  remote_calls (trace r) = [].
Proof.
  intros [h Hs] r. subst r. rewrite Registry.listen_run, Hs.
  unfold value, after, trace. cbn [fst snd].
  destruct (sink_trace_kinds w self (flat_map Spec.expected responses))
    as [-> ->].
  repeat split.
  - unfold streaming, client_at, set_client. cbn [heap].
    rewrite lookup_alter_eq.
    destruct (heap w !! self); cbn; rewrite ?andb_false_r; done.
  - by rewrite session_after_disconnected.
Qed.

(** C4. One backend event, on an adapter whose sink was set by
    [register_client] for websocket [ws]: the handler returns normally and
    changes nothing; the sink is called once for every facet that is on the
    event and for nothing else, with the frame of that facet, in the order
    audio, turn complete, interrupted, usage; every frame written goes to
    [ws], and while [ws] is active these are exactly the frames of the
    facets, in that order. In particular an event that has only the
    turn-complete flag and usage statistics gives [ai_stopped_speaking]
    followed by [usage_metadata]. *)
Theorem facets_forwarded_in_order
    (transport : WebSocket -> json -> Outcome)
    (w : World WS.VoiceAIWebSocketServer) (self : Addr) (ws : WebSocket)
    (response : LiveServerMessage) :
  message_callback (client_at w self) = Some ws ->
  let r := Gemini._handle_gemini_response (WS.callback transport) self response w in
  value r = Ok tt /\
  after r = w /\
  sink_calls (trace r) = map (fun m => (self, ws, m)) (Spec.expected response) /\
  (forall f, count_type (Spec.kind f) (Spec.expected response)
             = if Spec.present response f then 1 else 0) /\
  omap frame_type (Spec.expected response) `sublist_of` map Spec.kind Spec.order /\
  (forall ws' m, (ws', m) ∈ frames_sent (trace r) -> ws' = ws) /\
  (ws ∈ WS.active_connections (server w) ->
   frames_sent (trace r) = map (fun m => (ws, m)) (Spec.expected response)) /\
  (forall sc um,
     data response = None ->
     server_content response = Some sc ->
     opt_truthy (turn_complete sc) = true ->
     opt_truthy (interrupted sc) = false ->
     usage_metadata response = Some um ->
     sink_calls (trace r) =
       [(self, ws, JObj [("type", JStr "ai_stopped_speaking")]);
        (self, ws, JObj [("type", JStr "usage_metadata");
                         ("total_tokens", opt_int (total_token_count um))])]).
Proof.
  intros Hcb r. subst r. rewrite Registry.response_run.
  unfold value, after, trace. cbn [fst snd].
  destruct (sink_trace_calls w self ws (Spec.expected response) Hcb) as [Hs Hf].
  rewrite Hs, Hf. split; [done|]. split; [done|]. split; [done|].
  split; [apply expected_counts|]. split; [apply expected_order|].
  split; [|split].
  - intros ws' m. destruct (bool_decide _); [|by intros ?%elem_of_nil].
    rewrite list_elem_of_fmap. by intros (? & [= -> _] & _).
  - intros Hact. by rewrite bool_decide_eq_true_2.
  - intros sc um Hd Hsc Htc Hit Hum. destruct response as [d sc' um'].
    cbn in Hd, Hsc, Hum. subst. unfold Spec.expected, Spec.order.
    cbn. by rewrite Htc, Hit.
Qed.

(** C8, as the code has it. Closing an adapter a second time has no effect,
    provided the first close had no session to tear down or its session
    teardown returned: the second call returns normally, changes nothing
    and calls no session method. Teardown of a connection is idempotent
    without condition: a second [unregister_client] returns normally,
    changes nothing and calls nothing. *)
Theorem close_twice_is_close_once
    (w : World WS.VoiceAIWebSocketServer) (self : Addr) (ws : WebSocket)
    (o1 o2 o3 o4 : Outcome) :
  session (client_at w self) = None \/ o1 = Returns ->
  let w1 := after (Gemini.disconnect self o1 w) in
  let w2 := after (WS.unregister_client ws o3 w) in
  Gemini.disconnect self o2 w1 = (Ok tt, w1, [AdapterCall self m_disconnect]) /\
  session (client_at w1 self) = None /\
  is_connected (client_at w1 self) = false /\
  WS.unregister_client ws o4 w2 = (Ok tt, w2, []).
Proof.
  intros H w1 w2. split; [by apply disconnect_again|].
  assert (session (client_at w1 self) = None /\
          is_connected (client_at w1 self) = false) as [Hs Hc].
  { subst w1. rewrite disconnect_run. unfold after. cbn [fst snd].
    unfold client_at, set_client in *.
    destruct (session (default (Gemini.blank "") (heap w !! self))) as [h|] eqn:E.
    - destruct H as [?| ->]; [congruence|]. cbn [heap].
      rewrite lookup_alter_eq. by destruct (heap w !! self).
    - cbn [heap]. rewrite lookup_alter_eq.
      destruct (heap w !! self); cbn in *; auto. }
  split; [done|]. split; [done|].
  assert (WS.clients (server w2) !! ws = None /\
          WS.active_connections (server w2) ∖ {[ws]}
          = WS.active_connections (server w2)) as [Hnone Hsame].
  { subst w2. rewrite Registry.unregister_run.
    destruct (WS.clients (server w) !! ws) as [a|] eqn:Hws; cbv zeta;
      unfold after; cbn [fst snd server WS.clients WS.active_connections];
      rewrite ?lookup_delete_eq, difference_twice_L; done. }
  rewrite Registry.unregister_run, Hnone, Hsame.
  by destruct w2 as [[key cl act] hp].
Qed.

(** C9. In a reachable world with websockets [A] and [B], [A ≠ B], both
    registered: closing [A] removes the entry of [A] and no other, the
    registry has one entry less, [B] keeps its entry, its adapter (a
    different object from the adapter of [A], and unchanged) and its place
    among the active connections, and every call made is a call on the
    adapter of [A] or on its session. The adapter of [A] is closed:
    [disconnect] is called on it, once, and on no other adapter; it is not
    connected and does not stream afterwards; [__aexit__] is awaited once on
    the session it held, if it held one; and [A] is no longer among the
    active connections. *)
Theorem closing_one_leaves_the_others
    (json_loads : string -> option json) (format : json -> string)
    (transport : WebSocket -> json -> Outcome)
    (w : World WS.VoiceAIWebSocketServer) (A B : WebSocket) (a b : Addr)
    (aexit : Outcome) :
  Run.reachable json_loads format transport w ->
  WS.clients (server w) !! A = Some a ->
  WS.clients (server w) !! B = Some b ->
  A <> B ->
  let r := WS.unregister_client A aexit w in
  value r = Ok tt /\
  WS.clients (server (after r)) = delete A (WS.clients (server w)) /\
  WS.clients (server (after r)) !! A = None /\
  WS.clients (server (after r)) !! B = Some b /\
  size (WS.clients (server (after r))) + 1 = size (WS.clients (server w)) /\
  a <> b /\
  heap (after r) !! b = heap w !! b /\
  (B ∈ WS.active_connections (server (after r)) <->
   B ∈ WS.active_connections (server w)) /\
  (forall self m, (self, m) ∈ adapter_calls (trace r) ->
     self = a /\ m = m_disconnect) /\
  (forall self h c, (self, h, c) ∈ remote_calls (trace r) ->
     self = a /\ c = s_aexit) /\
  adapter_calls (trace r) = [(a, m_disconnect)] /\
  remote_calls (trace r) =
    match session (client_at w a) with
    | Some h => [(a, h, s_aexit)]
    | None => []
    end /\
  is_connected (client_at (after r) a) = false /\
  streaming (client_at (after r) a) = false /\
  (A ∉ WS.active_connections (server (after r))).
Proof.
  intros Hreach HA HB Hne r. subst r.
  pose proof (Invariant.reachable_inv _ _ _ _ Hreach) as [Hheap Hown Hcb].
  assert (a <> b) as Hab by (intros ->; eauto).
  assert (is_connected
            (client_at (after (WS.unregister_client A aexit w)) a) = false)
    as Hoff.
  { rewrite Registry.unregister_run, HA. cbv zeta.
    unfold after at 1. cbn [fst snd].
    match goal with
    | |- context [Gemini.disconnect a aexit ?w0] =>
        pose proof (streaming_after_disconnect a aexit w0) as Hd
    end.
    unfold client_at in *. cbn [heap]. exact Hd. }
  assert (streaming
            (client_at (after (WS.unregister_client A aexit w)) a) = false)
    as Hstr.
  { unfold streaming. by rewrite Hoff, andb_false_r. }
  revert Hoff Hstr.
  rewrite Registry.unregister_run, HA. cbv zeta.
  rewrite disconnect_run.
  unfold value, after, trace. cbn [fst snd server heap WS.clients
    WS.active_connections].
  intros Hoff Hstr.
  split; [done|]. split; [done|]. split; [apply lookup_delete_eq|].
  split; [by rewrite lookup_delete_ne|].
  split. { rewrite map_size_delete, HA.
           pose proof (map_size_non_empty_iff (WS.clients (server w))) as Hs.
           assert (WS.clients (server w) ≠ ∅) as Hnon.
           { intros E. rewrite E, lookup_empty in HA. done. }
           apply Hs in Hnon. lia. }
  split; [done|]. split.
  { destruct (session _), aexit; cbn [set_client heap];
      by rewrite lookup_alter_ne. }
  split. { rewrite elem_of_difference, elem_of_singleton. intuition auto. }
  split.
  { intros self m Hin. destruct (session _); cbn in Hin; members; done. }
  split.
  { intros self h c Hin. destruct (session _); cbn in Hin; members; done. }
  split. { by destruct (session _). }
  split. { by destruct (session _). }
  split; [exact Hoff|]. split; [exact Hstr|].
  intros [_ Hn]%elem_of_difference. apply Hn. by apply elem_of_singleton.
Qed.

(** ** The claims at sample inputs *)


(** The backend refuses the session of websocket 10: one error frame. *)
Lemma failed_connect_witness :
  opened Sample.connect_refused = false /\
  frames_sent
    (trace (WS.register_client Sample.transport 10 Returns
              Sample.connect_refused (WS.empty_server "key")))
  = [(10, error_frame "Ошибка подключения к Gemini Live API")].
Proof.
  split; [reflexivity|].
  exact (proj1 (proj2 (failed_connect_reports_error Sample.transport
                         (WS.empty_server "key") 10 Sample.connect_refused
                         eq_refl))).
Defined.

(** C1 as stated fails: after the failed connect the registry holds an
    entry for websocket 10, and the websocket is still active. *)
Lemma failed_connect_stays_registered :
  let r := WS.register_client Sample.transport 10 Returns
             Sample.connect_refused (WS.empty_server "key") in
  value (Gemini.connect 0 10 Sample.connect_refused
           (mkWorld (server (WS.empty_server "key")) {[0 := Gemini.blank "key"]}))
  = Ok false /\
  WS.clients (server (after r)) !! 10 = Some 0 /\
  WS.clients (server (after r)) !! 10 <> None /\
  bool_decide (10 ∈ WS.active_connections (server (after r))) = true.
Proof. vm_compute. repeat split; discriminate. Qed.

(** The stream of the adapter of websocket 10 raises. *)
Lemma backend_failure_witness :
  is_Some (session (client_at Sample.one_client 0)) /\
  server (after (WS.listen Sample.transport 0 [Sample.done_and_usage] Sample.stream_lost
                   Sample.one_client))
  = server Sample.one_client.
Proof.
  split; [exists 1; reflexivity|].
  exact (proj1 (proj2 (backend_failure_only_clears_flag Sample.transport
                         Sample.one_client 0 [Sample.done_and_usage]
                         (SdkError "stream closed")
                         (ex_intro _ 1 eq_refl)))).
Defined.

(** C2 as stated fails: after the backend stream raised, the adapter is
    not connected, yet websocket 10 is still registered and active and no
    [disconnect] was called. *)
Lemma backend_failure_leaves_entry :
  let r := WS.listen Sample.transport 0 [] Sample.stream_lost Sample.one_client in
  WS.clients (server Sample.one_client) !! 10 = Some 0 /\
  is_connected (client_at Sample.one_client 0) = true /\
  is_connected (client_at (after r) 0) = false /\
  WS.clients (server (after r)) !! 10 = Some 0 /\
  WS.clients (server (after r)) !! 10 <> None /\
  bool_decide (10 ∈ WS.active_connections (server (after r))) = true /\
  adapter_calls (trace r) = [].
Proof. vm_compute. repeat split; discriminate. Qed.

(** An audio frame with the payload [hello] on websocket 10. *)
Lemma audio_frame_witness :
  Sample.json_loads (Sample.text_of_audio Sample.hello)
  = Some (JObj [("type", JStr "audio_data");
                ("data", JStr (b64encode Sample.hello));
                ("mime_type", JStr Sample.pcm16)]) /\
  WS.clients (server Sample.one_client) !! 10 = Some 0 /\
  Sample.hello <> [] /\
  adapter_calls
    (trace (Sample.handle 10 (Sample.text_of_audio Sample.hello) Sample.send_ok
              Sample.one_client))
  = [(0, m_send_audio Sample.hello (JStr Sample.pcm16))].
Proof.
  split; [vm_compute; reflexivity|]. split; [reflexivity|].
  split; [discriminate|].
  refine (proj1 (proj2 (proj2
    (audio_frame_one_send_audio Sample.json_loads Sample.format
       Sample.transport Sample.one_client 10 0 (Sample.text_of_audio Sample.hello)
       [("type", JStr "audio_data"); ("data", JStr (b64encode Sample.hello));
        ("mime_type", JStr Sample.pcm16)]
       Sample.hello Sample.pcm16 Sample.send_ok _ eq_refl eq_refl eq_refl
       eq_refl _)))).
  - vm_compute; reflexivity.
  - discriminate.
Defined.

(** C3 as stated fails for the empty payload: its base64 text is the empty
    string, and the frame makes no adapter call at all. *)
Lemma empty_audio_not_forwarded :
  let r := Sample.handle 10 (Sample.text_of_audio []) Sample.send_ok Sample.one_client in
  b64encode [] = "" /\
  Sample.json_loads (Sample.text_of_audio [])
  = Some (JObj [("type", JStr "audio_data"); ("data", JStr (b64encode []));
                ("mime_type", JStr Sample.pcm16)]) /\
  WS.clients (server Sample.one_client) !! 10 = Some 0 /\
  adapter_calls (trace r) = [] /\
  adapter_calls (trace r) <> [(0, m_send_audio [] (JStr Sample.pcm16))].
Proof. vm_compute. repeat split; discriminate. Qed.

(** A backend event with the turn-complete flag and usage statistics. *)
Lemma facets_witness :
  message_callback (client_at Sample.one_client 0) = Some 10 /\
  sink_calls
    (trace (Gemini._handle_gemini_response (WS.callback Sample.transport) 0
              Sample.done_and_usage Sample.one_client))
  = [(0, 10, JObj [("type", JStr "ai_stopped_speaking")]);
     (0, 10, JObj [("type", JStr "usage_metadata"); ("total_tokens", JInt 42)])].
Proof.
  split; [reflexivity|].
  exact (proj1 (proj2 (proj2
    (facets_forwarded_in_order Sample.transport Sample.one_client 0 10
       Sample.done_and_usage eq_refl)))).
Defined.

(** A send on the adapter whose session was refused. *)
Lemma send_refused_witness :
  streaming (client_at Sample.refused_world 0) = false /\
  value (Gemini.send_audio 0 Sample.hello (JStr Sample.pcm16) Sample.send_ok
           Sample.refused_world) = Ok false /\
  value (Gemini.send_text 0 (JStr "hi") Sample.send_ok Sample.refused_world)
  = Ok false.
Proof.
  split; [reflexivity|].
  pose proof (send_refused_when_not_streaming Sample.refused_world 0 Sample.hello
                (JStr Sample.pcm16) (JStr "hi") Sample.send_ok eq_refl) as H.
  exact (conj (proj1 (proj1 H)) (proj1 (proj2 H))).
Defined.


(** An [audio_data] frame without [data], on websocket 10. *)
Lemma missing_field_witness :
  Sample.json_loads (Sample.object_text [("type", "audio_data")])
  = Some (JObj [("type", JStr "audio_data")]) /\
  WS.clients (server Sample.one_client) !! 10 = Some 0 /\
  Sample.handle 10 (Sample.object_text [("type", "audio_data")]) Sample.send_ok
    Sample.one_client
  = (Ok tt, Sample.one_client, []).
Proof.
  split; [vm_compute; reflexivity|]. split; [reflexivity|].
  refine (missing_field_dropped_silently Sample.json_loads Sample.format
            Sample.transport Sample.one_client 10 0
            (Sample.object_text [("type", "audio_data")])
            [("type", JStr "audio_data")] Sample.send_ok _ eq_refl
            (or_introl (conj eq_refl eq_refl))).
  vm_compute; reflexivity.
Defined.

(** C7 as stated fails: the frame without [data] is well-formed JSON of a
    variant that requires [data], and websocket 10 receives no frame, so no
    [error] frame. *)
Lemma missing_data_gets_no_error :
  let text := Sample.object_text [("type", "audio_data")] in
  let r := Sample.handle 10 text Sample.send_ok Sample.one_client in
  Sample.json_loads text = Some (JObj [("type", JStr "audio_data")]) /\
  assoc "data" [("type", JStr "audio_data")] = None /\
  bool_decide (10 ∈ WS.active_connections (server Sample.one_client)) = true /\
  frames_sent (trace r) = [] /\
  ~ (exists m, (10, m) ∈ frames_sent (trace r) /\ is_error_frame m = true).
Proof.
  vm_compute. repeat split. intros (m & Hin & _). by apply elem_of_nil in Hin.
Qed.

(** Closing the adapter of websocket 10 twice, the teardown returning. *)
Lemma close_twice_witness :
  (session (client_at Sample.one_client 0) = None \/ Returns = Returns) /\
  let w1 := after (Gemini.disconnect 0 Returns Sample.one_client) in
  Gemini.disconnect 0 Returns w1 = (Ok tt, w1, [AdapterCall 0 m_disconnect]).
Proof.
  split; [right; reflexivity|].
  exact (proj1 (close_twice_is_close_once Sample.one_client 0 10
                  Returns Returns Returns Returns (or_intror eq_refl))).
Defined.

(** C8 as stated fails when the session teardown of the first close raises:
    the session handle stays, and the second close tears the session down
    again and changes the adapter. *)
Lemma close_after_failed_teardown_repeats :
  let r1 := Gemini.disconnect 0 (Raises (SdkError "teardown failed"))
              Sample.one_client in
  let r2 := Gemini.disconnect 0 Returns (after r1) in
  remote_calls (trace r1) = [(0, 1, s_aexit)] /\
  session (client_at (after r1) 0) = Some 1 /\
  remote_calls (trace r2) = [(0, 1, s_aexit)] /\
  remote_calls (trace r2) <> [] /\
  session (client_at (after r2) 0) = None /\
  after r2 <> after r1.
Proof.
  cbv zeta. repeat split; try (vm_compute; reflexivity).
  - vm_compute. discriminate.
  - intros H. apply (f_equal (fun w => session (client_at w 0))) in H.
    vm_compute in H. discriminate.
Qed.

(** Two registered websockets, 10 and 20; 10 is closed. *)
Lemma closing_one_witness :
  Run.reachable Sample.json_loads Sample.format Sample.transport
    Sample.two_clients /\
  WS.clients (server Sample.two_clients) !! 10 = Some 0 /\
  WS.clients (server Sample.two_clients) !! 20 = Some 1 /\
  10 <> 20 /\
  let r := WS.unregister_client 10 Returns Sample.two_clients in
  WS.clients (server (after r)) !! 20 = Some 1 /\
  size (WS.clients (server (after r))) + 1
  = size (WS.clients (server Sample.two_clients)) /\
  heap (after r) !! 1 = heap Sample.two_clients !! 1.
Proof.
  assert (Run.reachable Sample.json_loads Sample.format Sample.transport
            Sample.two_clients) as Hreach.
  { eapply Run.reach_step;
      [eapply Run.reach_step; [apply (Run.reach_empty _ _ _ "key")|]|];
      apply Run.step_register. }
  assert (WS.clients (server Sample.two_clients) !! 10 = Some 0) as H10
    by (vm_compute; reflexivity).
  assert (WS.clients (server Sample.two_clients) !! 20 = Some 1) as H20
    by (vm_compute; reflexivity).
  assert (10 <> 20) as Hne by lia.
  split; [exact Hreach|]. split; [exact H10|]. split; [exact H20|].
  split; [exact Hne|].
  pose proof (closing_one_leaves_the_others Sample.json_loads Sample.format
                Sample.transport Sample.two_clients 10 20 0 1 Returns
                Hreach H10 H20 Hne) as H.
  cbv zeta in H. cbv zeta.
  exact (conj (proj1 (proj2 (proj2 (proj2 H))))
           (conj (proj1 (proj2 (proj2 (proj2 (proj2 H)))))
                 (proj1 (proj2 (proj2 (proj2 (proj2 (proj2 (proj2 H))))))))).
Defined.

(** A [user_speaking_started] frame on websocket 10. *)
Lemma speaking_witness :
  Sample.json_loads (Sample.object_text [("type", "user_speaking_started")])
  = Some (JObj [("type", JStr "user_speaking_started")]) /\
  Sample.handle 10 (Sample.object_text [("type", "user_speaking_started")])
    Sample.send_ok Sample.one_client
  = (Ok tt, Sample.one_client,
     [WsSend 10 (JObj [("type", JStr "user_speaking_acknowledged")])]) /\
  "user_speaking_acknowledged" ∉ Spec.server_frame_types.
Proof.
  assert (Sample.json_loads
            (Sample.object_text [("type", "user_speaking_started")])
          = Some (JObj [("type", JStr "user_speaking_started")])) as Hj
    by (vm_compute; reflexivity).
  split; [exact Hj|].
  pose proof (speaking_frames_acknowledged Sample.json_loads Sample.format
                Sample.transport 10 0
                (Sample.object_text [("type", "user_speaking_started")])
                [("type", JStr "user_speaking_started")]
                "user_speaking_started" "user_speaking_acknowledged"
                Sample.send_ok Hj eq_refl (or_introl (conj eq_refl eq_refl)))
    as (Hws & _ & Hout).
  split; [|exact Hout].
  apply Hws; [reflexivity|].
  vm_compute. reflexivity.
Defined.

(** * Further properties *)

(** ** The adapter (gemini_live_client.py) *)

Section AdapterMore.

Context {S : Type}.
Implicit Types (w : World S) (self : Addr).


(** A send on a streaming adapter. *)
Lemma send_audio_live self h audio mime o w :
  session (client_at w self) = Some h ->
  is_connected (client_at w self) = true ->
  Gemini.send_audio self audio mime o w =
  (Ok (delivered o), w,
   AdapterCall self (m_send_audio audio mime) ::
   (if built o then [Remote self h (s_send_realtime_input audio mime)] else [])).
Proof.
  intros Hs Hc. unfold Gemini.send_audio, bind, try_except, tell.
  rewrite load_run, Hs, Hc. unfold delivered, built.
  destruct o as [[|e1] [|e2]]; reflexivity.
Qed.

Lemma send_text_live self h text o w :
  session (client_at w self) = Some h ->
  is_connected (client_at w self) = true ->
  Gemini.send_text self text o w =
  (Ok (delivered o), w,
   AdapterCall self (m_send_text text) ::
   (if built o then [Remote self h (s_send_client_content text)] else [])).
Proof.
  intros Hs Hc. unfold Gemini.send_text, bind, try_except, tell.
  rewrite load_run, Hs, Hc. unfold delivered, built.
  destruct o as [[|e1] [|e2]]; reflexivity.
Qed.

Lemma client_at_other w self other f :
  other <> self -> client_at (set_client w self f) other = client_at w other.
Proof.
  intros Hne. unfold client_at, set_client. cbn [heap].
  by rewrite lookup_alter_ne.
Qed.

End AdapterMore.









(** ** The listening task and the sink (websocket_server.py) *)

Module Listening.
Section Listening.

Variable transport : WebSocket -> json -> Outcome.

Local Abbreviation W := (World WS.VoiceAIWebSocketServer).
Implicit Types (w : W) (ws : WebSocket) (self : Addr).


(** Whatever the sink writes, it writes to an active websocket. *)
Lemma sink_frames_active w self messages ws m :
  (ws, m) ∈ frames_sent (sink_trace w self messages) ->
  ws ∈ WS.active_connections (server w).
Proof.
  unfold sink_trace. destruct (message_callback _) as [cb|];
    [|by intros ?%elem_of_nil].
  destruct (bool_decide (cb ∈ WS.active_connections (server w))) eqn:E.
  - apply bool_decide_eq_true in E.
    induction messages as [|x rest IH]; cbn [flat_map app];
      [by intros ?%elem_of_nil|].
    change (frames_sent (Sink self cb x :: WsSend cb x :: ?t))
      with ((cb, x) :: frames_sent t).
    rewrite elem_of_cons. intros [[= -> _]|Hin]; auto.
  - induction messages as [|x rest IH]; cbn [flat_map app];
      [by intros ?%elem_of_nil|].
    change (frames_sent (Sink self cb x :: ?t)) with (frames_sent t). auto.
Qed.

Lemma sink_frames_inactive w self messages :
  (forall cb, message_callback (client_at w self) = Some cb ->
     cb ∉ WS.active_connections (server w)) ->
  frames_sent (sink_trace w self messages) = [].
Proof.
  intros Hoff. destruct (frames_sent (sink_trace w self messages))
    as [|[ws m] rest] eqn:E; [done|].
  assert ((ws, m) ∈ frames_sent (sink_trace w self messages)) as Hin.
  { rewrite E. apply elem_of_cons. by left. }
  pose proof (sink_frames_active _ _ _ _ _ Hin) as Hact.
  revert Hin. unfold sink_trace.
  destruct (message_callback (client_at w self)) as [cb|] eqn:Hcb;
    [|by intros ?%elem_of_nil].
  rewrite bool_decide_eq_false_2 by auto.
  clear E. induction messages as [|x l IH]; cbn [flat_map app];
    [by intros ?%elem_of_nil|].
  change (frames_sent (Sink self cb x :: ?t)) with (frames_sent t). auto.
Qed.

End Listening.
End Listening.



(** X6. The listening task never touches the registry. When the stream of
    backend events ends without an exception nothing changes at all: the
    adapter keeps [is_connected] and its session, so an adapter that was
    streaming still accepts sends. *)
Theorem listen_end_changes_nothing
    (transport : WebSocket -> json -> Outcome)
    (w : World WS.VoiceAIWebSocketServer) (self : Addr)
    (responses : list LiveServerMessage) (ending : Outcome) :
  server (after (WS.listen transport self responses ending w)) = server w /\
  value (WS.listen transport self responses Returns w) = Ok tt /\
  after (WS.listen transport self responses Returns w) = w /\
  streaming
    (client_at (after (WS.listen transport self responses Returns w)) self)
  = streaming (client_at w self).
Proof.
  rewrite !Registry.listen_run. unfold value, after.
  destruct (session (client_at w self)); cbn [fst snd];
    repeat split; by destruct ending.
Qed.

(** X7. An audio payload from the backend reaches the sink as the first
    frame of its event, of type [audio_data] with MIME type
    [audio/pcm;rate=24000], and the text in [data] decodes to the very
    bytes the backend sent; this holds for the empty payload too. *)
Theorem audio_out_decodes_to_payload
    (transport : WebSocket -> json -> Outcome)
    (w : World WS.VoiceAIWebSocketServer) (self : Addr) (ws : WebSocket)
    (response : LiveServerMessage) (payload : bytes) :
  message_callback (client_at w self) = Some ws ->
  data response = Some payload ->
  exists text rest,
    sink_calls
      (trace (Gemini._handle_gemini_response (WS.callback transport) self
                response w))
    = (self, ws, JObj [("type", JStr "audio_data"); ("data", JStr text);
                       ("mime_type", JStr "audio/pcm;rate=24000")]) :: rest /\
    b64decode text = inr payload.
Proof.
  intros Hcb Hdata. rewrite Registry.response_run. unfold trace. cbn [snd].
  destruct (sink_trace_calls w self ws (Spec.expected response) Hcb) as [-> _].
  destruct response as [d sc um]. cbn [data] in Hdata. subst d.
  unfold Spec.expected, Spec.order. cbn [omap list_omap Spec.outward data mbind
    option_bind map].
  eexists _, _. split; [reflexivity|]. apply Base64Facts.b64decode_b64encode.
Qed.

(** Five bytes of audio from the backend, for the connected client. *)
Lemma audio_out_witness :
  message_callback (client_at Sample.one_client 0) = Some 10 /\
  data More.audio_only = Some Sample.hello /\
  exists text rest,
    sink_calls
      (trace (Gemini._handle_gemini_response (WS.callback Sample.transport) 0
                More.audio_only Sample.one_client))
    = (0, 10, JObj [("type", JStr "audio_data"); ("data", JStr text);
                    ("mime_type", JStr "audio/pcm;rate=24000")]) :: rest /\
    b64decode text = inr Sample.hello.
Proof.
  split; [reflexivity|]. split; [reflexivity|].
  exact (audio_out_decodes_to_payload Sample.transport Sample.one_client 0 10
           More.audio_only Sample.hello eq_refl eq_refl).
Defined.

(** X8. Frames from the backend are written to active websockets only:
    whatever the listening task writes goes to a websocket that is among
    the active connections. *)
Theorem listen_writes_to_active_only
    (transport : WebSocket -> json -> Outcome)
    (w : World WS.VoiceAIWebSocketServer) (self : Addr)
    (responses : list LiveServerMessage) (ending : Outcome)
    (ws : WebSocket) (m : json) :
  (ws, m) ∈ frames_sent (trace (WS.listen transport self responses ending w)) ->
  ws ∈ WS.active_connections (server w) /\
  message_callback (client_at w self) = Some ws.
Proof.
  rewrite Registry.listen_run.
  destruct (session (client_at w self)); unfold trace; cbn [snd];
    [|by intros ?%elem_of_nil].
  intros Hin. split; [by eapply Listening.sink_frames_active|].
  revert Hin. unfold sink_trace.
  destruct (message_callback (client_at w self)) as [cb|];
    [|by intros ?%elem_of_nil].
  generalize (flat_map Spec.expected responses). intros l.
  destruct (bool_decide _);
    (induction l as [|x l IH]; cbn [flat_map app];
     [by intros ?%elem_of_nil|]).
  - change (frames_sent (Sink self cb x :: WsSend cb x :: ?t))
      with ((cb, x) :: frames_sent t).
    rewrite elem_of_cons. intros [[= -> _]|Hin]; auto.
  - change (frames_sent (Sink self cb x :: ?t)) with (frames_sent t). auto.
Qed.

(** The frame that the end of a turn gives, for the connected client. *)
Lemma listen_active_witness :
  (10, JObj [("type", JStr "ai_stopped_speaking")])
    ∈ frames_sent
        (trace (WS.listen Sample.transport 0 [Sample.done_and_usage] Returns
                  Sample.one_client)) /\
  10 ∈ WS.active_connections (server Sample.one_client).
Proof.
  assert ((10, JObj [("type", JStr "ai_stopped_speaking")])
            ∈ frames_sent
                (trace (WS.listen Sample.transport 0 [Sample.done_and_usage]
                          Returns Sample.one_client))) as Hin.
  { apply list_elem_of_In. vm_compute. left. reflexivity. }
  split; [exact Hin|].
  exact (proj1 (listen_writes_to_active_only Sample.transport Sample.one_client
                  0 [Sample.done_and_usage] Returns 10 _ Hin)).
Defined.

(** X9. Backend events that arrive after the client was unregistered are
    dropped: in a reachable world, once [unregister_client] has run for a
    websocket, the listening task of its adapter writes no frame at all,
    whatever the backend still sends. *)
Theorem late_events_are_dropped
    (json_loads : string -> option json) (format : json -> string)
    (transport : WebSocket -> json -> Outcome)
    (w : World WS.VoiceAIWebSocketServer) (ws : WebSocket) (a : Addr)
    (aexit : Outcome) (responses : list LiveServerMessage) (ending : Outcome) :
  Run.reachable json_loads format transport w ->
  WS.clients (server w) !! ws = Some a ->
  let w1 := after (WS.unregister_client ws aexit w) in
  (ws ∉ WS.active_connections (server w1)) /\
  frames_sent (trace (WS.listen transport a responses ending w1)) = [].
Proof.
  intros Hreach Hws w1.
  destruct (Invariant.reachable_inv _ _ _ _ Hreach) as [Hheap Hown Hcb].
  destruct (Hheap _ _ Hws) as [c Hc].
  assert ((ws ∉ WS.active_connections (server w1)) /\
          message_callback (client_at w1 a) = Some ws) as [Hoff Hback].
  { subst w1. rewrite Registry.unregister_run, Hws. cbv zeta.
    rewrite disconnect_run. unfold after. cbn [fst snd server
      WS.active_connections]. split.
    - intros [_ Hn]%elem_of_difference. apply Hn. by apply elem_of_singleton.
    - unfold client_at. cbn [client_at heap].
      destruct (session _), aexit; cbn [set_client heap];
        rewrite lookup_alter_eq; cbn [heap]; rewrite Hc; cbn;
        eapply Hcb; eauto. }
  split; [done|]. rewrite Registry.listen_run.
  destruct (session (client_at w1 a)); unfold trace; cbn [snd]; [|done].
  apply Listening.sink_frames_inactive. intros cb Hcb'.
  rewrite Hback in Hcb'. by injection Hcb' as <-.
Qed.

(** The connected client leaves; its adapter still receives the end of a
    turn. *)
Lemma late_events_witness :
  Run.reachable Sample.json_loads Sample.format Sample.transport
    Sample.one_client /\
  WS.clients (server Sample.one_client) !! 10 = Some 0 /\
  frames_sent
    (trace (WS.listen Sample.transport 0 [Sample.done_and_usage] Returns
              (after (WS.unregister_client 10 Returns Sample.one_client))))
  = [].
Proof.
  assert (Run.reachable Sample.json_loads Sample.format Sample.transport
            Sample.one_client) as Hreach.
  { eapply Run.reach_step; [apply (Run.reach_empty _ _ _ "key")|].
    apply Run.step_register. }
  split; [exact Hreach|]. split; [reflexivity|].
  exact (proj2 (late_events_are_dropped Sample.json_loads Sample.format
                  Sample.transport Sample.one_client 10 0 Returns
                  [Sample.done_and_usage] Returns Hreach eq_refl)).
Defined.

(** ** Every branch of the frame handler (websocket_server.py) *)

Module Dispatch.
Section Dispatch.

Variable json_loads : string -> option json.
Variable format : json -> string.
Variable transport : WebSocket -> json -> Outcome.

Local Abbreviation W := (World WS.VoiceAIWebSocketServer).
Local Abbreviation handle :=
  (WS.handle_client_message json_loads format transport).
Local Abbreviation send := (WS.send_to_client transport).
Implicit Types (w : W) (ws : WebSocket).

(** The reply that [send_to_client] writes, if the websocket is active. *)
Lemma send_trace ws message w :
  send ws message w = (Ok tt, w, trace (send ws message w)).
Proof. by rewrite WSFacts.send_to_client_run. Qed.


(** A frame that is JSON but not an object. *)
Lemma not_an_object ws message o w data :
  json_loads message = Some data ->
  (forall items, data <> JObj items) ->
  handle ws message o w =
  send ws
    (error_frame ("Ошибка обработки сообщения: '" +:+ type_name data
                    +:+ "' object has no attribute 'get'")) w.
Proof.
  intros Hj Hno. unfold WS.handle_client_message, WS.loads. rewrite Hj.
  rewrite (send_trace ws _ w).
  destruct data as [|b|n|f|s|l|items]; [..|by destruct (Hno items eq_refl)].
  all: erewrite try_raise by (rewrite bind_ret; cbn [dict_get];
                              rewrite bind_raise; reflexivity).
  all: cbn [is_JSONDecodeError exn_str].
  all: by rewrite !WSFacts.send_to_client_run.
Qed.

(** A frame from a websocket that is not in the registry. *)
Lemma not_registered ws message o w items :
  json_loads message = Some (JObj items) ->
  WS.clients (server w) !! ws = None ->
  handle ws message o w = send ws (error_frame "Сессия не установлена") w.
Proof.
  intros Hj Hreg. unfold WS.handle_client_message, WS.loads.
  rewrite (send_trace ws _ w). apply try_ok.
  rewrite Hj. go. rewrite Hreg. apply send_trace.
Qed.

(** A frame whose type is none of the five known ones. *)
Lemma unknown_type ws message o w items a :
  json_loads message = Some (JObj items) ->
  WS.clients (server w) !! ws = Some a ->
  let ty := default JNull (assoc "type" items) in
  eq_str ty "audio_data" = false ->
  eq_str ty "text_message" = false ->
  eq_str ty "user_speaking_started" = false ->
  eq_str ty "user_speaking_stopped" = false ->
  eq_str ty "ping" = false ->
  handle ws message o w =
  send ws (error_frame ("Неизвестный тип сообщения: " +:+ format ty)) w.
Proof.
  intros Hj Hreg ty H1 H2 H3 H4 H5.
  unfold WS.handle_client_message, WS.loads.
  rewrite (send_trace ws _ w). apply try_ok.
  rewrite Hj. rewrite bind_ret. cbn [dict_get]. rewrite bind_ret, bind_gets.
  cbn beta. rewrite Hreg. fold ty. rewrite H1, H2, H3, H4, H5.
  apply send_trace.
Qed.

(** An [audio_data] frame whose [data] is truthy and decodes to [X]. *)
Lemma audio_decoded ws message o w items a X :
  json_loads message = Some (JObj items) ->
  WS.clients (server w) !! ws = Some a ->
  eq_str (default JNull (assoc "type" items)) "audio_data" = true ->
  truthy (default JNull (assoc "data" items)) = true ->
  py_b64decode (default JNull (assoc "data" items)) w = (Ok X, w, []) ->
  let mime := default (JStr "audio/pcm;rate=16000") (assoc "mime_type" items) in
  let s := Gemini.send_audio a X mime o w in
  handle ws message o w =
  (Ok tt, w,
   trace s ++
   match value s with
   | Ok true => []
   | _ => trace (send ws (error_frame "Ошибка отправки аудио в Gemini") w)
   end).
Proof.
  intros Hj Hreg Hty Htruthy Hdec mime s.
  destruct (send_audio_run (S:=WS.VoiceAIWebSocketServer) a X mime o w)
    as (ok & t & Hsend & _).
  unfold WS.handle_client_message, WS.loads. apply try_ok.
  rewrite Hj. rewrite bind_ret. cbn [dict_get dict_get_or].
  rewrite bind_ret, bind_gets. cbn beta. rewrite Hreg, Hty.
  rewrite !bind_ret. rewrite Htruthy. cbn [when]. apply try_ok.
  rewrite (bind_ok _ _ _ _ _ _ Hdec). cbn [app].
  subst s. fold mime. rewrite (bind_ok _ _ _ _ _ _ Hsend), Hsend.
  unfold value, after, trace. cbn [fst snd].
  destruct ok; cbn [negb when]; [reflexivity|].
  by rewrite WSFacts.send_to_client_run.
Qed.

(** An [audio_data] frame whose [data] is truthy and does not decode. *)
Lemma audio_undecodable ws message o w items a e :
  json_loads message = Some (JObj items) ->
  WS.clients (server w) !! ws = Some a ->
  eq_str (default JNull (assoc "type" items)) "audio_data" = true ->
  truthy (default JNull (assoc "data" items)) = true ->
  py_b64decode (default JNull (assoc "data" items)) w = (Raise e, w, []) ->
  handle ws message o w =
  send ws (error_frame "Ошибка декодирования аудио данных") w.
Proof.
  intros Hj Hreg Hty Htruthy Hdec.
  unfold WS.handle_client_message, WS.loads.
  rewrite (send_trace ws _ w). apply try_ok.
  rewrite Hj. rewrite bind_ret. cbn [dict_get dict_get_or].
  rewrite bind_ret, bind_gets. cbn beta. rewrite Hreg, Hty.
  rewrite !bind_ret. rewrite Htruthy. cbn [when].
  erewrite try_raise; cycle 1.
  { unfold bind. rewrite Hdec. reflexivity. }
  by rewrite WSFacts.send_to_client_run.
Qed.

(** A [text_message] frame whose [text] is truthy. *)
Lemma text_passed ws message o w items a :
  json_loads message = Some (JObj items) ->
  WS.clients (server w) !! ws = Some a ->
  let ty := default JNull (assoc "type" items) in
  eq_str ty "audio_data" = false ->
  eq_str ty "text_message" = true ->
  truthy (default JNull (assoc "text" items)) = true ->
  let s := Gemini.send_text a (default JNull (assoc "text" items)) o w in
  handle ws message o w =
  (Ok tt, w,
   trace s ++
   match value s with
   | Ok true => []
   | _ => trace (send ws (error_frame "Ошибка отправки текста в Gemini") w)
   end).
Proof.
  intros Hj Hreg ty H1 H2 Htruthy s.
  destruct (send_text_run (S:=WS.VoiceAIWebSocketServer) a
              (default JNull (assoc "text" items)) o w)
    as (ok & t & Hsend & _).
  unfold WS.handle_client_message, WS.loads. apply try_ok.
  rewrite Hj. rewrite bind_ret. cbn [dict_get dict_get_or].
  rewrite bind_ret, bind_gets. cbn beta. rewrite Hreg. fold ty.
  rewrite H1, H2. rewrite !bind_ret. rewrite Htruthy. cbn [when].
  subst s. rewrite (bind_ok _ _ _ _ _ _ Hsend), Hsend.
  unfold value, after, trace. cbn [fst snd].
  destruct ok; cbn [negb when]; [reflexivity|].
  by rewrite WSFacts.send_to_client_run.
Qed.






End Dispatch.
End Dispatch.



(** X11. A [text_message] frame whose [text] is truthy, on a registered
    connection: [send_text] is entered once, on the adapter of this
    websocket, with the value of [text] as it came; no other adapter is
    called. When that adapter streams and the SDK raises nothing, the text
    goes into one [send_client_content] on its session and the client gets
    no frame back. *)
Theorem text_frame_one_send_text
    (json_loads : string -> option json) (format : json -> string)
    (transport : WebSocket -> json -> Outcome)
    (w : World WS.VoiceAIWebSocketServer) (ws : WebSocket) (a : Addr)
    (message : string) (items : list (string * json)) (text : json)
    (o : SendEnv) :
  json_loads message = Some (JObj items) ->
  assoc "type" items = Some (JStr "text_message") ->
  assoc "text" items = Some text ->
  truthy text = true ->
  WS.clients (server w) !! ws = Some a ->
  let r := WS.handle_client_message json_loads format transport ws message o w in
  value r = Ok tt /\
  after r = w /\
  adapter_calls (trace r) = [(a, m_send_text text)] /\
  (forall h, session (client_at w a) = Some h ->
     is_connected (client_at w a) = true ->
     delivered o = true ->
     trace r = [AdapterCall a (m_send_text text);
                Remote a h (s_send_client_content text)]).
Proof.
  intros Hj Hty Htext Htruthy Hreg r. subst r.
  rewrite (Dispatch.text_passed json_loads format transport ws message o w
             items a Hj Hreg); rewrite ?Hty, ?Htext, ?default_some; auto.
  cbv zeta.
  destruct (send_text_run (S:=WS.VoiceAIWebSocketServer) a text o w)
    as (ok & t & Hsend & Ht).
  split; [done|]. split; [done|]. split.
  - rewrite Hsend. unfold value, trace. cbn [fst snd].
    rewrite WSFacts.send_to_client_run. cbn [snd].
    destruct ok, Ht as [->|(h & _ & ->)];
      destruct (bool_decide (ws ∈ WS.active_connections (server w)));
      reflexivity.
  - intros h Hs Hc Hok. rewrite (send_text_live a h text o w Hs Hc), Hok.
    unfold value, trace. cbn [fst snd]. unfold built.
    unfold delivered in Hok. destruct (construct o); [|done].
    by rewrite app_nil_r.
Qed.

(** A text frame on websocket 10. *)
Lemma text_frame_witness :
  More.json_loads
    (Sample.object_text [("type", "text_message"); ("text", "hi")])
  = Some (JObj [("type", JStr "text_message"); ("text", JStr "hi")]) /\
  truthy (JStr "hi") = true /\
  WS.clients (server Sample.one_client) !! 10 = Some 0 /\
  adapter_calls
    (trace (More.handle 10
              (Sample.object_text [("type", "text_message"); ("text", "hi")])
              Sample.send_ok Sample.one_client))
  = [(0, m_send_text (JStr "hi"))].
Proof.
  assert (More.json_loads
            (Sample.object_text [("type", "text_message"); ("text", "hi")])
          = Some (JObj [("type", JStr "text_message"); ("text", JStr "hi")]))
    as Hj by (vm_compute; reflexivity).
  split; [exact Hj|]. split; [reflexivity|]. split; [reflexivity|].
  exact (proj1 (proj2 (proj2
    (text_frame_one_send_text More.json_loads Sample.format Sample.transport
       Sample.one_client 10 0 _ _ (JStr "hi") Sample.send_ok
       Hj eq_refl eq_refl eq_refl eq_refl)))).
Defined.

Lemma send_audio_failing {S} (w : World S) self audio mime o :
  streaming (client_at w self) = false \/ delivered o = false ->
  value (Gemini.send_audio self audio mime o w) = Ok false.
Proof.
  intros H. destruct (streaming (client_at w self)) eqn:Hstr.
  - destruct H as [?|Hd]; [done|]. unfold streaming in Hstr.
    apply andb_true_iff in Hstr as [Hs Hc].
    apply bool_decide_eq_true in Hs as [h Hs].
    by rewrite (send_audio_live self h audio mime o w Hs Hc), Hd.
  - by rewrite send_audio_idle.
Qed.

Lemma send_text_failing {S} (w : World S) self text o :
  streaming (client_at w self) = false \/ delivered o = false ->
  value (Gemini.send_text self text o w) = Ok false.
Proof.
  intros H. destruct (streaming (client_at w self)) eqn:Hstr.
  - destruct H as [?|Hd]; [done|]. unfold streaming in Hstr.
    apply andb_true_iff in Hstr as [Hs Hc].
    apply bool_decide_eq_true in Hs as [h Hs].
    by rewrite (send_text_live self h text o w Hs Hc), Hd.
  - by rewrite send_text_idle.
Qed.

(** X12. When the backend call of a frame fails, because the adapter does
    not stream or because the SDK raises, the client gets exactly one
    [error] frame, the one for audio or the one for text, and the
    connection stays as it was: nothing is closed or unregistered. *)
Theorem failed_send_answered_with_error
    (json_loads : string -> option json) (format : json -> string)
    (transport : WebSocket -> json -> Outcome)
    (w : World WS.VoiceAIWebSocketServer) (ws : WebSocket) (a : Addr)
    (message : string) (items : list (string * json)) (o : SendEnv) :
  json_loads message = Some (JObj items) ->
  WS.clients (server w) !! ws = Some a ->
  ws ∈ WS.active_connections (server w) ->
  streaming (client_at w a) = false \/ delivered o = false ->
  let r := WS.handle_client_message json_loads format transport ws message o w in
  after r = w /\
  (forall X,
     assoc "type" items = Some (JStr "audio_data") ->
     assoc "data" items = Some (JStr (b64encode X)) -> X <> [] ->
     frames_sent (trace r) =
       [(ws, error_frame "Ошибка отправки аудио в Gemini")]) /\
  (forall text,
     assoc "type" items = Some (JStr "text_message") ->
     assoc "text" items = Some text -> truthy text = true ->
     frames_sent (trace r) =
       [(ws, error_frame "Ошибка отправки текста в Gemini")]).
Proof.
  intros Hj Hreg Hact Hfail r. subst r.
  split; [apply Totality.handler_keeps_world|]. split.
  - intros X Hty Hdata HX.
    assert (truthy (JStr (b64encode X)) = true) as Htr.
    { cbn. apply negb_true_iff, String.eqb_neq. intros E.
      by apply HX, Base64Facts.b64encode_empty. }
    rewrite (Dispatch.audio_decoded json_loads format transport ws message o w
               items a X Hj Hreg); rewrite ?Hty, ?Hdata, ?default_some; auto.
    2: { unfold py_b64decode. by rewrite Base64Facts.b64decode_b64encode. }
    cbv zeta. rewrite send_audio_failing by done.
    destruct (send_audio_run (S:=WS.VoiceAIWebSocketServer) a X
                (default (JStr "audio/pcm;rate=16000")
                   (assoc "mime_type" items)) o w) as (ok & t & -> & Ht).
    rewrite (WSFacts.send_to_client_active transport _ _ _ Hact).
    unfold trace. cbn [snd]. by destruct Ht as [->|(h & _ & ->)].
  - intros text Hty Htext Htr.
    rewrite (Dispatch.text_passed json_loads format transport ws message o w
               items a Hj Hreg); rewrite ?Hty, ?Htext, ?default_some; auto.
    cbv zeta. rewrite send_text_failing by done.
    destruct (send_text_run (S:=WS.VoiceAIWebSocketServer) a text o w)
      as (ok & t & -> & Ht).
    rewrite (WSFacts.send_to_client_active transport _ _ _ Hact).
    unfold trace. cbn [snd]. by destruct Ht as [->|(h & _ & ->)].
Qed.

(** A text frame on websocket 10 while the session refuses the send. *)
Lemma failed_send_witness :
  More.json_loads
    (Sample.object_text [("type", "text_message"); ("text", "hi")])
  = Some (JObj [("type", JStr "text_message"); ("text", JStr "hi")]) /\
  WS.clients (server Sample.one_client) !! 10 = Some 0 /\
  10 ∈ WS.active_connections (server Sample.one_client) /\
  delivered More.send_broken = false /\
  frames_sent
    (trace (More.handle 10
              (Sample.object_text [("type", "text_message"); ("text", "hi")])
              More.send_broken Sample.one_client))
  = [(10, error_frame "Ошибка отправки текста в Gemini")].
Proof.
  assert (More.json_loads
            (Sample.object_text [("type", "text_message"); ("text", "hi")])
          = Some (JObj [("type", JStr "text_message"); ("text", JStr "hi")]))
    as Hj by (vm_compute; reflexivity).
  assert (10 ∈ WS.active_connections (server Sample.one_client)) as Hact
    by (vm_compute; reflexivity).
  split; [exact Hj|]. split; [reflexivity|]. split; [exact Hact|].
  split; [reflexivity|].
  exact (proj2 (proj2
    (failed_send_answered_with_error More.json_loads Sample.format
       Sample.transport Sample.one_client 10 0 _ _ More.send_broken
       Hj eq_refl Hact (or_intror eq_refl)))
    (JStr "hi") eq_refl eq_refl eq_refl).
Defined.

(** X13. An [audio_data] frame whose [data] is truthy but is not a string,
    or is a string that [base64.b64decode] rejects, is answered with
    exactly one [error] frame, the one for undecodable audio; no adapter is
    called and nothing changes. *)
Theorem undecodable_audio_answered_with_error
    (json_loads : string -> option json) (format : json -> string)
    (transport : WebSocket -> json -> Outcome)
    (w : World WS.VoiceAIWebSocketServer) (ws : WebSocket) (a : Addr)
    (message : string) (items : list (string * json)) (payload : json)
    (o : SendEnv) :
  json_loads message = Some (JObj items) ->
  assoc "type" items = Some (JStr "audio_data") ->
  assoc "data" items = Some payload ->
  truthy payload = true ->
  (forall s, payload = JStr s -> exists fault, b64decode s = inl fault) ->
  WS.clients (server w) !! ws = Some a ->
  ws ∈ WS.active_connections (server w) ->
  WS.handle_client_message json_loads format transport ws message o w =
  (Ok tt, w, [WsSend ws (error_frame "Ошибка декодирования аудио данных")]).
Proof.
  intros Hj Hty Hdata Htr Hbad Hreg Hact.
  assert (exists e, py_b64decode (S:=WS.VoiceAIWebSocketServer) payload w
                    = (Raise e, w, [])) as [e Hdec].
  { destruct payload; try (eexists; reflexivity).
    destruct (Hbad s eq_refl) as [fault Hf]. unfold py_b64decode.
    rewrite Hf. destruct fault; eexists; reflexivity. }
  rewrite (Dispatch.audio_undecodable json_loads format transport ws message
             o w items a e Hj Hreg); rewrite ?Hty, ?Hdata, ?default_some; auto.
  by apply WSFacts.send_to_client_active.
Qed.

(** An audio frame whose data is the single character A. *)
Lemma undecodable_audio_witness :
  More.json_loads (Sample.object_text [("type", "audio_data"); ("data", "A")])
  = Some (JObj [("type", JStr "audio_data"); ("data", JStr "A")]) /\
  b64decode "A"
  = inl (BinasciiError
           ("Invalid base64-encoded string: number of data characters (1) "
              +:+ "cannot be 1 more than a multiple of 4")) /\
  More.handle 10 (Sample.object_text [("type", "audio_data"); ("data", "A")])
    Sample.send_ok Sample.one_client
  = (Ok tt, Sample.one_client,
     [WsSend 10 (error_frame "Ошибка декодирования аудио данных")]).
Proof.
  assert (More.json_loads
            (Sample.object_text [("type", "audio_data"); ("data", "A")])
          = Some (JObj [("type", JStr "audio_data"); ("data", JStr "A")]))
    as Hj by (vm_compute; reflexivity).
  split; [exact Hj|]. split; [reflexivity|].
  refine (undecodable_audio_answered_with_error More.json_loads Sample.format
            Sample.transport Sample.one_client 10 0 _ _ (JStr "A")
            Sample.send_ok Hj eq_refl eq_refl eq_refl _ eq_refl _).
  - intros s [= <-]. eexists. reflexivity.
  - vm_compute. reflexivity.
Defined.

(** X14. A frame whose [type] is none of the five the handler knows,
    which includes a frame without [type], is answered with exactly one
    [error] frame that names the type as [str] prints it; no adapter is
    called and nothing changes. *)
Theorem unknown_type_answered_with_error
    (json_loads : string -> option json) (format : json -> string)
    (transport : WebSocket -> json -> Outcome)
    (w : World WS.VoiceAIWebSocketServer) (ws : WebSocket) (a : Addr)
    (message : string) (items : list (string * json)) (o : SendEnv) :
  json_loads message = Some (JObj items) ->
  WS.clients (server w) !! ws = Some a ->
  ws ∈ WS.active_connections (server w) ->
  let ty := default JNull (assoc "type" items) in
  (forall known,
     known ∈ ["audio_data"; "text_message"; "user_speaking_started";
              "user_speaking_stopped"; "ping"] -> ty <> JStr known) ->
  WS.handle_client_message json_loads format transport ws message o w =
  (Ok tt, w,
   [WsSend ws (error_frame ("Неизвестный тип сообщения: " +:+ format ty))]).
Proof.
  intros Hj Hreg Hact ty Hnot.
  assert (forall known,
            known ∈ ["audio_data"; "text_message"; "user_speaking_started";
                     "user_speaking_stopped"; "ping"] ->
            eq_str ty known = false) as Hno.
  { intros known Hin. specialize (Hnot known Hin).
    destruct ty; try reflexivity. cbn. apply String.eqb_neq. congruence. }
  rewrite (Dispatch.unknown_type json_loads format transport ws message o w
             items a Hj Hreg); try (apply Hno; set_solver +).
  by apply WSFacts.send_to_client_active.
Qed.

(** A frame of the unknown type dance. *)
Lemma unknown_type_witness :
  More.json_loads (Sample.object_text [("type", "dance")])
  = Some (JObj [("type", JStr "dance")]) /\
  More.handle 10 (Sample.object_text [("type", "dance")]) Sample.send_ok
    Sample.one_client
  = (Ok tt, Sample.one_client,
     [WsSend 10 (error_frame "Неизвестный тип сообщения: dance")]).
Proof.
  assert (More.json_loads (Sample.object_text [("type", "dance")])
          = Some (JObj [("type", JStr "dance")])) as Hj
    by (vm_compute; reflexivity).
  split; [exact Hj|].
  refine (unknown_type_answered_with_error More.json_loads Sample.format
            Sample.transport Sample.one_client 10 0 _ _ Sample.send_ok
            Hj eq_refl _ _).
  - vm_compute. reflexivity.
  - intros known Hin. cbn. intros [= <-]. revert Hin.
    rewrite !elem_of_cons, elem_of_nil. intros [?|[?|[?|[?|[?|[]]]]]]; done.
Defined.

(** X15. A frame that is JSON but not an object (a list, a number, a
    string, [null], a boolean) makes [data.get] raise; the handler answers
    with exactly one [error] frame that carries the text of that exception,
    looks nothing up and calls nothing. *)
Theorem non_object_answered_with_error
    (json_loads : string -> option json) (format : json -> string)
    (transport : WebSocket -> json -> Outcome)
    (w : World WS.VoiceAIWebSocketServer) (ws : WebSocket)
    (message : string) (data : json) (o : SendEnv) :
  json_loads message = Some data ->
  (forall items, data <> JObj items) ->
  ws ∈ WS.active_connections (server w) ->
  WS.handle_client_message json_loads format transport ws message o w =
  (Ok tt, w,
   [WsSend ws
      (error_frame ("Ошибка обработки сообщения: '" +:+ type_name data
                      +:+ "' object has no attribute 'get'"))]).
Proof.
  intros Hj Hno Hact.
  rewrite (Dispatch.not_an_object json_loads format transport ws message o w
             data Hj Hno).
  by apply WSFacts.send_to_client_active.
Qed.

(** The frame [[]] on websocket 10. *)
Lemma non_object_witness :
  More.json_loads "[]" = Some (JArr []) /\
  More.handle 10 "[]" Sample.send_ok Sample.one_client
  = (Ok tt, Sample.one_client,
     [WsSend 10
        (error_frame
           "Ошибка обработки сообщения: 'list' object has no attribute 'get'")]).
Proof.
  split; [reflexivity|].
  refine (non_object_answered_with_error More.json_loads Sample.format
            Sample.transport Sample.one_client 10 "[]" (JArr [])
            Sample.send_ok eq_refl _ _).
  - intros items. discriminate.
  - vm_compute. reflexivity.
Defined.

(** X16. A [ping] frame on a registered connection is answered with exactly
    one [pong] frame; no adapter is called and nothing changes. *)
Theorem ping_answered_with_pong
    (json_loads : string -> option json) (format : json -> string)
    (transport : WebSocket -> json -> Outcome)
    (w : World WS.VoiceAIWebSocketServer) (ws : WebSocket) (a : Addr)
    (message : string) (items : list (string * json)) (o : SendEnv) :
  json_loads message = Some (JObj items) ->
  assoc "type" items = Some (JStr "ping") ->
  WS.clients (server w) !! ws = Some a ->
  ws ∈ WS.active_connections (server w) ->
  WS.handle_client_message json_loads format transport ws message o w =
  (Ok tt, w, [WsSend ws (JObj [("type", JStr "pong")])]).
Proof.
  intros Hj Hty Hreg Hact.
  exact (Frames.dispatch_ack json_loads format transport ws message o w
           items "ping" "pong" a Hj Hty Hreg Hact
           (or_intror (or_intror (conj eq_refl eq_refl)))).
Qed.

(** A ping on websocket 10. *)
Lemma ping_witness :
  Sample.json_loads (Sample.object_text [("type", "ping")])
  = Some (JObj [("type", JStr "ping")]) /\
  Sample.handle 10 (Sample.object_text [("type", "ping")]) Sample.send_ok
    Sample.one_client
  = (Ok tt, Sample.one_client, [WsSend 10 (JObj [("type", JStr "pong")])]).
Proof.
  assert (Sample.json_loads (Sample.object_text [("type", "ping")])
          = Some (JObj [("type", JStr "ping")])) as Hj
    by (vm_compute; reflexivity).
  split; [exact Hj|].
  refine (ping_answered_with_pong Sample.json_loads Sample.format
            Sample.transport Sample.one_client 10 0 _ _ Sample.send_ok
            Hj eq_refl eq_refl _).
  vm_compute. reflexivity.
Defined.

(** X17. A frame from a websocket that is not in the registry reaches no
    adapter and changes nothing. When the websocket is not active either,
    the frame has no effect at all, whatever it is: not even the "session
    not established" error is written. When the websocket is active
    without being registered, which is how [register_client] leaves it when
    the constructor of its adapter raised, a frame that is a JSON object is
    answered with exactly one [error] frame, "session not established". *)
Theorem unregistered_websocket_answer
    (json_loads : string -> option json) (format : json -> string)
    (transport : WebSocket -> json -> Outcome)
    (w : World WS.VoiceAIWebSocketServer) (ws : WebSocket)
    (message : string) (o : SendEnv) :
  WS.clients (server w) !! ws = None ->
  let r := WS.handle_client_message json_loads format transport ws message o w in
  value r = Ok tt /\
  after r = w /\
  adapter_calls (trace r) = [] /\
  remote_calls (trace r) = [] /\
  (ws ∉ WS.active_connections (server w) -> trace r = []) /\
  (ws ∈ WS.active_connections (server w) ->
   forall items, json_loads message = Some (JObj items) ->
     trace r = [WsSend ws (error_frame "Сессия не установлена")]).
Proof.
  intros Hreg r.
  assert (exists m, r = WS.send_to_client transport ws m w /\
                    forall items, json_loads message = Some (JObj items) ->
                                  m = error_frame "Сессия не установлена")
    as (m & -> & Hm).
  { subst r. destruct (json_loads message) as [data|] eqn:Hj.
    2: { eexists. split;
           [apply (Frames.not_json _ format transport _ _ _ _ Hj)|done]. }
    assert ((exists items, data = JObj items) \/ forall items, data <> JObj items)
      as [[items ->]|Hno].
    { destruct data; try (by right); left; eauto. }
    - eexists. split;
        [apply (Dispatch.not_registered json_loads format transport ws message
                  o w items Hj Hreg)|done].
    - eexists. split;
        [apply (Dispatch.not_an_object json_loads format transport ws message
                  o w data Hj Hno)|].
      intros items [= ->]. by destruct (Hno items). }
  rewrite WSFacts.send_to_client_run. unfold value, after, trace.
  cbn [fst snd].
  split; [done|]. split; [done|].
  split; [by destruct (bool_decide _)|].
  split; [by destruct (bool_decide _)|]. split.
  - intros Hoff. by rewrite bool_decide_eq_false_2.
  - intros Hon items Hj. by rewrite bool_decide_eq_true_2, (Hm items Hj).
Qed.

(** Websocket 10, whose adapter could not be built, sends a ping. *)
Lemma unregistered_witness :
  WS.clients (server More.half_registered) !! 10 = None /\
  10 ∈ WS.active_connections (server More.half_registered) /\
  trace (Sample.handle 10 (Sample.object_text [("type", "ping")])
           Sample.send_ok More.half_registered)
  = [WsSend 10 (error_frame "Сессия не установлена")].
Proof.
  assert (10 ∈ WS.active_connections (server More.half_registered)) as Hon.
  { vm_compute. reflexivity. }
  split; [reflexivity|]. split; [exact Hon|].
  exact (proj2 (proj2 (proj2 (proj2 (proj2
           (unregistered_websocket_answer Sample.json_loads Sample.format
              Sample.transport More.half_registered 10
              (Sample.object_text [("type", "ping")]) Sample.send_ok
              eq_refl))))) Hon _ eq_refl).
Defined.

(** ** The connection manager (main_integrated.py) *)

Module Managed.
Section Managed.

Variable json_loads : string -> option json.
Variable format : json -> string.
Variable transport : WebSocket -> json -> Outcome.

Local Abbreviation W := (World Integrated.ConnectionManager).
Local Abbreviation handle :=
  (Integrated.handle_message json_loads format transport).
Local Abbreviation send := (Integrated.send_to_client transport).
Implicit Types (w : W) (ws : WebSocket).

Lemma send_unknown ws message w :
  Integrated.active_connections (server w) !! ws = None ->
  send ws message w = (Ok tt, w, []).
Proof.
  intros Hnone. rewrite IntegratedFacts.manager_send_run, Hnone.
  rewrite bool_decide_eq_false_2; [done|]. by intros [? ?].
Qed.

Lemma send_known ws message w a :
  Integrated.active_connections (server w) !! ws = Some a ->
  send ws message w = (Ok tt, w, [WsSend ws message]).
Proof.
  intros Hsome. rewrite IntegratedFacts.manager_send_run, Hsome.
  rewrite bool_decide_eq_true_2; [done|]. eauto.
Qed.

(** Every path of the handler for a websocket that is not in the table
    ends in a [send_to_client] that writes nothing. *)
Lemma unknown_handled ws message o w :
  Integrated.active_connections (server w) !! ws = None ->
  handle ws message o w = (Ok tt, w, []).
Proof.
  intros Hnone. unfold Integrated.handle_message, Integrated.loads.
  destruct (json_loads message) as [data|] eqn:Hj.
  - destruct data as [|b|n|f|s|l|items].
    1-6: erewrite try_raise by (rewrite bind_ret; cbn [dict_get];
                                rewrite bind_raise; reflexivity).
    1-6: cbn [is_JSONDecodeError]; by rewrite send_unknown.
    apply try_ok. go. rewrite Hnone. by apply send_unknown.
  - erewrite try_raise by (rewrite bind_raise; reflexivity).
    cbn [is_JSONDecodeError]. by rewrite send_unknown.
Qed.







End Managed.
End Managed.

(** X18. In main_integrated.py a frame from a websocket that is not in the
    table has no effect at all, in any state and whatever the frame: the
    handler's "session not established" error is never written, because
    [send_to_client] looks the websocket up in the same table. *)
Theorem unknown_websocket_gets_nothing
    (json_loads : string -> option json) (format : json -> string)
    (transport : WebSocket -> json -> Outcome)
    (w : World Integrated.ConnectionManager) (ws : WebSocket)
    (message : string) (o : SendEnv) :
  Integrated.active_connections (server w) !! ws = None ->
  Integrated.handle_message json_loads format transport ws message o w =
  (Ok tt, w, []).
Proof. apply Managed.unknown_handled. Qed.

(** A ping from websocket 99, which never connected. *)
Lemma unknown_websocket_witness :
  Integrated.active_connections (server More.one_managed) !! 99 = None /\
  Integrated.handle_message Sample.json_loads Sample.format Sample.transport
    99 (Sample.object_text [("type", "ping")]) Sample.send_ok More.one_managed
  = (Ok tt, More.one_managed, []).
Proof.
  split; [reflexivity|].
  exact (unknown_websocket_gets_nothing Sample.json_loads Sample.format
           Sample.transport More.one_managed 99 _ Sample.send_ok eq_refl).
Defined.



(** ** The registry as a whole (websocket_server.py) *)

(** X21. [register_client] when the adapter object is built
    ([GeminiLiveClient(...)] returns) and the backend opens the session:
    the client gets exactly one frame, [connection_established]; the
    registry maps the websocket to a new adapter that streams, with the
    websocket as the target of its callback; and the listening task of that
    adapter is created. *)
Theorem successful_connect_is_announced
    (transport : WebSocket -> json -> Outcome)
    (w : World WS.VoiceAIWebSocketServer) (ws : WebSocket) (o : ConnectEnv) :
  opened o = true ->
  let r := WS.register_client transport ws Returns o w in
  let a := fresh (dom (heap w)) in
  value r = Ok tt /\
  frames_sent (trace r) =
    [(ws, JObj [("type", JStr "connection_established");
                ("message", JStr "Успешно подключились к Gemini Live API")])] /\
  WS.clients (server (after r)) !! ws = Some a /\
  ws ∈ WS.active_connections (server (after r)) /\
  streaming (client_at (after r) a) = true /\
  message_callback (client_at (after r) a) = Some ws /\
  CreateTask a ∈ trace r.
Proof.
  intros Hok r a. subst r. rewrite Registry.register_run. fold a.
  unfold value, after, trace. cbn [fst snd server heap WS.clients
    WS.active_connections].
  rewrite Hok. unfold opened in Hok. unfold connect_trace, opened.
  destruct (live_connect o) as [e|h] eqn:Hl; [done|].
  destruct (aenter o) eqn:He; [|done].
  split; [done|]. split; [done|]. split; [apply lookup_insert_eq|].
  split. { apply elem_of_union. left. by apply elem_of_singleton. }
  unfold client_at. cbn [heap]. rewrite lookup_insert_eq. cbn [default].
  unfold streaming, connected_client, opened. rewrite Hl, He. cbn.
  repeat split.
  apply elem_of_cons. right. apply elem_of_cons. right.
  apply elem_of_cons. by left.
Qed.

(** The adapter is built and the backend opens session 1 for websocket
    10. *)
Lemma successful_connect_witness :
  opened (Sample.connect_ok 1) = true /\
  frames_sent
    (trace (WS.register_client Sample.transport 10 Returns
              (Sample.connect_ok 1) (WS.empty_server "key")))
  = [(10, JObj [("type", JStr "connection_established");
                ("message", JStr "Успешно подключились к Gemini Live API")])].
Proof.
  split; [reflexivity|].
  exact (proj1 (proj2 (successful_connect_is_announced Sample.transport
                         (WS.empty_server "key") 10 (Sample.connect_ok 1)
                         eq_refl))).
Defined.

(** X22. [register_client] touches its own websocket and nothing else,
    whatever the constructor and the backend do: the websocket is added to
    the active connections, every other registry entry and every adapter
    that existed stay as they were. When the adapter object is built it
    returns normally and stores that object, a new one, under the
    websocket, which makes the registry one entry larger for a websocket
    that was not registered. When the constructor raises it raises that
    exception, calls nothing and stores nothing: the registry and the
    adapters are as before, and the websocket stays active. *)
Theorem register_leaves_the_others
    (transport : WebSocket -> json -> Outcome)
    (w : World WS.VoiceAIWebSocketServer) (ws : WebSocket) (init : Outcome)
    (o : ConnectEnv) :
  let r := WS.register_client transport ws init o w in
  let a := fresh (dom (heap w)) in
  WS.active_connections (server (after r))
    = {[ws]} ∪ WS.active_connections (server w) /\
  heap w !! a = None /\
  (forall other, other <> ws ->
     WS.clients (server (after r)) !! other = WS.clients (server w) !! other) /\
  (forall b, is_Some (heap w !! b) -> heap (after r) !! b = heap w !! b) /\
  (init = Returns ->
   value r = Ok tt /\
   WS.clients (server (after r)) = <[ws := a]> (WS.clients (server w)) /\
   (WS.clients (server w) !! ws = None ->
    size (WS.clients (server (after r))) = S (size (WS.clients (server w))))) /\
  (forall e, init = Raises e ->
   value r = Raise e /\
   trace r = [] /\
   WS.clients (server (after r)) = WS.clients (server w) /\
   heap (after r) = heap w).
Proof.
  cbv zeta.
  pose proof (is_fresh (dom (heap w))) as Hfresh.
  apply not_elem_of_dom in Hfresh.
  destruct init as [|e0].
  - rewrite Registry.register_run.
    unfold value, after. cbn [fst snd server heap WS.clients
      WS.active_connections].
    split; [done|]. split; [done|].
    split. { intros other Hne. by rewrite lookup_insert_ne. }
    split. { intros b [c Hb]. rewrite lookup_insert_ne; [done|]. congruence. }
    split; [|by intros e [=]].
    intros _. split; [done|]. split; [done|].
    intros Hnew. by apply map_size_insert_None.
  - rewrite Registry.register_raises.
    unfold value, after, trace. cbn [fst snd server heap WS.clients
      WS.active_connections].
    split; [done|]. split; [done|]. split; [done|]. split; [done|].
    split; [by intros [=]|]. by intros e [= <-].
Qed.

(** X23. In every world that the server can reach, also after constructors
    that raised, while a [register_client] waits for its session and in the
    middle of an [unregister_client], every registered websocket has an
    adapter of its own, stored in the heap, no adapter being shared by two
    websockets, and the callback of that adapter leads back to the
    websocket. (The registry and the set of active connections need not
    hold the same websockets: a constructor that raised leaves a websocket
    active without an entry, and an [unregister_client] that waits for
    [__aexit__] has an entry for a websocket that is no longer active.) *)
Theorem registry_stays_consistent
    (json_loads : string -> option json) (format : json -> string)
    (transport : WebSocket -> json -> Outcome)
    (w : World WS.VoiceAIWebSocketServer) :
  Run.reachable json_loads format transport w ->
  (forall ws1 ws2 a,
     WS.clients (server w) !! ws1 = Some a ->
     WS.clients (server w) !! ws2 = Some a -> ws1 = ws2) /\
  (forall ws a,
     WS.clients (server w) !! ws = Some a ->
     is_Some (heap w !! a) /\ message_callback (client_at w a) = Some ws).
Proof.
  intros Hreach.
  destruct (Invariant.reachable_inv _ _ _ _ Hreach) as [Hheap Hown Hcb].
  split; [done|].
  intros ws a Hws. destruct (Hheap _ _ Hws) as [c Hc]. split; [eauto|].
  unfold client_at. rewrite Hc. eauto.
Qed.

(** Two clients registered one after the other, the first of which is in
    the middle of its [unregister_client]: its entry is there, with its
    adapter and callback, and it is no longer active. *)
Lemma registry_consistent_witness :
  let w := after (Run.unregister_until_aexit 10 Sample.two_clients) in
  Run.reachable Sample.json_loads Sample.format Sample.transport w /\
  WS.clients (server w) !! 10 = Some 0 /\
  bool_decide (10 ∈ WS.active_connections (server w)) = false /\
  message_callback (client_at w 0) = Some 10.
Proof.
  cbv zeta.
  assert (Run.reachable Sample.json_loads Sample.format Sample.transport
            (after (Run.unregister_until_aexit 10 Sample.two_clients)))
    as Hreach.
  { eapply Run.reach_step;
      [eapply Run.reach_step;
         [eapply Run.reach_step; [apply (Run.reach_empty _ _ _ "key")|]|]|];
      [apply Run.step_register|apply Run.step_register
      |apply Run.step_until_aexit]. }
  split; [exact Hreach|]. split; [reflexivity|]. split; [reflexivity|].
  exact (proj2 (proj2 (registry_stays_consistent Sample.json_loads
                         Sample.format Sample.transport _ Hreach)
                  10 0 eq_refl)).
Defined.


(** ** main.py and the endpoints of main_integrated.py *)

Module Endpoints.
Section Endpoints.

Variable transport : WebSocket -> json -> Outcome.

Local Abbreviation App := (option WS.VoiceAIWebSocketServer).

(** A send through the server object leaves main.py's world as it was. *)
Lemma instance_send_run ws message (s : WS.VoiceAIWebSocketServer) h :
  Main.instance_send_to_client transport ws message (mkWorld (Some s) h) =
  (Ok tt, mkWorld (Some s) h,
   if bool_decide (ws ∈ WS.active_connections s) then [WsSend ws message]
   else []).
Proof.
  unfold Main.instance_send_to_client. cbn [server heap].
  by rewrite WSFacts.send_to_client_run.
Qed.

(** The loop of main.py's broadcast over websockets that are active. *)
Lemma main_loop_run targets message n (s : WS.VoiceAIWebSocketServer) h :
  (forall ws, ws ∈ targets -> ws ∈ WS.active_connections s) ->
  Main.broadcast_loop transport targets message n (mkWorld (Some s) h) =
  (Ok (n + Z.of_nat (length targets))%Z, mkWorld (Some s) h,
   (fun ws => WsSend ws message) <$> targets).
Proof.
  revert n. induction targets as [|ws rest IH]; intros n Hall.
  - cbn. by rewrite Z.add_0_r.
  - cbn [Main.broadcast_loop].
    assert (try_except
              (bind (Main.instance_send_to_client transport ws message)
                    (fun _ => ret (n + 1)%Z))
              (fun _ => ret n) (mkWorld (Some s) h)
            = (Ok (n + 1)%Z, mkWorld (Some s) h, [WsSend ws message])) as Hone.
    { apply try_ok. rewrite (bind_ok _ _ _ _ _ _ (instance_send_run ws message s h)).
      rewrite bool_decide_eq_true_2 by (apply Hall, elem_of_cons; by left).
      reflexivity. }
    rewrite (bind_ok _ _ _ _ _ _ Hone), IH.
    + unfold value, after, trace. cbn [fst snd fmap list_fmap app length].
      do 3 f_equal. lia.
    + intros x Hx. apply Hall, elem_of_cons. by right.
Qed.

(** The loop of main_integrated.py's broadcast over websockets of the
    table. *)
Lemma managed_loop_run targets message n
    (w : World Integrated.ConnectionManager) :
  (forall ws, ws ∈ targets ->
     is_Some (Integrated.active_connections (server w) !! ws)) ->
  IntegratedApp.broadcast_loop transport targets message n w =
  (Ok (n + Z.of_nat (length targets))%Z, w,
   (fun ws => WsSend ws message) <$> targets).
Proof.
  revert n. induction targets as [|ws rest IH]; intros n Hall.
  - cbn. by rewrite Z.add_0_r.
  - cbn [IntegratedApp.broadcast_loop].
    assert (try_except
              (bind (Integrated.send_to_client transport ws message)
                    (fun _ => ret (n + 1)%Z))
              (fun _ => ret n) w
            = (Ok (n + 1)%Z, w, [WsSend ws message])) as Hone.
    { apply try_ok.
      destruct (Hall ws) as [a Ha]; [apply elem_of_cons; by left|].
      by rewrite (bind_ok _ _ _ _ _ _
                    (Managed.send_known transport ws message w a Ha)). }
    rewrite (bind_ok _ _ _ _ _ _ Hone), IH.
    + unfold value, after, trace. cbn [fst snd fmap list_fmap app length].
      do 3 f_equal. lia.
    + intros x Hx. apply Hall, elem_of_cons. by right.
Qed.


End Endpoints.
End Endpoints.

(** X26. [/broadcast] of main.py, with the server started: every active
    websocket is sent the message exactly once and nothing else is done;
    [sent_to] and [total_connections] are both the number of active
    connections, whatever the transport does with the frames, because
    [send_to_client] swallows what the transport raises; the world is
    unchanged. Without a server the answer is 503 and nothing is sent. *)
Theorem broadcast_counts_every_connection
    (transport : WebSocket -> json -> Outcome)
    (s : WS.VoiceAIWebSocketServer) (h : gmap Addr GeminiLiveClient)
    (message : json) :
  let n := Z.of_nat (size (WS.active_connections s)) in
  let r := Main.broadcast_message transport message (mkWorld (Some s) h) in
  value r = Ok (inr (JObj [("message", JStr "Сообщение отправлено");
                            ("sent_to", JInt n);
                            ("total_connections", JInt n)])) /\
  after r = mkWorld (Some s) h /\
  trace r ≡ₚ (fun ws => WsSend ws message) <$> elements (WS.active_connections s) /\
  NoDup (elements (WS.active_connections s)) /\
  (forall ws, ws ∈ WS.active_connections s <->
              (ws, message) ∈ frames_sent (trace r)) /\
  Main.broadcast_message transport message (mkWorld None h) =
    (Ok (inl (Main.mkHTTPException 503 "WebSocket сервер не запущен")),
     mkWorld None h, []).
Proof.
  cbv zeta. unfold Main.broadcast_message at 1 2 3 4.
  rewrite !bind_gets. cbn [server].
  rewrite (bind_ok _ _ _ _ _ _
             (Endpoints.main_loop_run transport
                (elements (WS.active_connections s)) message 0 s h
                (fun ws Hin => proj1 (elem_of_elements _ _) Hin))).
  rewrite bind_gets. cbn [server].
  unfold value, after, trace. cbn [fst snd]. rewrite app_nil_r.
  split; [done|]. split; [done|]. split; [done|].
  split; [apply NoDup_elements|]. split; [|reflexivity].
  intros ws. rewrite <- elem_of_elements.
  induction (elements (WS.active_connections s)) as [|x l IH].
  - cbn. by rewrite !elem_of_nil.
  - cbn [fmap list_fmap].
    change (frames_sent (WsSend x message :: ?t))
      with ((x, message) :: frames_sent t).
    rewrite !elem_of_cons, IH. split; intros [?|?]; auto.
    + left. congruence.
    + left. congruence.
Qed.

(** X27. [/broadcast] of main_integrated.py: every websocket of the table
    is sent the message exactly once and nothing else is done; [sent_to]
    and [total_connections] are both the size of the table, whatever the
    transport does with the frames; the world is unchanged. *)
Theorem managed_broadcast_counts_every_connection
    (transport : WebSocket -> json -> Outcome)
    (w : World Integrated.ConnectionManager) (message : json) :
  let n := Z.of_nat (size (Integrated.active_connections (server w))) in
  let r := IntegratedApp.broadcast_message transport message w in
  value r = Ok (JObj [("message", JStr "Сообщение отправлено");
                      ("sent_to", JInt n);
                      ("total_connections", JInt n)]) /\
  after r = w /\
  trace r ≡ₚ (fun ws => WsSend ws message)
               <$> (map_to_list (Integrated.active_connections (server w))).*1 /\
  NoDup (map_to_list (Integrated.active_connections (server w))).*1 /\
  (forall ws, is_Some (Integrated.active_connections (server w) !! ws) <->
              (ws, message) ∈ frames_sent (trace r)).
Proof.
  cbv zeta. unfold IntegratedApp.broadcast_message at 1 2 3 4.
  rewrite !bind_gets.
  assert (forall ws,
            ws ∈ (map_to_list (Integrated.active_connections (server w))).*1 <->
            is_Some (Integrated.active_connections (server w) !! ws)) as Hkeys.
  { intros ws. rewrite list_elem_of_fmap. split.
    - intros ([k a] & -> & Hin). apply elem_of_map_to_list in Hin. eauto.
    - intros [a Ha]. exists (ws, a). split; [done|].
      by apply elem_of_map_to_list. }
  rewrite (bind_ok _ _ _ _ _ _
             (Endpoints.managed_loop_run transport _ message 0 w
                (fun ws Hin => proj1 (Hkeys ws) Hin))).
  rewrite bind_gets.
  unfold value, after, trace. cbn [fst snd]. rewrite app_nil_r.
  rewrite length_fmap, length_map_to_list. cbn [Z.add].
  split; [done|]. split; [done|]. split; [done|].
  split; [apply NoDup_fst_map_to_list|].
  intros ws. rewrite <- Hkeys. clear Hkeys.
  induction ((map_to_list (Integrated.active_connections (server w))).*1)
    as [|x l IH].
  - cbn. by rewrite !elem_of_nil.
  - cbn [fmap list_fmap].
    change (frames_sent (WsSend x message :: ?t))
      with ((x, message) :: frames_sent t).
    rewrite !elem_of_cons, IH. split; intros [?|?]; auto.
    + left. congruence.
    + left. congruence.
Qed.

